(** * CameraHardware: the camera HAL session object of the V4L2 camera stack

    A shallow embedding of [hardware/camera/CameraHardware.cpp]: the
    session object that routes the [camera_device_ops_t] calls to the
    V4L2 device, the preview window and the callback notifier, and that
    owns the parameter store.

    Layout of the development:
    - machine integers, status codes and the C string helpers;
    - [CameraParameters], the keyed string map the file reads and writes;
    - the three collaborators ([V4L2CameraDevice], [PreviewWindow],
      [CallbackNotifier]) as interfaces, since only their call sites are
      part of the file;
    - the session state and a state-and-fault monad, then the methods of
      [CameraHardware] in the order of the source;
    - a reference implementation of the collaborators, used to run the
      methods on concrete sessions;
    - the vocabulary of the specifications, a small program logic for
      the monad, and the properties, each followed further down by its
      run on a reference session. *)

From Stdlib Require Import ZArith String Ascii List Lia Bool.
From stdpp Require Import base option gmap strings pretty.
Import ListNotations.

Open Scope string_scope.
Open Scope list_scope.
Open Scope Z_scope.

(** ** Machine integers and status codes *)

(** [int] and [status_t] are 32-bit two's complement integers. *)
Definition INT_MIN : Z := - 2 ^ 31.
Definition INT_MAX : Z := 2 ^ 31 - 1.

Definition wrap32 (z : Z) : Z := (z + 2 ^ 31) mod 2 ^ 32 - 2 ^ 31.

(** Unary minus on [int], as in [return -res]. *)
Definition neg32 (z : Z) : Z := wrap32 (- z).

Definition status_t := Z.

(** Modelled from the spec: the status constants are declared in the
    platform headers ([utils/Errors.h], [errno.h]), which the file only
    includes; success is 0, [EINVAL] is a positive internal error code,
    [UNKNOWN_ERROR] and [BAD_TYPE] are the platform's negative codes. *)
Definition NO_ERROR : status_t := 0.
Definition EINVAL : status_t := 22.
Definition UNKNOWN_ERROR : status_t := INT_MIN.
Definition BAD_TYPE : status_t := INT_MIN + 1.

(** [v4l2_fourcc(a,b,c,d)] of [videodev2.h]. *)
Definition v4l2_fourcc (a b c d : ascii) : Z :=
  let code x := Z.of_N (N_of_ascii x) in
  Z.lor (code a)
    (Z.lor (Z.shiftl (code b) 8)
       (Z.lor (Z.shiftl (code c) 16) (Z.shiftl (code d) 24))).

Definition V4L2_PIX_FMT_YUV420 : Z := v4l2_fourcc "Y" "U" "1" "2".
Definition V4L2_PIX_FMT_RGB32 : Z := v4l2_fourcc "R" "G" "B" "4".
Definition V4L2_PIX_FMT_NV12 : Z := v4l2_fourcc "N" "V" "1" "2".

(** Modelled from the spec: the enumerators handed to the driver are
    declared in [videodev2.h], outside the file, and the spec only asks
    for one numeric code per mode.  The colour effects carry the
    [v4l2_colorfx] values, the white balances are numbered in the order
    of the vendor's enumeration.  The file passes them on and tests them
    against zero; nothing below depends on the numbering. *)
Definition V4L2_COLORFX_NONE : Z := 0.
Definition V4L2_COLORFX_BW : Z := 1.
Definition V4L2_COLORFX_SEPIA : Z := 2.
Definition V4L2_COLORFX_NEGATIVE : Z := 3.
Definition V4L2_COLORFX_GRASS_GREEN : Z := 7.

Definition V4L2_WB_AUTO : Z := 0.
Definition V4L2_WB_CLOUD : Z := 1.
Definition V4L2_WB_DAYLIGHT : Z := 2.
Definition V4L2_WB_INCANDESCENCE : Z := 3.
Definition V4L2_WB_FLUORESCENT : Z := 4.
Definition V4L2_WB_TUNGSTEN : Z := 5.

(** ** C string helpers *)

Module CString.

Definition code (c : ascii) : Z := Z.of_N (N_of_ascii c).

Definition isspace (c : ascii) : bool :=
  let n := code c in (n =? 32) || ((9 <=? n) && (n <=? 13)).

Fixpoint skip_space (s : string) : string :=
  match s with
  | String c s' => if isspace c then skip_space s' else s
  | EmptyString => s
  end.

(** Value of a digit character in bases up to 36. *)
Definition digit_value (c : ascii) : option Z :=
  let n := code c in
  if (48 <=? n) && (n <=? 57) then Some (n - 48)
  else if (97 <=? n) && (n <=? 122) then Some (n - 87)
  else if (65 <=? n) && (n <=? 90) then Some (n - 55)
  else None.

Definition is_digit_in (base : Z) (c : ascii) : bool :=
  match digit_value c with
  | Some d => d <? base
  | None => false
  end.

(** Consumes the longest run of digits of [base]; the boolean tells
    whether any digit was read. *)
Fixpoint digits (base acc : Z) (any : bool) (s : string) : Z * bool * string :=
  match s with
  | String c s' =>
      match digit_value c with
      | Some d => if d <? base then digits base (acc * base + d) true s'
                  else (acc, any, s)
      | None => (acc, any, s)
      end
  | EmptyString => (acc, any, s)
  end.

Definition clamp_long (z : Z) : Z :=
  if z <? INT_MIN then INT_MIN else if INT_MAX <? z then INT_MAX else z.

(** [strtol(s, &end, base)] for [base] 0 or 10 on a 32-bit [long]:
    returns the value and the unread rest.  With no digits the value is
    0 and the rest is the whole input. *)
Definition strtol (base : Z) (s : string) : Z * string :=
  let body := skip_space s in
  let '(negative, body) :=
    match body with
    | String "-" r => (true, r)
    | String "+" r => (false, r)
    | _ => (false, body)
    end in
  let '(base, body) :=
    if base =? 0 then
      match body with
      | String "0" (String x (String h r)) =>
          if (Ascii.eqb x "x" || Ascii.eqb x "X") && is_digit_in 16 h
          then (16, String h r) else (8, body)
      | String "0" _ => (8, body)
      | _ => (10, body)
      end
    else (base, body) in
  let '(v, any, rest) := digits base 0 false body in
  if any then (clamp_long (if negative : bool then - v else v), rest)
  else (0, s).

(** [strchr(s, c) != NULL] *)
Fixpoint contains (c : ascii) (s : string) : bool :=
  match s with
  | String x s' => Ascii.eqb x c || contains c s'
  | EmptyString => false
  end.

(** [sprintf(str, "%d", v)] *)
Definition print_int (v : Z) : string := pretty v.

End CString.

(** ** CameraParameters

    Modelled from the spec: the class behind [mParameters] and the
    candidate set of [setParameters] belongs to the camera framework,
    not to this file.  It is the flat key/value store of the spec: a
    vector of (key, value) strings kept sorted by key, read and written
    through the accessors below, serialized as [key=value;...].  A
    [const char*] result is an [option string], [None] being the null
    pointer. *)

Module CameraParameters.

Abbreviation t := (gmap string string).

Definition KEY_PREVIEW_SIZE := "preview-size".
Definition KEY_PREVIEW_FORMAT := "preview-format".
Definition KEY_PREVIEW_FRAME_RATE := "preview-frame-rate".
Definition KEY_PICTURE_SIZE := "picture-size".
Definition KEY_PICTURE_FORMAT := "picture-format".
Definition KEY_JPEG_QUALITY := "jpeg-quality".
Definition KEY_ROTATION := "rotation".
Definition KEY_WHITE_BALANCE := "whitebalance".
Definition KEY_SUPPORTED_WHITE_BALANCE := "whitebalance-values".
Definition KEY_EFFECT := "effect".
Definition KEY_SUPPORTED_EFFECTS := "effect-values".
Definition KEY_SCENE_MODE := "scene-mode".
Definition KEY_FOCUS_MODE := "focus-mode".
Definition KEY_FLASH_MODE := "flash-mode".
Definition KEY_SUPPORTED_FLASH_MODES := "flash-mode-values".
Definition KEY_EXPOSURE_COMPENSATION := "exposure-compensation".
Definition KEY_MAX_EXPOSURE_COMPENSATION := "max-exposure-compensation".
Definition KEY_MIN_EXPOSURE_COMPENSATION := "min-exposure-compensation".
Definition KEY_ZOOM := "zoom".
Definition KEY_MAX_ZOOM := "max-zoom".
Definition KEY_VIDEO_SIZE := "video-size".
Definition KEY_VIDEO_FRAME_FORMAT := "video-frame-format".

Definition TRUE := "true".
Definition FALSE := "false".

Definition PIXEL_FORMAT_YUV420SP := "yuv420sp".
Definition PIXEL_FORMAT_YUV420P := "yuv420p".
Definition PIXEL_FORMAT_RGBA8888 := "rgba8888".
Definition PIXEL_FORMAT_JPEG := "jpeg".

Definition EFFECT_NONE := "none".
Definition EFFECT_MONO := "mono".
Definition EFFECT_NEGATIVE := "negative".
Definition EFFECT_SEPIA := "sepia".
Definition EFFECT_AQUA := "aqua".

Definition WHITE_BALANCE_AUTO := "auto".
Definition WHITE_BALANCE_INCANDESCENT := "incandescent".
Definition WHITE_BALANCE_FLUORESCENT := "fluorescent".
Definition WHITE_BALANCE_WARM_FLUORESCENT := "warm-fluorescent".
Definition WHITE_BALANCE_DAYLIGHT := "daylight".
Definition WHITE_BALANCE_CLOUDY_DAYLIGHT := "cloudy-daylight".

(** [get]: the stored string, or null when the key is absent or its
    value is empty. *)
Definition get (p : t) (key : string) : option string :=
  match p !! key with
  | Some v => if String.eqb v EmptyString then None else Some v
  | None => None
  end.

(** [set(key, value)] on strings: refused when the key or the value holds a
    separator character. *)
Definition set (p : t) (key value : string) : t :=
  if CString.contains "=" key || CString.contains ";" key then p
  else if CString.contains "=" value || CString.contains ";" key then p
  else <[key := value]> p.

(** [set(key, int)] *)
Definition set_int (p : t) (key : string) (value : Z) : t :=
  set p key (CString.print_int value).

(** [getInt]: -1 for an absent key, else [strtol(v, 0, 0)]. *)
Definition getInt (p : t) (key : string) : Z :=
  match get p key with
  | None => -1
  | Some v => fst (CString.strtol 0 v)
  end.

(** [parse_pair(str, &w, &h, 'x')]: both integers, or nothing when the
    delimiter does not follow the first one. *)
Definition parse_pair (str : string) (delim : ascii) : option (Z * Z) :=
  let '(w, rest) := CString.strtol 10 str in
  match rest with
  | String c rest' =>
      if Ascii.eqb c delim then Some (w, fst (CString.strtol 10 rest'))
      else None
  | EmptyString => None
  end.

(** The size getters start from -1 x -1 and keep it when the key is
    absent or malformed. *)
Definition get_size (p : t) (key : string) : Z * Z :=
  match get p key with
  | None => (-1, -1)
  | Some s => match parse_pair s "x" with
              | Some wh => wh
              | None => (-1, -1)
              end
  end.

Definition print_size (w h : Z) : string :=
  CString.print_int w +:+ "x" +:+ CString.print_int h.

Definition getPreviewSize (p : t) : Z * Z := get_size p KEY_PREVIEW_SIZE.
Definition getPictureSize (p : t) : Z * Z := get_size p KEY_PICTURE_SIZE.
Definition getVideoSize (p : t) : Z * Z := get_size p KEY_VIDEO_SIZE.

Definition setPreviewSize (p : t) (w h : Z) : t :=
  set p KEY_PREVIEW_SIZE (print_size w h).
Definition setPictureSize (p : t) (w h : Z) : t :=
  set p KEY_PICTURE_SIZE (print_size w h).

Definition getPreviewFormat (p : t) : option string := get p KEY_PREVIEW_FORMAT.
Definition getPictureFormat (p : t) : option string := get p KEY_PICTURE_FORMAT.
Definition setPreviewFormat (p : t) (f : string) : t := set p KEY_PREVIEW_FORMAT f.
Definition getPreviewFrameRate (p : t) : Z := getInt p KEY_PREVIEW_FRAME_RATE.

(** [unflatten]: reads [key=value;key=value...]; a key with no [=]
    ends the scan, a later occurrence of a key replaces the earlier. *)
Fixpoint unflatten_go (s : string) (key : option string) (acc : string) (m : t) : t :=
  match s with
  | EmptyString =>
      match key with
      | Some k => <[k := acc]> m
      | None => m
      end
  | String c s' =>
      match key with
      | None =>
          if Ascii.eqb c "=" then unflatten_go s' (Some acc) EmptyString m
          else unflatten_go s' None (acc +:+ String c EmptyString) m
      | Some k =>
          if Ascii.eqb c ";" then unflatten_go s' None EmptyString (<[k := acc]> m)
          else unflatten_go s' (Some k) (acc +:+ String c EmptyString) m
      end
  end.

Definition unflatten (s : string) : t := unflatten_go s None EmptyString ∅.

(** [flatten]: the entries in key order, joined by [;]. *)
Fixpoint insert_entry (e : string * string) (l : list (string * string)) :=
  match l with
  | [] => [e]
  | x :: l' => if String.leb (fst e) (fst x) then e :: l else x :: insert_entry e l'
  end.

Definition entries (p : t) : list (string * string) :=
  fold_right insert_entry [] (map_to_list p).

Fixpoint join_entries (l : list (string * string)) : string :=
  match l with
  | [] => EmptyString
  | [(k, v)] => k +:+ "=" +:+ v
  | (k, v) :: l' => k +:+ "=" +:+ v +:+ ";" +:+ join_entries l'
  end.

Definition flatten (p : t) : string := join_entries (entries p).

End CameraParameters.

(** Modelled from the spec: the remaining keys and values of the
    framework class that [initDefaultParameters] fills in, and its
    [setPictureFormat]. *)
Module CameraParameterKeys.

Import CameraParameters.

Definition KEY_SUPPORTED_PREVIEW_SIZES := "preview-size-values".
Definition KEY_SUPPORTED_VIDEO_SIZES := "video-size-values".
Definition KEY_PREFERRED_PREVIEW_SIZE_FOR_VIDEO := "preferred-preview-size-for-video".
Definition KEY_SUPPORTED_PICTURE_SIZES := "picture-size-values".
Definition KEY_SUPPORTED_PREVIEW_FRAME_RATES := "preview-frame-rate-values".
Definition KEY_PREVIEW_FPS_RANGE := "preview-fps-range".
Definition KEY_SUPPORTED_PREVIEW_FPS_RANGE := "preview-fps-range-values".
Definition KEY_SUPPORTED_FOCUS_MODES := "focus-mode-values".
Definition KEY_FOCAL_LENGTH := "focal-length".
Definition KEY_SUPPORTED_SCENE_MODES := "scene-mode-values".
Definition KEY_EXPOSURE_COMPENSATION_STEP := "exposure-compensation-step".
Definition KEY_ZOOM_SUPPORTED := "zoom-supported".
Definition KEY_SMOOTH_ZOOM_SUPPORTED := "smooth-zoom-supported".
Definition KEY_ZOOM_RATIOS := "zoom-ratios".
Definition KEY_SUPPORTED_PREVIEW_FORMATS := "preview-format-values".
Definition KEY_SUPPORTED_PICTURE_FORMATS := "picture-format-values".
Definition KEY_SUPPORTED_JPEG_THUMBNAIL_SIZES := "jpeg-thumbnail-size-values".
Definition KEY_JPEG_THUMBNAIL_WIDTH := "jpeg-thumbnail-width".
Definition KEY_JPEG_THUMBNAIL_HEIGHT := "jpeg-thumbnail-height".
Definition KEY_JPEG_THUMBNAIL_QUALITY := "jpeg-thumbnail-quality".
Definition KEY_HORIZONTAL_VIEW_ANGLE := "horizontal-view-angle".
Definition KEY_VERTICAL_VIEW_ANGLE := "vertical-view-angle".

Definition FOCUS_MODE_FIXED := "fixed".

Definition setPictureFormat (p : t) (f : string) : t := set p KEY_PICTURE_FORMAT f.

End CameraParameterKeys.


(** ** The collaborators

    The device, the preview window and the callback notifier are classes
    of their own; this file only calls them.  Each is taken as a
    parameter: an interface over an abstract state, in which a method
    that returns a value and may change the object returns the pair.  A
    result the file never reads is left out of the signature. *)

Definition frame_ref := Z.   (* [const void* frame] *)
Definition nsecs_t := Z.

Module V4L2CameraDevice.

Class Ops (D : Type) := {
  isStarted : D -> bool;
  isConnected : D -> bool;
  connectDevice : D -> status_t * D;
  disconnectDevice : D -> status_t * D;
  startDevice : Z -> Z -> Z -> D -> status_t * D;
  stopDevice : D -> status_t * D;
  startDeliveringFrames : bool -> D -> status_t * D;
  stopDeliveringFrames : D -> D;
  (* [tryFmtSize(&w, &h)]: the status and the adjusted size *)
  tryFmtSize : Z -> Z -> D -> (Z * (Z * Z)) * D;
  setPictureSize : Z -> Z -> D -> D;
  getFrameRate : D -> D;
  setImageEffect : Z -> D -> Z * D;
  setWhiteBalance : Z -> D -> Z * D;
  setExposure : Z -> D -> Z * D
}.

End V4L2CameraDevice.

Module PreviewWindow.

(** The frame callback also receives the device that raised it. *)
Class Ops (W D : Type) := {
  isPreviewEnabled : W -> bool;
  startPreview : W -> status_t * W;
  stopPreview : W -> W;
  showLayer : bool -> W -> W;
  onNextFrameAvailable : frame_ref -> nsecs_t -> bool -> W -> D -> bool * W * D
}.

End PreviewWindow.

Module CallbackNotifier.

Class Ops (N D : Type) := {
  onNextFrameAvailable : frame_ref -> nsecs_t -> bool -> N -> D -> N * D;
  setJpegQuality : Z -> N -> N;
  setTakingPicture : bool -> N -> N;
  enableVideoRecording : Z -> N -> status_t * N;
  storeMetaDataInBuffers : Z -> N -> status_t * N;
  cleanupCBNotifier : N -> N
}.

End CallbackNotifier.

(** The capability table [CCameraConfig], another class the file only
    calls: the support flags [setParameters] consults. *)
Module CCameraConfig.

Record t := {
  supportColorEffect : bool;
  supportWhiteBalance : bool;
  supportExposureCompensation : bool;
  supportFlashMode : bool;
  supportZoom : bool
}.

End CCameraConfig.

(** The rest of what the capability table answers, as
    [initDefaultParameters] reads it: five more support flags and the
    value strings.  A value is a [char*]; [None] is the null pointer. *)
Module CCameraConfigValues.

Record t := {
  supportPreviewSize : bool;
  supportPreviewSizeValue : option string;
  defaultPreviewSizeValue : option string;
  supportPictureSize : bool;
  supportPictureSizeValue : option string;
  defaultPictureSizeValue : option string;
  supportFrameRate : bool;
  supportFrameRateValue : option string;
  defaultFrameRateValue : option string;
  supportFocusMode : bool;
  supportFocusModeValue : option string;
  defaultFocusModeValue : option string;
  supportColorEffectValue : option string;
  defaultColorEffectValue : option string;
  supportFlashModeValue : option string;
  defaultFlashModeValue : option string;
  supportSceneMode : bool;
  supportSceneModeValue : option string;
  defaultSceneModeValue : option string;
  supportWhiteBalanceValue : option string;
  defaultWhiteBalanceValue : option string;
  minExposureCompensationValue : option string;
  maxExposureCompensationValue : option string;
  stepExposureCompensationValue : option string;
  defaultExposureCompensationValue : option string;
  zoomSupportedValue : option string;
  smoothZoomSupportedValue : option string;
  zoomRatiosValue : option string;
  maxZoomValue : option string;
  defaultZoomValue : option string
}.

End CCameraConfigValues.

(** Modelled from the spec: [struct camera_info] and the two facing
    constants belong to the camera HAL header, not to this file. *)
Module CameraInfo.

Definition CAMERA_FACING_BACK : Z := 0.
Definition CAMERA_FACING_FRONT : Z := 1.

Record camera_info := Build {
  facing : Z;
  orientation : Z
}.

End CameraInfo.

(** Every command sent to a collaborator, with its arguments and the
    result the file reads back.  The session keeps the list of commands
    issued so far; it is a ghost field used to state orderings. *)
Inductive Call :=
| DevConnectDevice (res : status_t)
| DevDisconnectDevice (res : status_t)
| DevStartDevice (width height fmt : Z) (res : status_t)
| DevStopDevice (res : status_t)
| DevStartDeliveringFrames (one_burst : bool) (res : status_t)
| DevStopDeliveringFrames
| DevTryFmtSize (width height : Z) (res : Z) (adjusted : Z * Z)
| DevSetPictureSize (width height : Z)
| DevGetFrameRate
| DevSetImageEffect (effect : Z) (res : Z)
| DevSetWhiteBalance (wb : Z) (res : Z)
| DevSetExposure (exposure : Z) (res : Z)
| WinStartPreview (res : status_t)
| WinStopPreview
| WinShowLayer (on : bool)
| WinOnNextFrameAvailable (frame : frame_ref) (timestamp : nsecs_t) (meta accepted : bool)
| CbOnNextFrameAvailable (frame : frame_ref) (timestamp : nsecs_t) (meta : bool)
| CbSetJpegQuality (quality : Z)
| CbSetTakingPicture (taking : bool)
| CbEnableVideoRecording (fps : Z) (res : status_t)
| CbStoreMetaDataInBuffers (enable : Z) (res : status_t)
| CbCleanupCBNotifier.

Definition is_device_call (c : Call) : bool :=
  match c with
  | DevConnectDevice _ | DevDisconnectDevice _ | DevStartDevice _ _ _ _
  | DevStopDevice _ | DevStartDeliveringFrames _ _ | DevStopDeliveringFrames
  | DevTryFmtSize _ _ _ _ | DevSetPictureSize _ _ | DevGetFrameRate
  | DevSetImageEffect _ _ | DevSetWhiteBalance _ _ | DevSetExposure _ _ => true
  | _ => false
  end.

(** ** The C heap, as far as [getParameters] and [putParameters] use it *)

Module Heap.

(** A [char*]: null, the address of the static [lNoParam], or a block
    handed out by [malloc]. *)
Inductive ptr :=
| NULL
| lNoParam
| Block (addr : N).

Definition ptr_eqb (p q : ptr) : bool :=
  match p, q with
  | NULL, NULL => true
  | lNoParam, lNoParam => true
  | Block a, Block b => N.eqb a b
  | _, _ => false
  end.

(** The live blocks with their bytes, the bytes [malloc] can still
    hand out, and the next fresh address. *)
Record t := Build {
  blocks : gmap N (list ascii);
  room : N;
  next : N
}.

Definition nul : ascii := Ascii.zero.

(** [malloc(n)]: a fresh block of [n] bytes of no particular content,
    or null when the heap has no room. *)
Definition malloc (n : N) (h : t) : ptr * t :=
  if (n <=? room h)%N then
    (Block (next h),
     Build (<[next h := replicate (N.to_nat n) "?"%char]> (blocks h))
           (room h - n)%N (next h + 1)%N)
  else (NULL, h).

Fixpoint overwrite (src dst : list ascii) : list ascii :=
  match src, dst with
  | c :: src', _ :: dst' => c :: overwrite src' dst'
  | _, _ => dst
  end.

(** Writing [bytes] at the start of what [p] points to; [None] is a
    write through null or past the end of the object. *)
Definition store (p : ptr) (bytes : list ascii) (h : t) : option t :=
  match p with
  | Block a =>
      match blocks h !! a with
      | Some old =>
          if (length bytes <=? length old)%nat
          then Some (Build (<[a := overwrite bytes old]> (blocks h)) (room h) (next h))
          else None
      | None => None
      end
  | lNoParam => if (length bytes <=? 1)%nat then Some h else None
  | NULL => None
  end.

(** [memset(p, c, n)] *)
Definition memset (p : ptr) (c : ascii) (n : N) (h : t) : option t :=
  store p (replicate (N.to_nat n) c) h.

(** [strncpy(p, src, n)]: the first [n] characters of [src], padded
    with NUL up to [n] bytes. *)
Definition strncpy (p : ptr) (src : string) (n : N) (h : t) : option t :=
  let chars := list_ascii_of_string src in
  store p (take (N.to_nat n) (chars ++ replicate (N.to_nat n) nul)) h.

(** [free(p)]: nothing for null, release of a live block, undefined
    otherwise. *)
Definition free (p : ptr) (h : t) : option t :=
  match p with
  | NULL => Some h
  | Block a =>
      match blocks h !! a with
      | Some old =>
          Some (Build (delete a (blocks h)) (room h + N.of_nat (length old))%N (next h))
      | None => None
      end
  | lNoParam => None
  end.

(** The C string at [p]: the bytes up to the first NUL. *)
Fixpoint until_nul (l : list ascii) : string :=
  match l with
  | [] => EmptyString
  | c :: l' => if Ascii.eqb c nul then EmptyString else String c (until_nul l')
  end.

Definition c_str (p : ptr) (h : t) : option string :=
  match p with
  | NULL => None
  | lNoParam => Some EmptyString
  | Block a => until_nul <$> blocks h !! a
  end.

End Heap.

(** ** The session object *)

Module CameraHardware.

Import CameraParameters.

Section Methods.

Context {D W N : Type}.
Context `{!V4L2CameraDevice.Ops D, !PreviewWindow.Ops W D, !CallbackNotifier.Ops N D}.

(** The members the methods touch.  [mCameraDevice] is what
    [getCameraDevice()] returns, null when no device is bound. *)
Record t := Build {
  mPreviewWindow : W;
  mCallbackNotifier : N;
  mCameraDevice : option D;
  mCameraConfig : CCameraConfig.t;
  mParameters : CameraParameters.t;
  calls : list Call
}.

Definition with_window (w : W) (s : t) : t :=
  Build w (mCallbackNotifier s) (mCameraDevice s) (mCameraConfig s) (mParameters s) (calls s).
Definition with_notifier (n : N) (s : t) : t :=
  Build (mPreviewWindow s) n (mCameraDevice s) (mCameraConfig s) (mParameters s) (calls s).
Definition with_device (d : D) (s : t) : t :=
  Build (mPreviewWindow s) (mCallbackNotifier s) (Some d) (mCameraConfig s) (mParameters s) (calls s).
Definition with_parameters (p : CameraParameters.t) (s : t) : t :=
  Build (mPreviewWindow s) (mCallbackNotifier s) (mCameraDevice s) (mCameraConfig s) p (calls s).
Definition log (c : Call) (s : t) : t :=
  Build (mPreviewWindow s) (mCallbackNotifier s) (mCameraDevice s) (mCameraConfig s)
        (mParameters s) (calls s ++ [c]).

(** *** State and fault monad

    A method runs on the session and either returns a value with the
    new session, or faults: [None] stands for a null-pointer
    dereference, after which the program has no defined behaviour. *)
Definition M (A : Type) : Type := t -> option (A * t).

Definition pure {A} (a : A) : M A := fun s => Some (a, s).
Definition bind {A B} (m : M A) (k : A -> M B) : M B :=
  fun s => match m s with
           | Some (a, s') => k a s'
           | None => None
           end.
Definition fault {A} : M A := fun _ => None.

Definition read {A} (f : t -> A) : M A := fun s => Some (f s, s).
Definition modify (f : t -> t) : M unit := fun s => Some (tt, f s).

(** Use of a [const char*] that must not be null. *)
Definition deref {A} (o : option A) : M A :=
  match o with
  | Some a => pure a
  | None => fault
  end.

Notation "'do' x <- m ; k" := (bind m (fun x => k))
  (at level 10, x name, m at level 100, k at level 200).
Notation "'do' ' pat <- m ; k" := (bind m (fun x => match x with pat => k end))
  (at level 10, pat pattern, m at level 100, k at level 200).
Notation "'run' m ; k" := (bind m (fun _ => k))
  (at level 10, m at level 100, k at level 200).

(** *** Calls into the collaborators

    [getCameraDevice()->method(...)]: faults on a null device. *)
Definition getCameraDevice : M D := fun s =>
  match mCameraDevice s with
  | Some d => Some (d, s)
  | None => None
  end.

Definition dev_query {A} (f : D -> A) : M A :=
  do d <- getCameraDevice; pure (f d).

Definition dev_call {A} (f : D -> A * D) (ev : A -> Call) : M A :=
  do d <- getCameraDevice;
  let '(a, d') := f d in
  run modify (fun s => log (ev a) (with_device d' s));
  pure a.

Definition dev_command (f : D -> D) (ev : Call) : M unit :=
  dev_call (fun d => (tt, f d)) (fun _ => ev).

Definition win_query {A} (f : W -> A) : M A := read (fun s => f (mPreviewWindow s)).

Definition win_call {A} (f : W -> A * W) (ev : A -> Call) : M A := fun s =>
  let '(a, w') := f (mPreviewWindow s) in
  Some (a, log (ev a) (with_window w' s)).

Definition win_command (f : W -> W) (ev : Call) : M unit :=
  win_call (fun w => (tt, f w)) (fun _ => ev).

Definition cb_call {A} (f : N -> A * N) (ev : A -> Call) : M A := fun s =>
  let '(a, n') := f (mCallbackNotifier s) in
  Some (a, log (ev a) (with_notifier n' s)).

Definition cb_command (f : N -> N) (ev : Call) : M unit :=
  cb_call (fun n => (tt, f n)) (fun _ => ev).

Definition set_parameters_member (f : CameraParameters.t -> CameraParameters.t) : M unit :=
  modify (fun s => with_parameters (f (mParameters s)) s).

(** *** Frame events *)

(** [onNextFrameAvailable(frame, timestamp, camera_dev, bUseMataData)];
    [camera_dev] is the session's own device, which raised the event. *)
Definition onNextFrameAvailable (frame : frame_ref) (timestamp : nsecs_t)
    (bUseMataData : bool) : M bool :=
  (* Notify the preview window first. *)
  do ret <- (fun s =>
    match mCameraDevice s with
    | Some camera_dev =>
        let '(r, w', d') :=
          PreviewWindow.onNextFrameAvailable frame timestamp bUseMataData
            (mPreviewWindow s) camera_dev in
        Some (r, log (WinOnNextFrameAvailable frame timestamp bUseMataData r)
                   (with_device d' (with_window w' s)))
    | None => None
    end);
  if negb ret then pure ret
  else
    (* Notify callback notifier next. *)
    run (fun s =>
      match mCameraDevice s with
      | Some camera_dev =>
          let '(n', d') :=
            CallbackNotifier.onNextFrameAvailable frame timestamp bUseMataData
              (mCallbackNotifier s) camera_dev in
          Some (tt, log (CbOnNextFrameAvailable frame timestamp bUseMataData)
                      (with_device d' (with_notifier n' s)))
      | None => None
      end);
    pure true.

(** *** Preview management *)

(** The FOURCC of a preview or video pixel format. *)
Definition preview_fourcc (pix_fmt : string) : option Z :=
  if String.eqb pix_fmt PIXEL_FORMAT_YUV420P then Some V4L2_PIX_FMT_YUV420
  else if String.eqb pix_fmt PIXEL_FORMAT_RGBA8888 then Some V4L2_PIX_FMT_RGB32
  else if String.eqb pix_fmt PIXEL_FORMAT_YUV420SP then Some V4L2_PIX_FMT_NV12
  else None.

Definition RECORDING_HINT_KEY := "recording-hint".

Definition doStartPreview : M status_t :=
  do started <- dev_query V4L2CameraDevice.isStarted;
  run (if started : bool then
         run dev_command V4L2CameraDevice.stopDeliveringFrames DevStopDeliveringFrames;
         run dev_call V4L2CameraDevice.stopDevice DevStopDevice;
         pure tt
       else pure tt);
  do res <- win_call PreviewWindow.startPreview WinStartPreview;
  if negb (res =? NO_ERROR) then pure res
  else
    (* Make sure camera device is connected. *)
    do connected <- dev_query V4L2CameraDevice.isConnected;
    do res <- (if negb connected
               then dev_call V4L2CameraDevice.connectDevice DevConnectDevice
               else pure NO_ERROR);
    if negb (res =? NO_ERROR) then
      run win_command PreviewWindow.stopPreview WinStopPreview;
      pure res
    else
      do p <- read mParameters;
      let '(width, height) :=
        match get p KEY_VIDEO_SIZE with
        | Some _ => getVideoSize p
        | None => getPreviewSize p
        end in
      let is_video :=
        match get p RECORDING_HINT_KEY with
        | Some v => v
        | None => FALSE
        end in
      let pix_fmt :=
        if String.eqb is_video TRUE then get p KEY_VIDEO_FRAME_FORMAT else None in
      let pix_fmt :=
        match pix_fmt with
        | Some f => Some f
        | None => getPreviewFormat p
        end in
      match pix_fmt with
      | None =>
          run win_command PreviewWindow.stopPreview WinStopPreview;
          pure EINVAL
      | Some pix_fmt =>
          (* Convert framework's pixel format to the FOURCC one. *)
          match preview_fourcc pix_fmt with
          | None =>
              run win_command PreviewWindow.stopPreview WinStopPreview;
              pure EINVAL
          | Some org_fmt =>
              do res <- dev_call (V4L2CameraDevice.startDevice width height org_fmt)
                                 (DevStartDevice width height org_fmt);
              if negb (res =? NO_ERROR) then
                run win_command PreviewWindow.stopPreview WinStopPreview;
                pure res
              else
                do res <- dev_call (V4L2CameraDevice.startDeliveringFrames false)
                                   (DevStartDeliveringFrames false);
                run (if negb (res =? NO_ERROR) then
                       run dev_call V4L2CameraDevice.stopDevice DevStopDevice;
                       win_command PreviewWindow.stopPreview WinStopPreview
                     else pure tt);
                pure res
          end
      end.

Definition doStopPreview : M status_t :=
  let res := NO_ERROR in
  do enabled <- win_query PreviewWindow.isPreviewEnabled;
  run (if enabled : bool then
         (* Stop the camera. *)
         do started <- dev_query V4L2CameraDevice.isStarted;
         do res <- (if started : bool then
                      run dev_command V4L2CameraDevice.stopDeliveringFrames
                            DevStopDeliveringFrames;
                      dev_call V4L2CameraDevice.stopDevice DevStopDevice
                    else pure res);
         if res =? NO_ERROR then
           (* Disable preview as well. *)
           win_command PreviewWindow.stopPreview WinStopPreview
         else pure tt
       else pure tt);
  pure NO_ERROR.

Definition cleanupCamera : M status_t :=
  (* If preview is running - stop it. *)
  do res <- doStopPreview;
  if negb (res =? NO_ERROR) then pure (neg32 res)
  else
    (* Stop and disconnect the camera device. *)
    do camera_dev <- read mCameraDevice;
    do early <-
      match camera_dev with
      | Some _ =>
          do started <- dev_query V4L2CameraDevice.isStarted;
          do res <- (if started : bool then
                       run dev_command V4L2CameraDevice.stopDeliveringFrames
                             DevStopDeliveringFrames;
                       dev_call V4L2CameraDevice.stopDevice DevStopDevice
                     else pure res);
          if negb (res =? NO_ERROR) then pure (Some (neg32 res))
          else
            do connected <- dev_query V4L2CameraDevice.isConnected;
            do res <- (if connected : bool
                       then dev_call V4L2CameraDevice.disconnectDevice DevDisconnectDevice
                       else pure res);
            if negb (res =? NO_ERROR) then pure (Some (neg32 res)) else pure None
      | None => pure None
      end;
    match early with
    | Some r => pure r
    | None =>
        run cb_command CallbackNotifier.cleanupCBNotifier CbCleanupCBNotifier;
        pure NO_ERROR
    end.

(** *** Camera API implementation *)

Definition connectCamera : M status_t :=
  let res := EINVAL in
  do camera_dev <- read mCameraDevice;
  do res <- match camera_dev with
            | Some _ =>
                (* Connect to the camera device. *)
                dev_call V4L2CameraDevice.connectDevice DevConnectDevice
            | None => pure res
            end;
  pure (neg32 res).

Definition closeCamera : M status_t := cleanupCamera.

Definition startPreview : M status_t :=
  (* Callback should return a negative errno. *)
  do res <- doStartPreview; pure (neg32 res).

Definition stopPreview : M unit :=
  run doStopPreview; pure tt.

Definition isPreviewEnabled : M bool :=
  win_query PreviewWindow.isPreviewEnabled.

Definition storeMetaDataInBuffers (enable : Z) : M status_t :=
  (* Callback should return a negative errno. *)
  do res <- cb_call (CallbackNotifier.storeMetaDataInBuffers enable)
                    (CbStoreMetaDataInBuffers enable);
  pure (neg32 res).

Definition startRecording : M status_t :=
  (* Callback should return a negative errno. *)
  do p <- read mParameters;
  let fps := getPreviewFrameRate p in
  do res <- cb_call (CallbackNotifier.enableVideoRecording fps)
                    (CbEnableVideoRecording fps);
  pure (neg32 res).

(** The FOURCC of a picture format: JPEG is captured as NV12. *)
Definition picture_fourcc (pix_fmt : string) : option Z :=
  if String.eqb pix_fmt PIXEL_FORMAT_YUV420P then Some V4L2_PIX_FMT_YUV420
  else if String.eqb pix_fmt PIXEL_FORMAT_RGBA8888 then Some V4L2_PIX_FMT_RGB32
  else if String.eqb pix_fmt PIXEL_FORMAT_YUV420SP then Some V4L2_PIX_FMT_NV12
  else if String.eqb pix_fmt PIXEL_FORMAT_JPEG then Some V4L2_PIX_FMT_NV12
  else None.

Definition takePicture : M status_t :=
  (* Collect frame info for the picture. *)
  do p <- read mParameters;
  let '(pic_width, pic_height) := getPictureSize p in
  do '(_, (frame_width, frame_height)) <-
    dev_call (V4L2CameraDevice.tryFmtSize pic_width pic_height)
             (fun r => DevTryFmtSize pic_width pic_height (fst r) (snd r));
  run set_parameters_member (fun p => setPreviewSize p frame_width frame_height);
  run dev_command (V4L2CameraDevice.setPictureSize pic_width pic_height)
                  (DevSetPictureSize pic_width pic_height);
  do p <- read mParameters;
  do pix_fmt <- deref (getPictureFormat p);
  match picture_fourcc pix_fmt with
  | None => pure EINVAL
  | Some org_fmt =>
      (* Get JPEG quality. *)
      let jpeg_quality := getInt p KEY_JPEG_QUALITY in
      let jpeg_quality := if jpeg_quality <=? 0 then 90 else jpeg_quality in
      (* Make sure preview is not running, and device is stopped before
         taking picture. *)
      do preview_on <- win_query PreviewWindow.isPreviewEnabled;
      run (if preview_on : bool then run doStopPreview; pure tt else pure tt);
      do started <- dev_query V4L2CameraDevice.isStarted;
      run (if started : bool then
             run dev_command V4L2CameraDevice.stopDeliveringFrames
                   DevStopDeliveringFrames;
             run dev_call V4L2CameraDevice.stopDevice DevStopDevice;
             pure tt
           else pure tt);
      (* close layer before taking picture *)
      run win_command (PreviewWindow.showLayer false) (WinShowLayer false);
      (* Start camera device for the picture frame. *)
      do res <- dev_call (V4L2CameraDevice.startDevice frame_width frame_height org_fmt)
                         (DevStartDevice frame_width frame_height org_fmt);
      if negb (res =? NO_ERROR) then
        run (if preview_on : bool then run doStartPreview; pure tt else pure tt);
        pure res
      else
        (* Deliver one frame only. *)
        run cb_command (CallbackNotifier.setJpegQuality jpeg_quality)
                       (CbSetJpegQuality jpeg_quality);
        run cb_command (CallbackNotifier.setTakingPicture true)
                       (CbSetTakingPicture true);
        do res <- dev_call (V4L2CameraDevice.startDeliveringFrames false)
                           (DevStartDeliveringFrames false);
        run (if negb (res =? NO_ERROR) then
               run cb_command (CallbackNotifier.setTakingPicture false)
                              (CbSetTakingPicture false);
               if preview_on : bool then run doStartPreview; pure tt else pure tt
             else pure tt);
        pure res
  end.

(** The driver code of an effect tag, for the five tags the method
    knows. *)
Definition image_effect_code (new_image_effect_str : string) : option Z :=
  if String.eqb new_image_effect_str EFFECT_NONE then Some V4L2_COLORFX_NONE
  else if String.eqb new_image_effect_str EFFECT_MONO then Some V4L2_COLORFX_BW
  else if String.eqb new_image_effect_str EFFECT_SEPIA then Some V4L2_COLORFX_SEPIA
  else if String.eqb new_image_effect_str EFFECT_AQUA then Some V4L2_COLORFX_GRASS_GREEN
  else if String.eqb new_image_effect_str EFFECT_NEGATIVE then Some V4L2_COLORFX_NEGATIVE
  else None.

Definition white_balance_code (new_white_str : string) : option Z :=
  if String.eqb new_white_str WHITE_BALANCE_AUTO then Some V4L2_WB_AUTO
  else if String.eqb new_white_str WHITE_BALANCE_DAYLIGHT then Some V4L2_WB_DAYLIGHT
  else if String.eqb new_white_str WHITE_BALANCE_CLOUDY_DAYLIGHT then Some V4L2_WB_CLOUD
  else if String.eqb new_white_str WHITE_BALANCE_FLUORESCENT then Some V4L2_WB_FLUORESCENT
  else if String.eqb new_white_str WHITE_BALANCE_INCANDESCENT
       then Some V4L2_WB_INCANDESCENCE
  else if String.eqb new_white_str WHITE_BALANCE_WARM_FLUORESCENT
       then Some V4L2_WB_TUNGSTEN
  else None.

(** One block of [setParameters] per field.  The local [ret] is
    threaded through the blocks as the source assigns it. *)

Definition set_image_effect (params : CameraParameters.t) (ret : Z) : M Z :=
  do cfg <- read mCameraConfig;
  if CCameraConfig.supportColorEffect cfg then
    match get params KEY_EFFECT with
    | Some new_image_effect_str =>
        let '(new_image_effect, ret) :=
          match image_effect_code new_image_effect_str with
          | Some code => (code, ret)
          | None => (-1, UNKNOWN_ERROR)   (* invalid effect *)
          end in
        if 0 <=? new_image_effect then
          do r <- dev_call (V4L2CameraDevice.setImageEffect new_image_effect)
                           (DevSetImageEffect new_image_effect);
          if r <? 0 then pure UNKNOWN_ERROR
          else
            run set_parameters_member (fun p => set p KEY_EFFECT new_image_effect_str);
            pure ret
        else pure ret
    | None => pure ret
    end
  else pure ret.

Definition set_white_balance (params : CameraParameters.t) (ret : Z) : M Z :=
  do cfg <- read mCameraConfig;
  if CCameraConfig.supportWhiteBalance cfg then
    match get params KEY_WHITE_BALANCE with
    | Some new_white_str =>
        let '(new_white, ret) :=
          match white_balance_code new_white_str with
          | Some code => (code, ret)
          | None => (-1, UNKNOWN_ERROR)   (* invalid white balance *)
          end in
        if 0 <=? new_white then
          do r <- dev_call (V4L2CameraDevice.setWhiteBalance new_white)
                           (DevSetWhiteBalance new_white);
          if r <? 0 then pure UNKNOWN_ERROR
          else
            run set_parameters_member (fun p => set p KEY_WHITE_BALANCE new_white_str);
            pure ret
        else pure ret
    | None => pure ret
    end
  else pure ret.

Definition set_exposure_compensation (params : CameraParameters.t) (ret : Z) : M Z :=
  do cfg <- read mCameraConfig;
  if CCameraConfig.supportExposureCompensation cfg then
    let new_exposure_compensation := getInt params KEY_EXPOSURE_COMPENSATION in
    let max_exposure_compensation := getInt params KEY_MAX_EXPOSURE_COMPENSATION in
    let min_exposure_compensation := getInt params KEY_MIN_EXPOSURE_COMPENSATION in
    if (min_exposure_compensation <=? new_exposure_compensation)
       && (max_exposure_compensation >=? new_exposure_compensation) then
      do r <- dev_call (V4L2CameraDevice.setExposure new_exposure_compensation)
                       (DevSetExposure new_exposure_compensation);
      if r <? 0 then pure UNKNOWN_ERROR
      else
        run set_parameters_member
              (fun p => set_int p KEY_EXPOSURE_COMPENSATION new_exposure_compensation);
        pure ret
    else pure ret
  else pure ret.

Definition set_flash_mode (params : CameraParameters.t) : M unit :=
  do cfg <- read mCameraConfig;
  if CCameraConfig.supportFlashMode cfg then
    (* the value is handed to [set] as it is, a null one included *)
    do new_flash_mode_str <- deref (get params KEY_FLASH_MODE);
    set_parameters_member (fun p => set p KEY_FLASH_MODE new_flash_mode_str)
  else pure tt.

Definition set_zoom (params : CameraParameters.t) : M unit :=
  do cfg <- read mCameraConfig;
  if CCameraConfig.supportZoom cfg then
    let new_zoom := getInt params KEY_ZOOM in
    set_parameters_member (fun p => set_int p KEY_ZOOM new_zoom)
  else pure tt.

Definition setParameters (p : string) : M status_t :=
  let ret := UNKNOWN_ERROR in
  let params := unflatten p in
  do pV4L2Device <- read mCameraDevice;
  match pV4L2Device with
  | None => pure UNKNOWN_ERROR
  | Some _ =>
      do preview_format <- deref (getPreviewFormat params);
      if negb (String.eqb preview_format PIXEL_FORMAT_YUV420SP) then pure BAD_TYPE
      else
      do picture_format <- deref (getPictureFormat params);
      if negb (String.eqb picture_format PIXEL_FORMAT_JPEG) then pure BAD_TYPE
      else
      (* picture size *)
      let '(new_picture_width, new_picture_height) := getPictureSize params in
      run (if (0 <? new_picture_width) && (0 <? new_picture_height)
           then set_parameters_member
                  (fun p => setPictureSize p new_picture_width new_picture_height)
           else pure tt);
      (* preview size & video size *)
      let '(new_preview_width, new_preview_height) := getPreviewSize params in
      let new_str_preview_format := getPreviewFormat params in
      do tried <-
        match new_str_preview_format with
        | Some format =>
            if (0 <? new_preview_width) && (0 <? new_preview_height) then
              (* try size *)
              do '(ret, (new_preview_width, new_preview_height)) <-
                dev_call (V4L2CameraDevice.tryFmtSize new_preview_width new_preview_height)
                  (fun r => DevTryFmtSize new_preview_width new_preview_height
                                          (fst r) (snd r));
              if ret <? 0 then pure (inl ret)
              else
                run set_parameters_member
                      (fun p => setPreviewFormat
                                  (setPreviewSize p new_preview_width new_preview_height)
                                  format);
                pure (inr ret)
            else pure (inr ret)
        | None => pure (inr ret)
        end;
      match tried with
      | inl ret => pure ret
      | inr ret =>
          (* frame rate *)
          run dev_command V4L2CameraDevice.getFrameRate DevGetFrameRate;
          (* JPEG image quality *)
          let new_jpeg_quality := getInt params KEY_JPEG_QUALITY in
          run (if (new_jpeg_quality >=? 1) && (new_jpeg_quality <=? 100)
               then set_parameters_member
                      (fun p => set_int p KEY_JPEG_QUALITY new_jpeg_quality)
               else pure tt);
          (* rotation *)
          let new_rotation := getInt params KEY_ROTATION in
          run (if 0 <=? new_rotation
               then set_parameters_member (fun p => set_int p KEY_ROTATION new_rotation)
               else pure tt);
          do ret <- set_image_effect params ret;
          do ret <- set_white_balance params ret;
          do ret <- set_exposure_compensation params ret;
          run set_flash_mode params;
          run set_zoom params;
          pure NO_ERROR
      end
  end.

(** [getParameters] and [putParameters] work on the heap; the
    session is only read. *)
Definition getParameters (s : t) (h : Heap.t) : option (Heap.ptr * Heap.t) :=
  let params := flatten (mParameters s) in
  let size := (N.of_nat (String.length params) + 1)%N in
  let '(ret_str, h) := Heap.malloc size h in
  match Heap.memset ret_str Heap.nul size h with
  | None => None
  | Some h =>
      if negb (Heap.ptr_eqb ret_str Heap.NULL) then
        match Heap.strncpy ret_str params size h with
        | Some h => Some (ret_str, h)
        | None => None
        end
      else
        (* Apparently, we can't return NULL from this routine. *)
        Some (Heap.lNoParam, h)
  end.

Definition putParameters (params : Heap.ptr) (h : Heap.t) : option Heap.t :=
  (* This method simply frees parameters allocated in getParameters(). *)
  if negb (Heap.ptr_eqb params Heap.NULL) && negb (Heap.ptr_eqb params Heap.lNoParam)
  then Heap.free params h
  else Some h.

(** *** The [camera_device_ops_t] entry points

    Each recovers the session from [dev->priv] and forwards; a null
    [priv] yields the entry point's own error value.  [priv] is an
    [option], and so is the session handed back. *)
Definition dispatch {A} (priv : option t) (on_null : A) (method : M A)
    : option (A * option t) :=
  match priv with
  | None => Some (on_null, None)
  | Some ec =>
      match method ec with
      | Some (a, ec') => Some (a, Some ec')
      | None => None
      end
  end.

Definition start_preview (priv : option t) := dispatch priv (neg32 EINVAL) startPreview.
Definition stop_preview (priv : option t) := dispatch priv tt stopPreview.
Definition store_meta_data_in_buffers (priv : option t) (enable : Z) :=
  dispatch priv (neg32 EINVAL) (storeMetaDataInBuffers enable).
Definition start_recording (priv : option t) := dispatch priv (neg32 EINVAL) startRecording.
Definition take_picture (priv : option t) := dispatch priv (neg32 EINVAL) takePicture.
Definition set_parameters (priv : option t) (parms : string) :=
  dispatch priv (neg32 EINVAL) (setParameters parms).

(** *** Default parameters

    [initDefaultParameters] fills a local copy [p] of the store, one
    block per field, and assigns it back at the end.  A value string
    of the table goes to [set] as it is; a null one faults there. *)

Import CameraParameterKeys.

Definition init_preview_size (c : CCameraConfigValues.t) (p : CameraParameters.t)
    : option CameraParameters.t :=
  if CCameraConfigValues.supportPreviewSize c then
    value ← CCameraConfigValues.supportPreviewSizeValue c;
    let p := set p KEY_SUPPORTED_PREVIEW_SIZES value in
    let p := set p KEY_SUPPORTED_VIDEO_SIZES value in
    value ← CCameraConfigValues.defaultPreviewSizeValue c;
    let p := set p KEY_PREVIEW_SIZE value in
    let p := set p KEY_VIDEO_SIZE value in
    let p := set p KEY_PREFERRED_PREVIEW_SIZE_FOR_VIDEO value in
    let p := set p KEY_VIDEO_FRAME_FORMAT PIXEL_FORMAT_YUV420SP in
    Some (setPreviewFormat p PIXEL_FORMAT_YUV420SP)
  else Some p.

Definition init_picture_size (c : CCameraConfigValues.t) (p : CameraParameters.t)
    : option CameraParameters.t :=
  if CCameraConfigValues.supportPictureSize c then
    value ← CCameraConfigValues.supportPictureSizeValue c;
    let p := set p KEY_SUPPORTED_PICTURE_SIZES value in
    value ← CCameraConfigValues.defaultPictureSizeValue c;
    let p := set p KEY_PICTURE_SIZE value in
    Some (setPictureFormat p PIXEL_FORMAT_JPEG)
  else Some p.

Definition init_frame_rate (c : CCameraConfigValues.t) (p : CameraParameters.t)
    : option CameraParameters.t :=
  if CCameraConfigValues.supportFrameRate c then
    value ← CCameraConfigValues.supportFrameRateValue c;
    let p := set p KEY_SUPPORTED_PREVIEW_FRAME_RATES value in
    let p := set p KEY_PREVIEW_FPS_RANGE "15000,30000" in
    let p := set p KEY_SUPPORTED_PREVIEW_FPS_RANGE "(15000,30000)" in
    value ← CCameraConfigValues.defaultFrameRateValue c;
    Some (set p KEY_PREVIEW_FRAME_RATE value)
  else Some p.

Definition init_focus (c : CCameraConfigValues.t) (p : CameraParameters.t)
    : option CameraParameters.t :=
  if CCameraConfigValues.supportFocusMode c then
    value ← CCameraConfigValues.supportFocusModeValue c;
    let p := set p KEY_SUPPORTED_FOCUS_MODES value in
    value ← CCameraConfigValues.defaultFocusModeValue c;
    Some (set p KEY_FOCUS_MODE value)
  else
    let p := set p KEY_SUPPORTED_FOCUS_MODES FOCUS_MODE_FIXED in
    let p := set p KEY_FOCUS_MODE FOCUS_MODE_FIXED in
    Some (set p KEY_FOCAL_LENGTH "3.43").

Definition init_color_effect (cfg : CCameraConfig.t) (c : CCameraConfigValues.t)
    (p : CameraParameters.t) : option CameraParameters.t :=
  if CCameraConfig.supportColorEffect cfg then
    value ← CCameraConfigValues.supportColorEffectValue c;
    let p := set p KEY_SUPPORTED_EFFECTS value in
    value ← CCameraConfigValues.defaultColorEffectValue c;
    Some (set p KEY_EFFECT value)
  else Some p.

Definition init_flash_mode (cfg : CCameraConfig.t) (c : CCameraConfigValues.t)
    (p : CameraParameters.t) : option CameraParameters.t :=
  if CCameraConfig.supportFlashMode cfg then
    value ← CCameraConfigValues.supportFlashModeValue c;
    let p := set p KEY_SUPPORTED_FLASH_MODES value in
    value ← CCameraConfigValues.defaultFlashModeValue c;
    Some (set p KEY_FLASH_MODE value)
  else Some p.

Definition init_scene_mode (c : CCameraConfigValues.t) (p : CameraParameters.t)
    : option CameraParameters.t :=
  if CCameraConfigValues.supportSceneMode c then
    value ← CCameraConfigValues.supportSceneModeValue c;
    let p := set p KEY_SUPPORTED_SCENE_MODES value in
    value ← CCameraConfigValues.defaultSceneModeValue c;
    Some (set p KEY_SCENE_MODE value)
  else Some p.

Definition init_white_balance (cfg : CCameraConfig.t) (c : CCameraConfigValues.t)
    (p : CameraParameters.t) : option CameraParameters.t :=
  if CCameraConfig.supportWhiteBalance cfg then
    value ← CCameraConfigValues.supportWhiteBalanceValue c;
    let p := set p KEY_SUPPORTED_WHITE_BALANCE value in
    value ← CCameraConfigValues.defaultWhiteBalanceValue c;
    Some (set p KEY_WHITE_BALANCE value)
  else Some p.

Definition init_exposure_compensation (cfg : CCameraConfig.t) (c : CCameraConfigValues.t)
    (p : CameraParameters.t) : option CameraParameters.t :=
  if CCameraConfig.supportExposureCompensation cfg then
    value ← CCameraConfigValues.minExposureCompensationValue c;
    let p := set p KEY_MIN_EXPOSURE_COMPENSATION value in
    value ← CCameraConfigValues.maxExposureCompensationValue c;
    let p := set p KEY_MAX_EXPOSURE_COMPENSATION value in
    value ← CCameraConfigValues.stepExposureCompensationValue c;
    let p := set p KEY_EXPOSURE_COMPENSATION_STEP value in
    value ← CCameraConfigValues.defaultExposureCompensationValue c;
    Some (set p KEY_EXPOSURE_COMPENSATION value)
  else Some p.

Definition init_zoom (cfg : CCameraConfig.t) (c : CCameraConfigValues.t)
    (p : CameraParameters.t) : option CameraParameters.t :=
  if CCameraConfig.supportZoom cfg then
    value ← CCameraConfigValues.zoomSupportedValue c;
    let p := set p KEY_ZOOM_SUPPORTED value in
    value ← CCameraConfigValues.smoothZoomSupportedValue c;
    let p := set p KEY_SMOOTH_ZOOM_SUPPORTED value in
    value ← CCameraConfigValues.zoomRatiosValue c;
    let p := set p KEY_ZOOM_RATIOS value in
    value ← CCameraConfigValues.maxZoomValue c;
    let p := set p KEY_MAX_ZOOM value in
    value ← CCameraConfigValues.defaultZoomValue c;
    Some (set p KEY_ZOOM value)
  else Some p.

(** The unconditional tail of the method. *)
Definition init_fixed (p : CameraParameters.t) : CameraParameters.t :=
  let p := set p KEY_SUPPORTED_PREVIEW_FORMATS PIXEL_FORMAT_YUV420SP in
  let p := set p KEY_SUPPORTED_PICTURE_FORMATS PIXEL_FORMAT_JPEG in
  let p := set p KEY_VIDEO_FRAME_FORMAT PIXEL_FORMAT_YUV420SP in
  let p := set p KEY_JPEG_QUALITY "90" in
  let p := set p KEY_SUPPORTED_JPEG_THUMBNAIL_SIZES "320x240,0x0" in
  let p := set p KEY_JPEG_THUMBNAIL_WIDTH "320" in
  let p := set p KEY_JPEG_THUMBNAIL_HEIGHT "240" in
  let p := set p KEY_JPEG_THUMBNAIL_QUALITY "90" in
  (* rotation *)
  let p := set_int p KEY_ROTATION 0 in
  (* add for CTS *)
  let p := set p KEY_HORIZONTAL_VIEW_ANGLE "51.2" in
  set p KEY_VERTICAL_VIEW_ANGLE "39.4".

Definition initDefaultParameters (c : CCameraConfigValues.t) : M unit :=
  do p <- read mParameters;
  do cfg <- read mCameraConfig;
  do p <- deref (init_preview_size c p);
  do p <- deref (init_picture_size c p);
  do p <- deref (init_frame_rate c p);
  do p <- deref (init_focus c p);
  do p <- deref (init_color_effect cfg c p);
  do p <- deref (init_flash_mode cfg c p);
  do p <- deref (init_scene_mode c p);
  do p <- deref (init_white_balance cfg c p);
  do p <- deref (init_exposure_compensation cfg c p);
  do p <- deref (init_zoom cfg c p);
  set_parameters_member (fun _ => init_fixed p).

(** [Initialize]: [mCameraConfig] is a record here and cannot be null
    (the constructor has called through the pointer already), so the
    method's null test never fires. *)
Definition Initialize (c : CCameraConfigValues.t) : M status_t :=
  run initDefaultParameters c;
  pure NO_ERROR.

(** *** The split frame events *)

Definition onNextFramePreview (frame : frame_ref) (timestamp : nsecs_t)
    (bUseMataData : bool) : M bool :=
  (* Notify the preview window first. *)
  fun s =>
    match mCameraDevice s with
    | Some camera_dev =>
        let '(r, w', d') :=
          PreviewWindow.onNextFrameAvailable frame timestamp bUseMataData
            (mPreviewWindow s) camera_dev in
        Some (r, log (WinOnNextFrameAvailable frame timestamp bUseMataData r)
                   (with_device d' (with_window w' s)))
    | None => None
    end.

Definition onNextFrameCB (frame : frame_ref) (timestamp : nsecs_t)
    (bUseMataData : bool) : M unit :=
  (* Notify callback notifier next. *)
  fun s =>
    match mCameraDevice s with
    | Some camera_dev =>
        let '(n', d') :=
          CallbackNotifier.onNextFrameAvailable frame timestamp bUseMataData
            (mCallbackNotifier s) camera_dev in
        Some (tt, log (CbOnNextFrameAvailable frame timestamp bUseMataData)
                    (with_device d' (with_notifier n' s)))
    | None => None
    end.

(** *** Camera information *)

Definition FACING_KEY := "prop-facing".
Definition ORIENTATION_KEY := "prop-orientation".
Definition FACING_BACK := "back".
Definition FACING_FRONT := "front".

(** [atoi] *)
Definition atoi (s : string) : Z := fst (CString.strtol 10 s).

(** [getCameraInfo(info)]: [info] comes in as the caller left it and
    goes out with the fields the method assigned. *)
Definition getCameraInfo (info : CameraInfo.camera_info)
    : M (status_t * CameraInfo.camera_info) :=
  do p <- read mParameters;
  let valstr := get p FACING_KEY in
  let facing :=
    match valstr with
    | Some valstr =>
        if String.eqb valstr FACING_FRONT then CameraInfo.CAMERA_FACING_FRONT
        else if String.eqb valstr FACING_BACK then CameraInfo.CAMERA_FACING_BACK
        else CameraInfo.facing info
    | None => CameraInfo.CAMERA_FACING_BACK
    end in
  let valstr := get p ORIENTATION_KEY in
  let orientation :=
    match valstr with
    | Some valstr => atoi valstr
    | None => 0
    end in
  pure (NO_ERROR, CameraInfo.Build facing orientation).

End Methods.

Arguments t : clear implicits.
Arguments M : clear implicits.

End CameraHardware.

(** ** Helper routines

    The two file-local helpers: [AddValue], which works on the heap,
    and the debugging aid [PrintParamDiff], whose only effect is the
    lines it logs. *)

Module Helpers.

(** The C string a [const char*] argument denotes, and [strlen]. *)
Definition c_string (s : string) : string := Heap.until_nul (list_ascii_of_string s).
Definition strlen (s : string) : nat := String.length (c_string s).

Fixpoint overwrite_at (offset : nat) (src dst : list ascii) : list ascii :=
  match offset, dst with
  | O, _ => Heap.overwrite src dst
  | S n, c :: dst' => c :: overwrite_at n src dst'
  | S _, [] => []
  end.

(** Writing [bytes] at [p + offset]; [None] is a write through null
    or past the end of the object. *)
Definition store_at (p : Heap.ptr) (offset : nat) (bytes : list ascii) (h : Heap.t)
    : option Heap.t :=
  match p with
  | Heap.Block a =>
      match Heap.blocks h !! a with
      | Some old =>
          if (offset + length bytes <=? length old)%nat
          then Some (Heap.Build (<[a := overwrite_at offset bytes old]> (Heap.blocks h))
                                (Heap.room h) (Heap.next h))
          else None
      | None => None
      end
  | Heap.lNoParam => if (offset + length bytes <=? 1)%nat then Some h else None
  | Heap.NULL => None
  end.

(** [memcpy(p + offset, src, n)] *)
Definition memcpy (p : Heap.ptr) (offset : nat) (src : string) (n : nat) (h : Heap.t)
    : option Heap.t :=
  store_at p offset (take n (list_ascii_of_string src)) h.

(** [AddValue(param, val)]: a fresh string [param,val], or null when
    the allocation fails. *)
Definition AddValue (param val : string) (h : Heap.t) : option (Heap.ptr * Heap.t) :=
  let len1 := strlen param in
  let len2 := strlen val in
  let '(ret, h) := Heap.malloc (N.of_nat (len1 + len2 + 2)) h in
  if negb (Heap.ptr_eqb ret Heap.NULL) then
    h ← memcpy ret 0 param len1 h;
    h ← store_at ret len1 [","%char] h;
    h ← memcpy ret (len1 + 1) val len2 h;
    h ← store_at ret (len1 + len2 + 1) [Heap.nul] h;
    Some (ret, h)
  else Some (ret, h).

(** What [PrintParamDiff] logs. *)
Inductive DiffLine :=
| ValueChanged (key in_current val : string)
| NewParameter (key val : string)
| NoValueSeparator (item : string).

(** [strchr(tmp, c)] followed by [*val = 0; val++]: the text before
    and after the first [c]. *)
Fixpoint split_at (c : ascii) (tmp : string) : option (string * string) :=
  match tmp with
  | EmptyString => None
  | String x rest =>
      if Ascii.eqb x c then Some (EmptyString, rest)
      else match split_at c rest with
           | Some (key, val) => Some (String x key, val)
           | None => None
           end
  end.

(** The body of the loop, for the item between [wrk] and [next]:
    [snprintf] keeps at most 2047 of its characters in [tmp]. *)
Definition diff_item (current : CameraParameters.t) (item : string) : list DiffLine :=
  let tmp := substring 0 2047 item in
  (* in the form key=value *)
  match split_at "=" tmp with
  | Some (key, val) =>
      match CameraParameters.get current key with
      | Some in_current =>
          if negb (String.eqb in_current val) then [ValueChanged key in_current val]
          else []
      | None => [NewParameter key val]
      end
  | None => [NoValueSeparator tmp]
  end.

(** The loop: [item] is the text from [wrk] up to the character in
    hand; the loop ends when no further [;] is found. *)
Fixpoint PrintParamDiff_loop (current : CameraParameters.t) (new_par item : string)
    : list DiffLine :=
  match new_par with
  | EmptyString => []
  | String c rest =>
      if Ascii.eqb c ";" then diff_item current item ++ PrintParamDiff_loop current rest EmptyString
      else PrintParamDiff_loop current rest (item +:+ String c EmptyString)
  end.

Definition PrintParamDiff (current : CameraParameters.t) (new_par : string) : list DiffLine :=
  PrintParamDiff_loop current new_par EmptyString.

End Helpers.

(** ** Reference collaborators

    Modelled from the spec: the classes [V4L2CameraDevice],
    [PreviewWindow] and [CallbackNotifier] are not part of the file.
    These are small executable stand-ins that follow the spec's
    description of them (a driver adapter with connect, start, stop,
    delivery and try-format; a display sink that is enabled or disabled
    and may decline a frame; a notifier with a taking-picture flag), used
    to run the methods on concrete sessions.  The device answers each
    command with the status scripted in its state and changes state only
    on success; its [tryFmtSize] picks the supported size closest to the
    request. *)

Module Reference.

(** Modelled from the spec: the device driver adapter, which "owns the
    single underlying capture stream" and exposes connect, start, stop,
    delivery and try-format.  The [_result] fields script what each
    command answers. *)
Record Device := MkDevice {
  connected : bool;
  started : bool;
  delivering : bool;
  sizes : list (Z * Z);
  connect_result : status_t;
  start_result : status_t;
  stop_result : status_t;
  deliver_result : status_t;
  control_result : Z
}.

Definition set_connected (b : bool) (d : Device) : Device :=
  MkDevice b (started d) (delivering d) (sizes d) (connect_result d) (start_result d)
           (stop_result d) (deliver_result d) (control_result d).
Definition set_started (b : bool) (d : Device) : Device :=
  MkDevice (connected d) b (delivering d) (sizes d) (connect_result d) (start_result d)
           (stop_result d) (deliver_result d) (control_result d).
Definition set_delivering (b : bool) (d : Device) : Device :=
  MkDevice (connected d) (started d) b (sizes d) (connect_result d) (start_result d)
           (stop_result d) (deliver_result d) (control_result d).

Definition answer (res : status_t) (f : Device -> Device) (d : Device) : status_t * Device :=
  if res =? NO_ERROR then (res, f d) else (res, d).

Definition distance (a b : Z * Z) : Z :=
  Z.abs (fst a - fst b) + Z.abs (snd a - snd b).

Fixpoint closest (want best : Z * Z) (l : list (Z * Z)) : Z * Z :=
  match l with
  | [] => best
  | x :: l' =>
      closest want (if distance want x <? distance want best then x else best) l'
  end.

Definition nearest_size (want : Z * Z) (d : Device) : Z * Z :=
  match sizes d with
  | [] => want
  | x :: l => closest want x l
  end.

#[global] Instance device_ops : V4L2CameraDevice.Ops Device := {|
  V4L2CameraDevice.isStarted := started;
  V4L2CameraDevice.isConnected := connected;
  V4L2CameraDevice.connectDevice d := answer (connect_result d) (set_connected true) d;
  V4L2CameraDevice.disconnectDevice d := (NO_ERROR, set_connected false d);
  V4L2CameraDevice.startDevice _ _ _ d := answer (start_result d) (set_started true) d;
  V4L2CameraDevice.stopDevice d :=
    answer (stop_result d) (fun d => set_delivering false (set_started false d)) d;
  V4L2CameraDevice.startDeliveringFrames _ d :=
    answer (deliver_result d) (set_delivering true) d;
  V4L2CameraDevice.stopDeliveringFrames d := set_delivering false d;
  V4L2CameraDevice.tryFmtSize w h d := ((0, nearest_size (w, h) d), d);
  V4L2CameraDevice.setPictureSize _ _ d := d;
  V4L2CameraDevice.getFrameRate d := d;
  V4L2CameraDevice.setImageEffect _ d := (control_result d, d);
  V4L2CameraDevice.setWhiteBalance _ d := (control_result d, d);
  V4L2CameraDevice.setExposure _ d := (control_result d, d)
|}.

(** Modelled from the spec: the display sink, "independently trackable
    as enabled/disabled", which "may reject a frame". *)
Record Window := MkWindow {
  enabled : bool;
  layer : bool;
  accepting : bool;
  window_start_result : status_t;
  shown : list frame_ref
}.

#[global] Instance window_ops : PreviewWindow.Ops Window Device := {|
  PreviewWindow.isPreviewEnabled := enabled;
  PreviewWindow.startPreview w :=
    if window_start_result w =? NO_ERROR
    then (NO_ERROR, MkWindow true (layer w) (accepting w) (window_start_result w) (shown w))
    else (window_start_result w, w);
  PreviewWindow.stopPreview w :=
    MkWindow false (layer w) (accepting w) (window_start_result w) (shown w);
  PreviewWindow.showLayer on w :=
    MkWindow (enabled w) on (accepting w) (window_start_result w) (shown w);
  PreviewWindow.onNextFrameAvailable frame _ _ w d :=
    if enabled w && accepting w
    then (true, MkWindow (enabled w) (layer w) (accepting w) (window_start_result w)
                         (shown w ++ [frame]), d)
    else (false, w, d)
|}.

(** Modelled from the spec: the recording notifier with its flags for
    video recording, a pending still capture and metadata mode; a
    delivered frame ends a pending capture. *)
Record Notifier := MkNotifier {
  taking_picture : bool;
  jpeg_quality : Z;
  recording : bool;
  metadata : bool;
  delivered : list (frame_ref * nsecs_t)
}.

#[global] Instance notifier_ops : CallbackNotifier.Ops Notifier Device := {|
  CallbackNotifier.onNextFrameAvailable frame timestamp _ n d :=
    (MkNotifier false (jpeg_quality n) (recording n) (metadata n)
                (delivered n ++ [(frame, timestamp)]), d);
  CallbackNotifier.setJpegQuality q n :=
    MkNotifier (taking_picture n) q (recording n) (metadata n) (delivered n);
  CallbackNotifier.setTakingPicture b n :=
    MkNotifier b (jpeg_quality n) (recording n) (metadata n) (delivered n);
  CallbackNotifier.enableVideoRecording _ n :=
    (NO_ERROR, MkNotifier (taking_picture n) (jpeg_quality n) true (metadata n) (delivered n));
  CallbackNotifier.storeMetaDataInBuffers enable n :=
    (NO_ERROR, MkNotifier (taking_picture n) (jpeg_quality n) (recording n)
                          (negb (enable =? 0)) (delivered n));
  CallbackNotifier.cleanupCBNotifier n :=
    MkNotifier false (jpeg_quality n) false (metadata n) (delivered n)
|}.

Abbreviation session := (CameraHardware.t Device Window Notifier).

(** A connected, idle device that supports two sizes and answers every
    command with success. *)
Definition device0 : Device :=
  MkDevice true false false [(640, 480); (1280, 720)] NO_ERROR NO_ERROR NO_ERROR NO_ERROR 0.

Definition window0 : Window := MkWindow false true true NO_ERROR [].
Definition notifier0 : Notifier := MkNotifier false 90 false false [].

Definition config0 : CCameraConfig.t :=
  {| CCameraConfig.supportColorEffect := true;
     CCameraConfig.supportWhiteBalance := true;
     CCameraConfig.supportExposureCompensation := true;
     CCameraConfig.supportFlashMode := true;
     CCameraConfig.supportZoom := true |}.

(** The store after [initDefaultParameters] on a device with the
    capability table below. *)
Definition parameters0 : CameraParameters.t :=
  CameraParameters.unflatten
    ("preview-size=640x480;video-size=640x480;preview-format=yuv420sp;" +:+
     "picture-size=1280x720;picture-format=jpeg;jpeg-quality=90;rotation=0;" +:+
     "video-frame-format=yuv420sp;preview-frame-rate=30;" +:+
     "effect=none;effect-values=none,mono,sepia;" +:+
     "whitebalance=auto;whitebalance-values=auto,daylight;" +:+
     "exposure-compensation=0;min-exposure-compensation=-3;max-exposure-compensation=3;" +:+
     "flash-mode=off;flash-mode-values=off,auto;" +:+
     "zoom=0;max-zoom=100;focus-mode=fixed;scene-mode=auto").

Definition session0 : session :=
  CameraHardware.Build window0 notifier0 (Some device0) config0 parameters0 [].

Definition device_streaming : Device :=
  MkDevice true true true [(640, 480); (1280, 720)] NO_ERROR NO_ERROR NO_ERROR NO_ERROR 0.

(** Preview running: the window enabled, the device streaming. *)
Definition previewing : session :=
  CameraHardware.Build (MkWindow true true true NO_ERROR []) notifier0
    (Some device_streaming) config0 parameters0 [].

(** A still capture in flight: [takePicture] has returned and its
    single frame has not been delivered yet. *)
Definition capture_pending : session :=
  CameraHardware.Build (MkWindow false false true NO_ERROR [])
    (MkNotifier true 90 false false []) (Some device_streaming) config0
    (<["preview-size" := "1280x720"]> parameters0) [].

(** A device whose [startDevice] fails with [EINVAL]. *)
Definition device_start_fails : Device :=
  MkDevice true false false [(640, 480); (1280, 720)] NO_ERROR EINVAL NO_ERROR NO_ERROR 0.

Definition start_fails : session :=
  CameraHardware.Build window0 notifier0 (Some device_start_fails) config0 parameters0 [].

(** A store whose picture format is not a supported tag and whose
    picture size the device cannot deliver. *)
Definition odd_picture : session :=
  CameraHardware.Build window0 notifier0 (Some device0) config0
    (<["picture-size" := "9999x9999"]> (<["picture-format" := "rgb565"]> parameters0)) [].

Definition big_picture : session :=
  CameraHardware.Build window0 notifier0 (Some device0) config0
    (<["picture-size" := "9999x9999"]> parameters0) [].

(** The same store without a video size. *)
Definition big_picture_plain : session :=
  CameraHardware.Build window0 notifier0 (Some device0) config0
    (delete "video-size" (<["picture-size" := "9999x9999"]> parameters0)) [].

(** A device that starts, but refuses both to deliver frames and to
    stop. *)
Definition device_stuck : Device :=
  MkDevice true false false [(640, 480); (1280, 720)] NO_ERROR NO_ERROR EINVAL EINVAL 0.

Definition stuck : session :=
  CameraHardware.Build window0 notifier0 (Some device_stuck) config0 parameters0 [].

(** What can be seen of a session besides its command list, and of a
    run. *)
Definition observe (s : session) :=
  (CameraHardware.mPreviewWindow s, CameraHardware.mCallbackNotifier s,
   CameraHardware.mCameraDevice s, CameraParameters.flatten (CameraHardware.mParameters s)).

Definition observe_run {A} (run : option (A * session)) :=
  match run with
  | Some (a, s) => Some (a, observe s, CameraHardware.calls s)
  | None => None
  end.

(** Candidate sets handed to [setParameters]: one with a white-balance
    tag the method does not know next to a legal JPEG quality, one
    with an effect, a flash mode and a zoom the capability table does
    not advertise. *)
Definition twilight_request : string :=
  "preview-format=yuv420sp;picture-format=jpeg;jpeg-quality=80;" +:+
  "whitebalance=twilight;flash-mode=off;zoom=0".

Definition bogus_request : string :=
  "preview-format=yuv420sp;picture-format=jpeg;effect=negative;" +:+
  "flash-mode=bogus;zoom=9999".

(** The status and the command list of a run. *)
Definition outline {A} (run : option (A * session)) : option (A * list Call) :=
  match run with
  | Some (a, s) => Some (a, CameraHardware.calls s)
  | None => None
  end.

(** Heaps with and without room for a parameter string. *)
Definition heap0 : Heap.t := Heap.Build ∅ 4096 1.
Definition heap_full : Heap.t := Heap.Build ∅ 0 1.

(** Membership in a comma-separated list of advertised values. *)
Fixpoint advertised_go (list : string) (acc v : string) : bool :=
  match list with
  | EmptyString => String.eqb acc v
  | String c rest =>
      if Ascii.eqb c "," then String.eqb acc v || advertised_go rest EmptyString v
      else advertised_go rest (acc +:+ String c EmptyString) v
  end.

Definition advertised (list v : string) : bool := advertised_go list EmptyString v.

End Reference.

(** * Specification vocabulary *)

Import CameraHardware CameraParameters.

(** The window's [startPreview] succeeded among the commands [l]. *)
Fixpoint window_started (l : list Call) : Prop :=
  match l with
  | [] => False
  | WinStartPreview res :: l' => res = NO_ERROR \/ window_started l'
  | _ :: l' => window_started l'
  end.

(** Every device stop among the commands [l] reported success. *)
Fixpoint stops_succeeded (l : list Call) : Prop :=
  match l with
  | [] => True
  | DevStopDevice res :: l' => res = NO_ERROR /\ stops_succeeded l'
  | _ :: l' => stops_succeeded l'
  end.

(** Each successful device start among the commands [l] is followed by
    a device stop. *)
Fixpoint stop_follows_start (l : list Call) : Prop :=
  match l with
  | [] => True
  | DevStartDevice _ _ _ res :: l' =>
      (res = NO_ERROR -> exists r, In (DevStopDevice r) l') /\ stop_follows_start l'
  | _ :: l' => stop_follows_start l'
  end.

(** Modelled from the spec: the device class is not part of the file.
    What the session relies on from it: a stop that reports success
    leaves the stream stopped, connecting does not start the stream, a
    failed start leaves the stream as it was. *)
Class DeviceContract (D : Type) `{!V4L2CameraDevice.Ops D} := {
  stopDevice_stops (d : D) :
    (V4L2CameraDevice.stopDevice d).1 = NO_ERROR ->
    V4L2CameraDevice.isStarted (V4L2CameraDevice.stopDevice d).2 = false;
  connectDevice_keeps_stream (d : D) :
    V4L2CameraDevice.isStarted (V4L2CameraDevice.connectDevice d).2
    = V4L2CameraDevice.isStarted d;
  startDevice_failure (w h f : Z) (d : D) :
    (V4L2CameraDevice.startDevice w h f d).1 <> NO_ERROR ->
    V4L2CameraDevice.isStarted (V4L2CameraDevice.startDevice w h f d).2
    = V4L2CameraDevice.isStarted d
}.

(** Modelled from the spec: the window class is not part of the file.
    What the session relies on from it: once stopped it reports itself
    disabled. *)
Class WindowContract (W D : Type) `{!PreviewWindow.Ops W D} := {
  stopPreview_disables (w : W) :
    PreviewWindow.isPreviewEnabled (PreviewWindow.stopPreview w) = false
}.

(** Under key [k] the store [p'] holds what [p] held, or a value that
    satisfies [P]. *)
Definition keeps_or (k : string) (P : string -> Prop) (p p' : gmap string string) : Prop :=
  p' !! k = p !! k \/ exists v, p' !! k = Some v /\ P v.

Section Vocabulary.

Context {D W N : Type}.

Implicit Types (s : CameraHardware.t D W N).

(** [outcome F m Q s]: running [m] on [s] ends in a value and a session
    that satisfy [Q]; a fault counts as [F].  With [F := False] the
    method must return ([returns]); with [F := True] only the returned
    results are constrained ([partial]). *)
Definition outcome (F : Prop) {A} (m : M D W N A)
    (Q : A -> CameraHardware.t D W N -> Prop) (s : CameraHardware.t D W N) : Prop :=
  match m s with
  | Some (a, s') => Q a s'
  | None => F
  end.


(** [s'] is [s] after some more commands, with the same parameters
    and capability table, and a device still bound. *)
Definition advances s s' : Prop :=
  mParameters s' = mParameters s /\
  mCameraConfig s' = mCameraConfig s /\
  (exists more, calls s' = calls s ++ more) /\
  is_Some (mCameraDevice s').

(** Two sessions that agree on everything but the notifier. *)
Definition same_but_notifier s1 s2 : Prop :=
  mPreviewWindow s1 = mPreviewWindow s2 /\
  mCameraDevice s1 = mCameraDevice s2 /\
  mCameraConfig s1 = mCameraConfig s2 /\
  mParameters s1 = mParameters s2 /\
  calls s1 = calls s2.

Definition agree {A} (r1 r2 : option (A * CameraHardware.t D W N)) : Prop :=
  match r1, r2 with
  | Some (a1, s1), Some (a2, s2) => a1 = a2 /\ same_but_notifier s1 s2
  | None, None => True
  | _, _ => False
  end.

(** [m] runs the same way whatever the notifier holds. *)
Definition blind {A} (m : M D W N A) : Prop :=
  forall s1 s2, same_but_notifier s1 s2 -> agree (m s1) (m s2).

(** Every returning run of [m] relates the stores before and after by
    [R] and leaves the capability table alone. *)
Definition preserves (R : gmap string string -> gmap string string -> Prop)
    {A} (m : M D W N A) : Prop :=
  forall s a s', m s = Some (a, s') ->
    mCameraConfig s' = mCameraConfig s /\ R (mParameters s) (mParameters s').

End Vocabulary.

Abbreviation returns := (outcome False).
Abbreviation partial := (outcome True).

(** ** Vocabulary for start-up and request sequences *)

Import CameraParameterKeys Helpers.

(** The keys each block of [initDefaultParameters] writes. *)
Definition preview_size_keys : list string :=
  [KEY_SUPPORTED_PREVIEW_SIZES; KEY_SUPPORTED_VIDEO_SIZES; KEY_PREVIEW_SIZE; KEY_VIDEO_SIZE;
   KEY_PREFERRED_PREVIEW_SIZE_FOR_VIDEO; KEY_VIDEO_FRAME_FORMAT; KEY_PREVIEW_FORMAT].
Definition picture_size_keys : list string :=
  [KEY_SUPPORTED_PICTURE_SIZES; KEY_PICTURE_SIZE; KEY_PICTURE_FORMAT].
Definition frame_rate_keys : list string :=
  [KEY_SUPPORTED_PREVIEW_FRAME_RATES; KEY_PREVIEW_FPS_RANGE; KEY_SUPPORTED_PREVIEW_FPS_RANGE;
   KEY_PREVIEW_FRAME_RATE].
Definition focus_keys : list string :=
  [KEY_SUPPORTED_FOCUS_MODES; KEY_FOCUS_MODE; KEY_FOCAL_LENGTH].
Definition color_effect_keys : list string := [KEY_SUPPORTED_EFFECTS; KEY_EFFECT].
Definition flash_mode_keys : list string := [KEY_SUPPORTED_FLASH_MODES; KEY_FLASH_MODE].
Definition scene_mode_keys : list string := [KEY_SUPPORTED_SCENE_MODES; KEY_SCENE_MODE].
Definition white_balance_keys : list string := [KEY_SUPPORTED_WHITE_BALANCE; KEY_WHITE_BALANCE].
Definition exposure_keys : list string :=
  [KEY_MIN_EXPOSURE_COMPENSATION; KEY_MAX_EXPOSURE_COMPENSATION;
   KEY_EXPOSURE_COMPENSATION_STEP; KEY_EXPOSURE_COMPENSATION].
Definition zoom_keys : list string :=
  [KEY_ZOOM_SUPPORTED; KEY_SMOOTH_ZOOM_SUPPORTED; KEY_ZOOM_RATIOS; KEY_MAX_ZOOM; KEY_ZOOM].
Definition fixed_keys : list string :=
  [KEY_SUPPORTED_PREVIEW_FORMATS; KEY_SUPPORTED_PICTURE_FORMATS; KEY_VIDEO_FRAME_FORMAT;
   KEY_JPEG_QUALITY; KEY_SUPPORTED_JPEG_THUMBNAIL_SIZES; KEY_JPEG_THUMBNAIL_WIDTH;
   KEY_JPEG_THUMBNAIL_HEIGHT; KEY_JPEG_THUMBNAIL_QUALITY; KEY_ROTATION;
   KEY_HORIZONTAL_VIEW_ANGLE; KEY_VERTICAL_VIEW_ANGLE].

Definition default_keys : list string :=
  preview_size_keys ++ picture_size_keys ++ frame_rate_keys ++ focus_keys ++
  color_effect_keys ++ flash_mode_keys ++ scene_mode_keys ++ white_balance_keys ++
  exposure_keys ++ zoom_keys ++ fixed_keys.

(** The value strings of a field are non-null if the field is
    supported; for every field of the table: [values_present]. *)
Definition present (supported : bool) (values : list (option string)) : bool :=
  negb supported
  || forallb (fun v => match v with Some _ => true | None => false end) values.

Definition values_present (cfg : CCameraConfig.t) (c : CCameraConfigValues.t) : bool :=
  present (CCameraConfigValues.supportPreviewSize c)
    [CCameraConfigValues.supportPreviewSizeValue c; CCameraConfigValues.defaultPreviewSizeValue c]
  && present (CCameraConfigValues.supportPictureSize c)
       [CCameraConfigValues.supportPictureSizeValue c;
        CCameraConfigValues.defaultPictureSizeValue c]
  && present (CCameraConfigValues.supportFrameRate c)
       [CCameraConfigValues.supportFrameRateValue c; CCameraConfigValues.defaultFrameRateValue c]
  && present (CCameraConfigValues.supportFocusMode c)
       [CCameraConfigValues.supportFocusModeValue c; CCameraConfigValues.defaultFocusModeValue c]
  && present (CCameraConfig.supportColorEffect cfg)
       [CCameraConfigValues.supportColorEffectValue c;
        CCameraConfigValues.defaultColorEffectValue c]
  && present (CCameraConfig.supportFlashMode cfg)
       [CCameraConfigValues.supportFlashModeValue c; CCameraConfigValues.defaultFlashModeValue c]
  && present (CCameraConfigValues.supportSceneMode c)
       [CCameraConfigValues.supportSceneModeValue c; CCameraConfigValues.defaultSceneModeValue c]
  && present (CCameraConfig.supportWhiteBalance cfg)
       [CCameraConfigValues.supportWhiteBalanceValue c;
        CCameraConfigValues.defaultWhiteBalanceValue c]
  && present (CCameraConfig.supportExposureCompensation cfg)
       [CCameraConfigValues.minExposureCompensationValue c;
        CCameraConfigValues.maxExposureCompensationValue c;
        CCameraConfigValues.stepExposureCompensationValue c;
        CCameraConfigValues.defaultExposureCompensationValue c]
  && present (CCameraConfig.supportZoom cfg)
       [CCameraConfigValues.zoomSupportedValue c; CCameraConfigValues.smoothZoomSupportedValue c;
        CCameraConfigValues.zoomRatiosValue c; CCameraConfigValues.maxZoomValue c;
        CCameraConfigValues.defaultZoomValue c].

(** The store [initDefaultParameters] builds from [p], block after
    block; [initDefaultParameters_default_store] below relates the two. *)
Definition default_store (cfg : CCameraConfig.t) (c : CCameraConfigValues.t)
    (p : gmap string string) : option (gmap string string) :=
  p ← init_preview_size c p;
  p ← init_picture_size c p;
  p ← init_frame_rate c p;
  p ← init_focus c p;
  p ← init_color_effect cfg c p;
  p ← init_flash_mode cfg c p;
  p ← init_scene_mode c p;
  p ← init_white_balance cfg c p;
  p ← init_exposure_compensation cfg c p;
  p ← init_zoom cfg c p;
  Some (init_fixed p).

(** The calls a client can make on a session once it is initialized,
    and the frame events the device raises. *)
Inductive Request :=
| SetParameters (p : string)
| TakePicture
| StartPreview
| StopPreview
| StartRecording
| StoreMetaDataInBuffers (enable : Z)
| ConnectCamera
| CloseCamera
| NextFrameAvailable (frame : frame_ref) (timestamp : nsecs_t) (meta : bool)
| NextFramePreview (frame : frame_ref) (timestamp : nsecs_t) (meta : bool)
| NextFrameCB (frame : frame_ref) (timestamp : nsecs_t) (meta : bool)
| GetCameraInfo (info : CameraInfo.camera_info).

(** The keys [setParameters] and [takePicture] may write. *)
Definition mutable_keys : list string :=
  [KEY_PICTURE_SIZE; KEY_PREVIEW_SIZE; KEY_PREVIEW_FORMAT; KEY_JPEG_QUALITY;
   KEY_ROTATION; KEY_EFFECT; KEY_WHITE_BALANCE; KEY_EXPOSURE_COMPENSATION;
   KEY_FLASH_MODE; KEY_ZOOM].

(** A command to the callback notifier. *)
Definition is_notifier_call (c : Call) : bool :=
  match c with
  | CbOnNextFrameAvailable _ _ _ | CbSetJpegQuality _ | CbSetTakingPicture _
  | CbEnableVideoRecording _ _ | CbStoreMetaDataInBuffers _ _ | CbCleanupCBNotifier => true
  | _ => false
  end.

(** The frame size and the pixel format tag a preview start works
    with: the video size when one is stored, else the preview size; the
    video frame format when the recording hint is [true] and that
    format is stored, else the preview format. *)
Definition preview_frame_size (p : gmap string string) : Z * Z :=
  match get p KEY_VIDEO_SIZE with
  | Some _ => getVideoSize p
  | None => getPreviewSize p
  end.

Definition preview_frame_format (p : gmap string string) : option string :=
  match get p RECORDING_HINT_KEY, get p KEY_VIDEO_FRAME_FORMAT with
  | Some hint, Some video_format =>
      if String.eqb hint TRUE then Some video_format else getPreviewFormat p
  | _, _ => getPreviewFormat p
  end.

(** Modelled from the spec: what a successful start means for the
    collaborators.  A window whose [startPreview] succeeded reports
    itself enabled, a device whose [startDevice] succeeded reports
    itself started, and starting frame delivery does not change that. *)
Class StreamContract (D W : Type) `{!V4L2CameraDevice.Ops D, !PreviewWindow.Ops W D} := {
  startPreview_enables (w : W) :
    (PreviewWindow.startPreview w).1 = NO_ERROR ->
    PreviewWindow.isPreviewEnabled (PreviewWindow.startPreview w).2 = true;
  startDevice_starts (w h f : Z) (d : D) :
    (V4L2CameraDevice.startDevice w h f d).1 = NO_ERROR ->
    V4L2CameraDevice.isStarted (V4L2CameraDevice.startDevice w h f d).2 = true;
  startDeliveringFrames_keeps_stream (b : bool) (d : D) :
    V4L2CameraDevice.isStarted (V4L2CameraDevice.startDeliveringFrames b d).2
    = V4L2CameraDevice.isStarted d
}.

Section Requests.

Context {D W N : Type}.
Context `{!V4L2CameraDevice.Ops D, !PreviewWindow.Ops W D, !CallbackNotifier.Ops N D}.

Implicit Types (s : CameraHardware.t D W N).

(** A call whose result the client drops. *)
Definition discard {A} (m : M D W N A) : M D W N unit := bind m (fun _ => pure tt).

Definition serve (r : Request) : M D W N unit :=
  match r with
  | SetParameters p => discard (setParameters p)
  | TakePicture => discard takePicture
  | StartPreview => discard startPreview
  | StopPreview => stopPreview
  | StartRecording => discard startRecording
  | StoreMetaDataInBuffers enable => discard (storeMetaDataInBuffers enable)
  | ConnectCamera => discard connectCamera
  | CloseCamera => discard closeCamera
  | NextFrameAvailable frame timestamp meta =>
      discard (onNextFrameAvailable frame timestamp meta)
  | NextFramePreview frame timestamp meta =>
      discard (onNextFramePreview frame timestamp meta)
  | NextFrameCB frame timestamp meta => onNextFrameCB frame timestamp meta
  | GetCameraInfo info => discard (getCameraInfo info)
  end.

Fixpoint serve_all (rs : list Request) : M D W N unit :=
  match rs with
  | [] => pure tt
  | r :: rs' => bind (serve r) (fun _ => serve_all rs')
  end.

(** [s'] is [s] after commands that leave the notifier out, with the
    same parameters and a device still bound. *)
Definition quiet s s' : Prop :=
  mParameters s' = mParameters s /\
  mCallbackNotifier s' = mCallbackNotifier s /\
  (exists more, calls s' = calls s ++ more /\ List.filter is_notifier_call more = []) /\
  is_Some (mCameraDevice s').

(** A run of [m] from a session with a device ends in one. *)
Definition keeps_device {A} (m : M D W N A) : Prop :=
  forall s a s', m s = Some (a, s') ->
    is_Some (mCameraDevice s) -> is_Some (mCameraDevice s').

End Requests.

(** Where [strtol] stops reading a decimal number. *)
Definition stops (rest : string) : Prop :=
  match rest with
  | EmptyString => True
  | String c _ => CString.is_digit_in 10 c = false
  end.

(** The three keys whose commits are followed below. *)
Definition same_commits (p p' : gmap string string) : Prop :=
  p' !! KEY_PICTURE_SIZE = p !! KEY_PICTURE_SIZE /\
  p' !! KEY_JPEG_QUALITY = p !! KEY_JPEG_QUALITY /\
  p' !! KEY_ROTATION = p !! KEY_ROTATION.

(** ** Further reference sessions *)

Module Scenario.

Import Reference.

(** A capability table that supports everything but focus and scene
    modes, and one that supports only the sizes. *)
Definition values0 : CCameraConfigValues.t :=
  {| CCameraConfigValues.supportPreviewSize := true;
     CCameraConfigValues.supportPreviewSizeValue := Some "640x480,1280x720";
     CCameraConfigValues.defaultPreviewSizeValue := Some "640x480";
     CCameraConfigValues.supportPictureSize := true;
     CCameraConfigValues.supportPictureSizeValue := Some "640x480,1280x720";
     CCameraConfigValues.defaultPictureSizeValue := Some "1280x720";
     CCameraConfigValues.supportFrameRate := true;
     CCameraConfigValues.supportFrameRateValue := Some "15,30";
     CCameraConfigValues.defaultFrameRateValue := Some "30";
     CCameraConfigValues.supportFocusMode := false;
     CCameraConfigValues.supportFocusModeValue := None;
     CCameraConfigValues.defaultFocusModeValue := None;
     CCameraConfigValues.supportColorEffectValue := Some "none,mono,sepia";
     CCameraConfigValues.defaultColorEffectValue := Some "none";
     CCameraConfigValues.supportFlashModeValue := Some "off,auto";
     CCameraConfigValues.defaultFlashModeValue := Some "off";
     CCameraConfigValues.supportSceneMode := false;
     CCameraConfigValues.supportSceneModeValue := None;
     CCameraConfigValues.defaultSceneModeValue := None;
     CCameraConfigValues.supportWhiteBalanceValue := Some "auto,daylight";
     CCameraConfigValues.defaultWhiteBalanceValue := Some "auto";
     CCameraConfigValues.minExposureCompensationValue := Some "-3";
     CCameraConfigValues.maxExposureCompensationValue := Some "3";
     CCameraConfigValues.stepExposureCompensationValue := Some "1";
     CCameraConfigValues.defaultExposureCompensationValue := Some "0";
     CCameraConfigValues.zoomSupportedValue := Some "true";
     CCameraConfigValues.smoothZoomSupportedValue := Some "false";
     CCameraConfigValues.zoomRatiosValue := Some "100,200";
     CCameraConfigValues.maxZoomValue := Some "100";
     CCameraConfigValues.defaultZoomValue := Some "0" |}.

Definition config_plain : CCameraConfig.t :=
  {| CCameraConfig.supportColorEffect := false;
     CCameraConfig.supportWhiteBalance := false;
     CCameraConfig.supportExposureCompensation := false;
     CCameraConfig.supportFlashMode := false;
     CCameraConfig.supportZoom := false |}.

Definition values_plain : CCameraConfigValues.t :=
  {| CCameraConfigValues.supportPreviewSize := true;
     CCameraConfigValues.supportPreviewSizeValue := Some "640x480";
     CCameraConfigValues.defaultPreviewSizeValue := Some "640x480";
     CCameraConfigValues.supportPictureSize := true;
     CCameraConfigValues.supportPictureSizeValue := Some "640x480";
     CCameraConfigValues.defaultPictureSizeValue := Some "640x480";
     CCameraConfigValues.supportFrameRate := false;
     CCameraConfigValues.supportFrameRateValue := None;
     CCameraConfigValues.defaultFrameRateValue := None;
     CCameraConfigValues.supportFocusMode := false;
     CCameraConfigValues.supportFocusModeValue := None;
     CCameraConfigValues.defaultFocusModeValue := None;
     CCameraConfigValues.supportColorEffectValue := None;
     CCameraConfigValues.defaultColorEffectValue := None;
     CCameraConfigValues.supportFlashModeValue := None;
     CCameraConfigValues.defaultFlashModeValue := None;
     CCameraConfigValues.supportSceneMode := false;
     CCameraConfigValues.supportSceneModeValue := None;
     CCameraConfigValues.defaultSceneModeValue := None;
     CCameraConfigValues.supportWhiteBalanceValue := None;
     CCameraConfigValues.defaultWhiteBalanceValue := None;
     CCameraConfigValues.minExposureCompensationValue := None;
     CCameraConfigValues.maxExposureCompensationValue := None;
     CCameraConfigValues.stepExposureCompensationValue := None;
     CCameraConfigValues.defaultExposureCompensationValue := None;
     CCameraConfigValues.zoomSupportedValue := None;
     CCameraConfigValues.smoothZoomSupportedValue := None;
     CCameraConfigValues.zoomRatiosValue := None;
     CCameraConfigValues.maxZoomValue := None;
     CCameraConfigValues.defaultZoomValue := None |}.

(** The session as the constructor leaves it: an empty store. *)
Definition constructed : session :=
  CameraHardware.Build window0 notifier0 (Some device0) config0 ∅ [].

Definition constructed_plain : session :=
  CameraHardware.Build window0 notifier0 (Some device0) config_plain ∅ [].

(** A client session: parameters, preview with one frame, a picture,
    camera information, teardown. *)
Definition requests0 : list Request :=
  [SetParameters bogus_request; StartPreview; NextFrameAvailable 7 1000 false;
   TakePicture; StopPreview;
   GetCameraInfo (CameraInfo.Build CameraInfo.CAMERA_FACING_FRONT 270); CloseCamera].




(** A device that starts but refuses to deliver frames. *)
Definition device_deliver_fails : Device :=
  MkDevice true false false [(640, 480); (1280, 720)] NO_ERROR NO_ERROR NO_ERROR EINVAL 0.

Definition deliver_fails : session :=
  CameraHardware.Build window0 notifier0 (Some device_deliver_fails) config0 parameters0 [].

(** Candidate sets: one with a wrong preview format, one whose JPEG
    quality and picture size are out of bounds next to a legal
    rotation. *)
Definition format_request : string := "preview-format=rgb565;picture-format=jpeg".

Definition bounds_request : string :=
  "preview-format=yuv420sp;picture-format=jpeg;jpeg-quality=0;rotation=90;" +:+
  "picture-size=0x480;flash-mode=off".

(** A candidate set with a picture size, a JPEG quality and a rotation
    that are all within bounds. *)
Definition capture_request : string :=
  "preview-format=yuv420sp;picture-format=jpeg;picture-size=640x480;" +:+
  "jpeg-quality=75;rotation=180;flash-mode=off;zoom=0".

(** Whether a run returned. *)
Definition returned {A} (run : option (A * session)) : bool :=
  match run with
  | Some _ => true
  | None => false
  end.

End Scenario.

(** * Properties *)

(** ** String printing and the parameter map *)

Section StoreFacts.

Implicit Types (p : gmap string string) (k v : string).

Lemma contains_app c (a b : string) :
  CString.contains c (a +:+ b) = CString.contains c a || CString.contains c b.
Proof.
  induction a as [|x a IH]; simpl; [done|].
  rewrite IH. by destruct (Ascii.eqb x c).
Qed.

Lemma pretty_N_go_contains c x s :
  (forall d, pretty_N_char d <> c) ->
  CString.contains c (pretty_N_go x s) = CString.contains c s.
Proof.
  intros Hc. revert s.
  induction (N.lt_wf_0 x) as [x _ IH]; intros s.
  destruct (decide (x = 0%N)) as [->|Hx]; [done|].
  rewrite pretty_N_go_step by lia.
  rewrite IH by (apply N.div_lt; lia). simpl.
  destruct (Ascii.eqb_spec (pretty_N_char (x `mod` 10)) c) as [E|_]; [|done].
  by destruct (Hc _ E).
Qed.

Lemma not_digit_equals d : pretty_N_char d <> "="%char.
Proof. unfold pretty_N_char. repeat case_match; discriminate. Qed.

Lemma print_int_no_equals z : CString.contains "=" (CString.print_int z) = false.
Proof.
  unfold CString.print_int, pretty, pretty_Z.
  destruct z as [|x|x]; [done|..]; unfold pretty, pretty_positive, pretty, pretty_N;
    case_decide; try done; simpl;
    apply (pretty_N_go_contains _ _ EmptyString), not_digit_equals.
Qed.

Lemma print_size_no_equals w h : CString.contains "=" (print_size w h) = false.
Proof.
  unfold print_size. rewrite !contains_app, !print_int_no_equals. done.
Qed.

(** A write under one of the file's keys, with a value free of [=],
    goes through. *)
Lemma set_stores p k v :
  CString.contains "=" k = false -> CString.contains ";" k = false ->
  CString.contains "=" v = false ->
  set p k v = <[k := v]> p.
Proof. unfold set. by intros -> -> ->. Qed.

Lemma lookup_set_ne p k v k' : k <> k' -> set p k v !! k' = p !! k'.
Proof.
  intros Hne. unfold set. repeat case_match; try done. by rewrite lookup_insert_ne.
Qed.

Lemma lookup_set_eq p k v : set p k v !! k = Some v \/ set p k v !! k = p !! k.
Proof.
  unfold set. repeat case_match; auto. left. by rewrite lookup_insert_eq.
Qed.

Lemma get_set_ne p k v k' : k <> k' -> get (set p k v) k' = get p k'.
Proof. intros Hne. unfold get. by rewrite lookup_set_ne. Qed.

Lemma lookup_setPreviewSize p w h :
  setPreviewSize p w h !! KEY_PREVIEW_SIZE = Some (print_size w h).
Proof.
  unfold setPreviewSize. rewrite set_stores; [apply lookup_insert_eq|done..|].
  apply print_size_no_equals.
Qed.

Lemma lookup_set_int p k z :
  CString.contains "=" k = false -> CString.contains ";" k = false ->
  set_int p k z !! k = Some (CString.print_int z).
Proof.
  intros Hk1 Hk2. unfold set_int.
  rewrite set_stores; [apply lookup_insert_eq|done..|apply print_int_no_equals].
Qed.

End StoreFacts.

(** ** Reading the store back *)

Section ReadBack.

Lemma append_nil (b : string) : EmptyString +:+ b = b.
Proof. reflexivity. Qed.

Lemma append_cons (x : ascii) (a b : string) : String x a +:+ b = String x (a +:+ b).
Proof. reflexivity. Qed.

Lemma string_app_assoc (a b c : string) : (a +:+ b) +:+ c = a +:+ (b +:+ c).
Proof.
  induction a as [|x a IH]; [done|]. rewrite !append_cons. by rewrite IH.
Qed.

Lemma string_app_nil_r (a : string) : a +:+ EmptyString = a.
Proof. induction a as [|x a IH]; [done|]. rewrite append_cons. by rewrite IH. Qed.

Lemma digit_value_pretty (d : N) :
  (d < 10)%N -> CString.digit_value (pretty_N_char d) = Some (Z.of_N d).
Proof.
  intros Hd.
  assert (d = 0 \/ d = 1 \/ d = 2 \/ d = 3 \/ d = 4 \/ d = 5 \/ d = 6 \/ d = 7 \/ d = 8
          \/ d = 9)%N as Hcases by lia.
  repeat (destruct Hcases as [->|Hcases]; [reflexivity|]). by subst.
Qed.

(** Reading back the digits [pretty_N_go] has put in front of [s]. *)
Lemma digits_pretty_N_go (x : N) (any : bool) (s : string) :
  CString.digits 10 0 any (pretty_N_go x s)
  = CString.digits 10 (Z.of_N x) (any || (0 <? x)%N) s.
Proof.
  revert any s. induction (N.lt_wf_0 x) as [x _ IH]; intros any s.
  destruct (decide (x = 0%N)) as [->|Hx].
  { simpl. by rewrite orb_false_r. }
  rewrite pretty_N_go_step by lia.
  rewrite IH by (apply N.div_lt; lia).
  cbn [CString.digits]. rewrite digit_value_pretty by (apply N.mod_lt; lia).
  assert ((Z.of_N (x `mod` 10) <? 10) = true) as ->
    by (apply Z.ltb_lt; pose proof (N.mod_lt x 10 ltac:(lia)); lia).
  replace (Z.of_N (x `div` 10) * 10 + Z.of_N (x `mod` 10)) with (Z.of_N x)
    by (rewrite (N.div_mod x 10) at 1 by lia; lia).
  f_equal. destruct (N.ltb_spec 0 x); [by rewrite orb_true_r|lia].
Qed.

Lemma pretty_N_go_app (x : N) (s rest : string) :
  pretty_N_go x s +:+ rest = pretty_N_go x (s +:+ rest).
Proof.
  revert s. induction (N.lt_wf_0 x) as [x _ IH]; intros s.
  destruct (decide (x = 0%N)) as [->|Hx]; [done|].
  rewrite (pretty_N_go_step x s), (pretty_N_go_step x (s +:+ rest)) by lia.
  rewrite IH by (apply N.div_lt; lia). reflexivity.
Qed.

(** The first character [pretty_N_go] writes for a positive number is
    a digit other than 0. *)
Lemma pretty_N_go_head (x : N) (s : string) :
  (0 < x)%N ->
  exists d r, pretty_N_go x s = String (pretty_N_char d) r /\ (0 < d < 10)%N.
Proof.
  revert s. induction (N.lt_wf_0 x) as [x _ IH]; intros s Hx.
  rewrite pretty_N_go_step by lia.
  destruct (decide (x `div` 10 = 0)%N) as [Hzero|Hmore].
  - rewrite Hzero. exists (x `mod` 10)%N, s. split; [done|].
    pose proof (N.div_mod x 10 ltac:(lia)). pose proof (N.mod_lt x 10 ltac:(lia)). lia.
  - apply IH; [apply N.div_lt; lia|by apply N.neq_0_lt_0].
Qed.

Lemma digits_stop (v : Z) (rest : string) :
  stops rest -> CString.digits 10 v true rest = (v, true, rest).
Proof.
  destruct rest as [|c rest]; [done|]. unfold stops, CString.is_digit_in. simpl.
  destruct (CString.digit_value c) as [d|]; [|done]. by intros ->.
Qed.

Lemma strtol_nonzero_digit (base : Z) (d : N) (r : string) :
  (0 < d < 10)%N -> base = 0 \/ base = 10 ->
  CString.strtol base (String (pretty_N_char d) r)
  = let '(v, any, rest) := CString.digits 10 0 false (String (pretty_N_char d) r) in
    if any then (CString.clamp_long v, rest) else (0, String (pretty_N_char d) r).
Proof.
  intros Hd Hbase.
  assert (d = 1 \/ d = 2 \/ d = 3 \/ d = 4 \/ d = 5 \/ d = 6 \/ d = 7 \/ d = 8 \/ d = 9)%N
    as Hcases by lia.
  destruct Hbase as [-> | ->];
    repeat (destruct Hcases as [->|Hcases]; [reflexivity|]); by subst.
Qed.

Lemma strtol_minus_digit (base : Z) (d : N) (r : string) :
  (0 < d < 10)%N -> base = 0 \/ base = 10 ->
  CString.strtol base (String "-" (String (pretty_N_char d) r))
  = let '(v, any, rest) := CString.digits 10 0 false (String (pretty_N_char d) r) in
    if any then (CString.clamp_long (- v), rest)
    else (0, String "-" (String (pretty_N_char d) r)).
Proof.
  intros Hd Hbase.
  assert (d = 1 \/ d = 2 \/ d = 3 \/ d = 4 \/ d = 5 \/ d = 6 \/ d = 7 \/ d = 8 \/ d = 9)%N
    as Hcases by lia.
  destruct Hbase as [-> | ->];
    repeat (destruct Hcases as [->|Hcases]; [reflexivity|]); by subst.
Qed.

Lemma clamp_long_id (z : Z) : INT_MIN <= z <= INT_MAX -> CString.clamp_long z = z.
Proof.
  intros Hz. unfold CString.clamp_long.
  destruct (Z.ltb_spec z INT_MIN); [lia|]. destruct (Z.ltb_spec INT_MAX z); [lia|done].
Qed.

Lemma print_int_pos (p : positive) :
  CString.print_int (Z.pos p) = pretty_N_go (N.pos p) EmptyString.
Proof. reflexivity. Qed.

Lemma print_int_neg (p : positive) :
  CString.print_int (Z.neg p) = String "-" (pretty_N_go (N.pos p) EmptyString).
Proof. reflexivity. Qed.

(** [strtol] reads back what [%d] printed, in base 10 and, with
    nothing after the number, in base 0. *)
Lemma strtol_print_int (base z : Z) (rest : string) :
  INT_MIN <= z <= INT_MAX ->
  (base = 10 /\ stops rest) \/ (base = 0 /\ rest = EmptyString) ->
  CString.strtol base (CString.print_int z +:+ rest) = (z, rest).
Proof.
  intros Hz Hbase.
  assert (base = 0 \/ base = 10) as Hb by tauto.
  assert (stops rest) as Hstop by (destruct Hbase as [[_ ?]|[_ ->]]; done).
  destruct z as [|p|p].
  - destruct Hbase as [[-> _]|[-> ->]]; [|reflexivity].
    change (CString.strtol 10 (CString.print_int 0 +:+ rest))
      with (let '(v, any, r) := CString.digits 10 0 true rest in
            if any then (CString.clamp_long v, r) else (0, String "0" rest)).
    by rewrite digits_stop.
  - rewrite print_int_pos, pretty_N_go_app. rewrite append_nil.
    destruct (pretty_N_go_head (N.pos p) rest) as (d & r & Hhead & Hd); [done|].
    rewrite Hhead, strtol_nonzero_digit by done. rewrite <- Hhead.
    rewrite digits_pretty_N_go, digits_stop by done. simpl.
    by rewrite clamp_long_id.
  - rewrite print_int_neg. rewrite append_cons, pretty_N_go_app, append_nil.
    destruct (pretty_N_go_head (N.pos p) rest) as (d & r & Hhead & Hd); [done|].
    rewrite Hhead, strtol_minus_digit by done. rewrite <- Hhead.
    rewrite digits_pretty_N_go, digits_stop by done. simpl.
    by rewrite clamp_long_id.
Qed.

Lemma clamp_long_range (z : Z) : INT_MIN <= CString.clamp_long z <= INT_MAX.
Proof.
  unfold CString.clamp_long.
  destruct (Z.ltb_spec z INT_MIN); [done|]. destruct (Z.ltb_spec INT_MAX z); [done|lia].
Qed.

Lemma strtol_range (base : Z) (s : string) :
  INT_MIN <= (CString.strtol base s).1 <= INT_MAX.
Proof.
  unfold CString.strtol.
  repeat match goal with
         | |- context [match ?x with pair _ _ => _ end] => destruct x
         end.
  match goal with |- context [if ?b then _ else _] => destruct b end; simpl;
    [apply clamp_long_range|done].
Qed.

Lemma getInt_range (p : gmap string string) (k : string) :
  INT_MIN <= getInt p k <= INT_MAX.
Proof. unfold getInt. destruct (get p k); [apply strtol_range|done]. Qed.

Lemma get_size_range (p : gmap string string) (k : string) :
  INT_MIN <= (get_size p k).1 <= INT_MAX /\ INT_MIN <= (get_size p k).2 <= INT_MAX.
Proof.
  unfold get_size. destruct (get p k) as [v|]; [|done].
  unfold parse_pair.
  pose proof (strtol_range 10 v) as Hw.
  destruct (CString.strtol 10 v) as [w rest]. destruct rest as [|c rest]; [done|].
  destruct (Ascii.eqb c "x"); [|done]. simpl. split; [exact Hw|apply strtol_range].
Qed.

Lemma print_int_not_empty (z : Z) : String.eqb (CString.print_int z) EmptyString = false.
Proof.
  destruct z as [|p|p]; [done| |done].
  rewrite print_int_pos.
  by destruct (pretty_N_go_head (N.pos p) EmptyString) as (d & r & -> & _).
Qed.

Lemma print_size_not_empty (w h : Z) : String.eqb (print_size w h) EmptyString = false.
Proof.
  unfold print_size. pose proof (print_int_not_empty w) as Hw.
  destruct (CString.print_int w); [done|]. by rewrite append_cons.
Qed.

(** An integer in the store reads back as itself. *)
Lemma getInt_print_int (p : gmap string string) (k : string) (z : Z) :
  INT_MIN <= z <= INT_MAX -> p !! k = Some (CString.print_int z) -> getInt p k = z.
Proof.
  intros Hz Hk. unfold getInt, get. rewrite Hk, print_int_not_empty.
  rewrite <- (string_app_nil_r (CString.print_int z)).
  rewrite strtol_print_int; [done|done|by right].
Qed.

(** A size in the store reads back as itself. *)
Lemma get_size_print_size (p : gmap string string) (k : string) (w h : Z) :
  INT_MIN <= w <= INT_MAX -> INT_MIN <= h <= INT_MAX ->
  p !! k = Some (print_size w h) -> get_size p k = (w, h).
Proof.
  intros Hw Hh Hk. unfold get_size, get. rewrite Hk, print_size_not_empty.
  unfold parse_pair, print_size.
  rewrite strtol_print_int; [|done|by left].
  rewrite append_cons, append_nil. simpl.
  rewrite <- (string_app_nil_r (CString.print_int h)).
  rewrite strtol_print_int; [done|done|by left].
Qed.

End ReadBack.

(** ** A program logic for the session monad *)

Section Logic.

Context {D W N : Type}.
Context `{!V4L2CameraDevice.Ops D, !PreviewWindow.Ops W D, !CallbackNotifier.Ops N D}.

Implicit Types (s : CameraHardware.t D W N).

Lemma outcome_returns F {A} (m : M D W N A) Q s :
  outcome F m Q s -> ~ F -> exists a s', m s = Some (a, s') /\ Q a s'.
Proof.
  unfold outcome. destruct (m s) as [[a s']|]; [eauto|tauto].
Qed.

Lemma outcome_elim F {A} (m : M D W N A) Q s a s' :
  outcome F m Q s -> m s = Some (a, s') -> Q a s'.
Proof. unfold outcome. intros Hm Hs. by rewrite Hs in Hm. Qed.

Lemma outcome_mono F {A} (m : M D W N A) (Q Q' : A -> CameraHardware.t D W N -> Prop) s :
  outcome F m Q s -> (forall a s', Q a s' -> Q' a s') -> outcome F m Q' s.
Proof. unfold outcome. destruct (m s) as [[a s']|]; auto. Qed.

Lemma outcome_eq {A} (m : M D W N A) s a s' :
  outcome False m (fun b s'' => b = a /\ s'' = s') s -> m s = Some (a, s').
Proof.
  unfold outcome. destruct (m s) as [[b s'']|]; [|done].
  by intros [-> ->].
Qed.

Lemma outcome_weaken F {A} (m : M D W N A) Q s :
  outcome False m Q s -> outcome F m Q s.
Proof. unfold outcome. by destruct (m s) as [[a s']|]. Qed.

(** Using a proved specification of a sub-method inside a larger run. *)
Lemma outcome_use F {A} (m : M D W N A) (Q Q' : A -> CameraHardware.t D W N -> Prop) s :
  outcome False m Q s -> (forall a s', Q a s' -> Q' a s') -> outcome F m Q' s.
Proof. intros Hm HQ. apply outcome_weaken. by eapply outcome_mono. Qed.

Lemma outcome_pure F {A} (a : A) Q s : Q a s -> outcome F (pure a) Q s.
Proof. done. Qed.

Lemma outcome_bind F {A B} (m : M D W N A) (k : A -> M D W N B) Q s :
  outcome F m (fun a s' => outcome F (k a) Q s') s -> outcome F (bind m k) Q s.
Proof. unfold outcome, bind. by destruct (m s) as [[a s']|]. Qed.

Lemma outcome_read F {A} (f : CameraHardware.t D W N -> A) Q s : Q (f s) s -> outcome F (read f) Q s.
Proof. done. Qed.

Lemma outcome_modify F (f : CameraHardware.t D W N -> CameraHardware.t D W N) Q s :
  Q tt (f s) -> outcome F (modify f) Q s.
Proof. done. Qed.

Lemma outcome_set_parameters_member F f Q s :
  Q tt (with_parameters (f (mParameters s)) s) ->
  outcome F (set_parameters_member f) Q s.
Proof. done. Qed.

Lemma outcome_deref F {A} (o : option A) Q s :
  (forall a, o = Some a -> Q a s) -> (o = None -> F) -> outcome F (deref o) Q s.
Proof. destruct o; unfold outcome; simpl; auto. Qed.

Lemma outcome_dev_query F {A} (f : D -> A) Q s d :
  mCameraDevice s = Some d -> Q (f d) s -> outcome F (dev_query f) Q s.
Proof.
  intros Hd HQ. unfold outcome, dev_query, bind, getCameraDevice. by rewrite Hd.
Qed.

Lemma outcome_dev_call F {A} (f : D -> A * D) ev Q s d :
  mCameraDevice s = Some d ->
  Q (f d).1 (log (ev (f d).1) (with_device (f d).2 s)) ->
  outcome F (dev_call f ev) Q s.
Proof.
  intros Hd HQ. unfold outcome, dev_call, bind, getCameraDevice. rewrite Hd.
  by destruct (f d).
Qed.

Lemma outcome_dev_command F (f : D -> D) ev Q s d :
  mCameraDevice s = Some d ->
  Q tt (log ev (with_device (f d) s)) ->
  outcome F (dev_command f ev) Q s.
Proof. intros Hd HQ. by eapply outcome_dev_call. Qed.

(** When only returned results matter, a null device needs no case. *)
Lemma outcome_dev_call_partial {A} (f : D -> A * D) ev Q s :
  (forall d, mCameraDevice s = Some d ->
     Q (f d).1 (log (ev (f d).1) (with_device (f d).2 s))) ->
  outcome True (dev_call f ev) Q s.
Proof.
  intros HQ. unfold outcome, dev_call, bind, getCameraDevice.
  destruct (mCameraDevice s) as [d|] eqn:Hd; [|done].
  specialize (HQ d eq_refl). by destruct (f d).
Qed.

Lemma outcome_win_query F {A} (f : W -> A) Q s :
  Q (f (mPreviewWindow s)) s -> outcome F (win_query f) Q s.
Proof. done. Qed.

Lemma outcome_win_call F {A} (f : W -> A * W) ev Q s :
  Q (f (mPreviewWindow s)).1
    (log (ev (f (mPreviewWindow s)).1) (with_window (f (mPreviewWindow s)).2 s)) ->
  outcome F (win_call f ev) Q s.
Proof. unfold outcome, win_call. by destruct (f (mPreviewWindow s)). Qed.

Lemma outcome_win_command F (f : W -> W) ev Q s :
  Q tt (log ev (with_window (f (mPreviewWindow s)) s)) ->
  outcome F (win_command f ev) Q s.
Proof. intros HQ. by apply outcome_win_call. Qed.

Lemma outcome_cb_call F {A} (f : N -> A * N) ev Q s :
  Q (f (mCallbackNotifier s)).1
    (log (ev (f (mCallbackNotifier s)).1) (with_notifier (f (mCallbackNotifier s)).2 s)) ->
  outcome F (cb_call f ev) Q s.
Proof. unfold outcome, cb_call. by destruct (f (mCallbackNotifier s)). Qed.

Lemma outcome_cb_command F (f : N -> N) ev Q s :
  Q tt (log ev (with_notifier (f (mCallbackNotifier s)) s)) ->
  outcome F (cb_command f ev) Q s.
Proof. intros HQ. by apply outcome_cb_call. Qed.

End Logic.

(** One step of symbolic execution of a goal [outcome F m Q s]. *)
Ltac exec_step :=
  lazymatch goal with
  | |- outcome _ (bind _ _) _ _ => apply outcome_bind
  | |- outcome _ (pure _) _ _ => apply outcome_pure
  | |- outcome _ (read _) _ _ => apply outcome_read
  | |- outcome _ (modify _) _ _ => apply outcome_modify
  | |- outcome _ (set_parameters_member _) _ _ => apply outcome_set_parameters_member
  | |- outcome _ (dev_query _) _ _ => eapply outcome_dev_query; [simpl; eassumption || reflexivity|]
  | |- outcome _ (dev_call _ _) _ _ => eapply outcome_dev_call; [simpl; eassumption || reflexivity|]
  | |- outcome _ (dev_command _ _) _ _ =>
      eapply outcome_dev_command; [simpl; eassumption || reflexivity|]
  | |- outcome _ (win_query _) _ _ => apply outcome_win_query
  | |- outcome _ (win_call _ _) _ _ => apply outcome_win_call
  | |- outcome _ (win_command _ _) _ _ => apply outcome_win_command
  | |- outcome _ (cb_call _ _) _ _ => apply outcome_cb_call
  | |- outcome _ (cb_command _ _) _ _ => apply outcome_cb_command
  | |- outcome _ (deref _) _ _ => apply outcome_deref; [intros ? ?|intros ?]
  | |- outcome _ (if ?b then _ else _) _ _ => destruct b eqn:?
  | |- outcome _ (match ?o with Some _ => _ | None => _ end) _ _ => destruct o eqn:?
  | |- outcome _ (let '(_, _) := ?x in _) _ _ => destruct x eqn:?
  end.

Ltac exec := repeat exec_step.

(** ** Frame fan-out and preview stop *)

Section FanoutAndStop.

Context {D W N : Type}.
Context `{!V4L2CameraDevice.Ops D, !PreviewWindow.Ops W D, !CallbackNotifier.Ops N D}.

Implicit Types (s : CameraHardware.t D W N) (d : D).

(** C1. On a frame event the preview window is offered the frame
    first.  When it declines, the method returns false, the callback
    notifier is left as it was and is sent nothing.  When it accepts,
    the notifier is handed the same frame reference, timestamp and
    metadata flag, right after the window. *)
Theorem onNextFrameAvailable_window_gates_notifier frame timestamp meta s d :
  mCameraDevice s = Some d ->
  let offered :=
    PreviewWindow.onNextFrameAvailable frame timestamp meta (mPreviewWindow s) d in
  let accepted := offered.1.1 in
  exists s',
    onNextFrameAvailable frame timestamp meta s = Some (accepted, s') /\
    mPreviewWindow s' = offered.1.2 /\
    if accepted then
      let notified :=
        CallbackNotifier.onNextFrameAvailable frame timestamp meta
          (mCallbackNotifier s) offered.2 in
      mCallbackNotifier s' = notified.1 /\
      mCameraDevice s' = Some notified.2 /\
      calls s' = calls s ++ [WinOnNextFrameAvailable frame timestamp meta true;
                             CbOnNextFrameAvailable frame timestamp meta]
    else
      mCallbackNotifier s' = mCallbackNotifier s /\
      mCameraDevice s' = Some offered.2 /\
      calls s' = calls s ++ [WinOnNextFrameAvailable frame timestamp meta false].
Proof.
  intros Hd. cbv zeta.
  unfold onNextFrameAvailable, bind, pure. rewrite Hd.
  destruct (PreviewWindow.onNextFrameAvailable frame timestamp meta (mPreviewWindow s) d)
    as [[accepted w'] d'] eqn:Hoffer.
  destruct accepted; simpl.
  - destruct (CallbackNotifier.onNextFrameAvailable frame timestamp meta
                (mCallbackNotifier s) d') as [n' d''] eqn:Hnotify.
    eexists. split; [reflexivity|]. simpl. rewrite <- app_assoc. done.
  - eexists. split; [reflexivity|]. done.
Qed.

(** What one [doStopPreview] does, for every session. *)
Lemma doStopPreview_cases s :
  if PreviewWindow.isPreviewEnabled (mPreviewWindow s) then
    match mCameraDevice s with
    | Some d =>
        if V4L2CameraDevice.isStarted d then
          let stopped := V4L2CameraDevice.stopDevice (V4L2CameraDevice.stopDeliveringFrames d) in
          let s1 := log (DevStopDevice stopped.1)
                      (with_device stopped.2
                         (log DevStopDeliveringFrames
                            (with_device (V4L2CameraDevice.stopDeliveringFrames d) s))) in
          doStopPreview s =
            Some (NO_ERROR,
                  if stopped.1 =? NO_ERROR
                  then log WinStopPreview
                         (with_window (PreviewWindow.stopPreview (mPreviewWindow s)) s1)
                  else s1)
        else
          doStopPreview s =
            Some (NO_ERROR,
                  log WinStopPreview
                    (with_window (PreviewWindow.stopPreview (mPreviewWindow s)) s))
    | None => doStopPreview s = None
    end
  else doStopPreview s = Some (NO_ERROR, s).
Proof.
  destruct (PreviewWindow.isPreviewEnabled (mPreviewWindow s)) eqn:Hen.
  - destruct (mCameraDevice s) as [d|] eqn:Hd.
    + destruct (V4L2CameraDevice.isStarted d) eqn:Hst; cbv zeta;
        apply outcome_eq; unfold doStopPreview; exec; try done; congruence.
    + unfold doStopPreview, bind, win_query, read, dev_query, bind, getCameraDevice.
      by rewrite Hen, Hd.
  - unfold doStopPreview, bind, win_query, read. by rewrite Hen.
Qed.

Lemma doStopPreview_status s r s' : doStopPreview s = Some (r, s') -> r = NO_ERROR.
Proof.
  intros Hrun. pose proof (doStopPreview_cases s) as Hc.
  repeat case_match; cbv zeta in Hc; congruence.
Qed.

Lemma doStopPreview_keeps_device s r s' :
  doStopPreview s = Some (r, s') ->
  mCameraDevice s = None -> mCameraDevice s' = None.
Proof.
  intros Hrun Hnone. pose proof (doStopPreview_cases s) as Hc.
  rewrite Hnone in Hc. repeat case_match; congruence.
Qed.

Lemma doStopPreview_returns s d :
  mCameraDevice s = Some d ->
  exists s' d', doStopPreview s = Some (NO_ERROR, s') /\ mCameraDevice s' = Some d'.
Proof.
  intros Hd. pose proof (doStopPreview_cases s) as Hc. rewrite Hd in Hc.
  destruct (PreviewWindow.isPreviewEnabled (mPreviewWindow s)).
  - destruct (V4L2CameraDevice.isStarted d); cbv zeta in Hc; rewrite Hc.
    + eexists _, _. split; [reflexivity|]. destruct (_ =? _); reflexivity.
    + eexists _, _. split; [reflexivity|]. exact Hd.
  - rewrite Hc. eauto.
Qed.

(** C8. [stopPreview] on a session whose preview is already stopped
    changes nothing, sends nothing and succeeds; every [stopPreview]
    that returns reports success and can be followed by a second one
    that succeeds too.  On an active preview with a started device
    the commands are, in order: stop frame delivery, stop the device,
    and, only when the device stop reported success, disable the
    window. *)
Theorem stopPreview_idempotent_ordered s :
  (PreviewWindow.isPreviewEnabled (mPreviewWindow s) = false ->
     doStopPreview s = Some (NO_ERROR, s) /\ stopPreview s = Some (tt, s)) /\
  (forall r1 s1, doStopPreview s = Some (r1, s1) ->
     r1 = NO_ERROR /\
     exists s2, doStopPreview s1 = Some (NO_ERROR, s2) /\
       (PreviewWindow.isPreviewEnabled (mPreviewWindow s1) = false -> s2 = s1)) /\
  (forall d,
     PreviewWindow.isPreviewEnabled (mPreviewWindow s) = true ->
     mCameraDevice s = Some d ->
     exists s', doStopPreview s = Some (NO_ERROR, s') /\
       if V4L2CameraDevice.isStarted d then
         let stopped :=
           V4L2CameraDevice.stopDevice (V4L2CameraDevice.stopDeliveringFrames d) in
         mCameraDevice s' = Some stopped.2 /\
         if stopped.1 =? NO_ERROR then
           calls s' = calls s ++ [DevStopDeliveringFrames; DevStopDevice stopped.1;
                                  WinStopPreview] /\
           mPreviewWindow s' = PreviewWindow.stopPreview (mPreviewWindow s)
         else
           calls s' = calls s ++ [DevStopDeliveringFrames; DevStopDevice stopped.1] /\
           mPreviewWindow s' = mPreviewWindow s
       else
         calls s' = calls s ++ [WinStopPreview] /\
         mPreviewWindow s' = PreviewWindow.stopPreview (mPreviewWindow s) /\
         mCameraDevice s' = Some d).
Proof.
  pose proof (doStopPreview_cases s) as Hc.
  split; [|split].
  - intros Hoff. rewrite Hoff in Hc. split; [done|].
    unfold stopPreview, bind. by rewrite Hc.
  - intros r1 s1 Hrun. split; [by eapply doStopPreview_status|].
    assert (exists s2, doStopPreview s1 = Some (NO_ERROR, s2)) as [s2 Hrun2].
    { destruct (mCameraDevice s1) as [d1|] eqn:Hd1.
      - destruct (doStopPreview_returns s1 d1 Hd1) as (s2 & _ & Hrun2 & _). eauto.
      - destruct (mCameraDevice s) as [d|] eqn:Hd.
        + destruct (doStopPreview_returns s d Hd) as (s' & d' & Hrun' & Hd').
          congruence.
        + destruct (PreviewWindow.isPreviewEnabled (mPreviewWindow s)); [congruence|].
          assert (s1 = s) as -> by congruence. eauto. }
    exists s2. split; [done|]. intros Hoff.
    pose proof (doStopPreview_cases s1) as Hc1. rewrite Hoff in Hc1. congruence.
  - intros d Hon Hd. rewrite Hon, Hd in Hc.
    destruct (V4L2CameraDevice.isStarted d); cbv zeta in Hc |- *; rewrite Hc;
      eexists; (split; [reflexivity|]).
    + destruct (V4L2CameraDevice.stopDevice (V4L2CameraDevice.stopDeliveringFrames d))
        as [r d2]; simpl.
      destruct (r =? NO_ERROR); simpl; rewrite <- ?app_assoc; done.
    + done.
Qed.

End FanoutAndStop.

(** ** Preview start *)

Section PreviewStart.

Context {D W N : Type}.
Context `{!V4L2CameraDevice.Ops D, !PreviewWindow.Ops W D, !CallbackNotifier.Ops N D}.

Implicit Types (s : CameraHardware.t D W N) (d : D).

Lemma preview_frame_format_eq (p : gmap string string) :
  match
    (if String.eqb (match get p RECORDING_HINT_KEY with
                    | Some v => v
                    | None => FALSE
                    end) TRUE
     then get p KEY_VIDEO_FRAME_FORMAT
     else None)
  with
  | Some f => Some f
  | None => getPreviewFormat p
  end = preview_frame_format p.
Proof.
  unfold preview_frame_format.
  destruct (get p RECORDING_HINT_KEY) as [hint|]; [|done].
  destruct (get p KEY_VIDEO_FRAME_FORMAT) as [video_format|];
    by destruct (String.eqb hint TRUE).
Qed.

Lemma advances_trans s1 s2 s3 : advances s1 s2 -> advances s2 s3 -> advances s1 s3.
Proof.
  intros (Hp1 & Hc1 & [m1 Hm1] & _) (Hp2 & Hc2 & [m2 Hm2] & Hd).
  split; [congruence|]. split; [congruence|]. split; [|done].
  exists (m1 ++ m2). rewrite Hm2, Hm1. by rewrite app_assoc.
Qed.

Lemma doStopPreview_advances s d :
  mCameraDevice s = Some d ->
  returns doStopPreview (fun _ s' => advances s s') s.
Proof.
  intros Hd. unfold doStopPreview. exec;
    (repeat split; simpl; rewrite <- ?app_assoc; eauto using app_nil_r).
  all: try (eexists; symmetry; apply app_nil_r).
Qed.

Lemma doStartPreview_advances s d :
  mCameraDevice s = Some d ->
  returns doStartPreview (fun _ s' => advances s s') s.
Proof.
  intros Hd. unfold doStartPreview. exec;
    (repeat split; simpl; rewrite <- ?app_assoc; eauto).
Qed.

(** Whenever [doStartPreview] starts the device it does so at
    [preview_frame_size], and a successful call has started it. *)
Lemma doStartPreview_frame_size s d :
  mCameraDevice s = Some d ->
  returns doStartPreview
    (fun res s' =>
       exists more, calls s' = calls s ++ more /\
         (forall w h f r, In (DevStartDevice w h f r) more ->
            (w, h) = preview_frame_size (mParameters s)) /\
         (res = NO_ERROR -> exists w h f, In (DevStartDevice w h f NO_ERROR) more)) s.
Proof.
  intros Hd. unfold doStartPreview. exec.
  all: eexists; (split; [simpl; rewrite <- ?app_assoc; reflexivity|]).
  all: simpl in *;
    rewrite ?negb_true_iff, ?negb_false_iff, ?Z.eqb_eq, ?Z.eqb_neq in *.
  all: unfold preview_frame_size.
  all: split.
  all: try (intros w h f r Hin;
            repeat match goal with
                   | H : _ \/ _ |- _ => destruct H
                   | H : False |- _ => destruct H
                   end; simplify_eq; congruence).
  all: intros Hres; try congruence; try discriminate Hres.
  all: repeat match goal with
              | H : ?x = NO_ERROR |- context [?x] => rewrite H
              end.
  all: eexists _, _, _; simpl; eauto 10.
Qed.

Context `{!DeviceContract D, !WindowContract W D}.

Lemma doStartPreview_rollback s d :
  mCameraDevice s = Some d ->
  returns doStartPreview
    (fun res s' =>
       exists more, calls s' = calls s ++ more /\
         (forall r, r <> NO_ERROR ->
            In (DevConnectDevice r) more \/
            (exists w h f, In (DevStartDevice w h f r) more) \/
            (exists b, In (DevStartDeliveringFrames b r) more) ->
            res = r) /\
         (window_started more ->
          (forall r, In (DevConnectDevice r) more -> r = NO_ERROR) ->
          match preview_frame_format (mParameters s) with
          | Some tag => preview_fourcc tag
          | None => None
          end = None ->
          res = EINVAL) /\
         (res <> NO_ERROR -> window_started more ->
          last more = Some WinStopPreview /\
          stop_follows_start more /\
          PreviewWindow.isPreviewEnabled (mPreviewWindow s') = false /\
          (stops_succeeded more ->
           exists d', mCameraDevice s' = Some d' /\
                      V4L2CameraDevice.isStarted d' = false))) s.
Proof.
  intros Hd. unfold doStartPreview. exec.
  all: eexists; (split; [simpl; rewrite <- ?app_assoc; reflexivity|]).
  all: simpl in *;
    rewrite ?negb_true_iff, ?negb_false_iff, ?Z.eqb_eq, ?Z.eqb_neq in *.
  all: rewrite ?preview_frame_format_eq in *.
  all: split; [|split].
  all: try (intros r Hr Hin;
            repeat match goal with
                   | H : _ \/ _ |- _ => destruct H
                   | H : exists _, _ |- _ => destruct H
                   | H : False |- _ => destruct H
                   end; simplify_eq; congruence).
  all: try (intros Hwin Hconn Hfmt;
            first [ reflexivity
                  | destruct Hwin as [?|[]]; congruence
                  | exfalso;
                    match goal with
                    | Hne : ?x <> NO_ERROR |- _ => apply Hne, Hconn; simpl; tauto
                    end
                  | repeat match goal with
                           | H : preview_frame_format _ = _ |- _ => rewrite H in Hfmt
                           end; congruence ]).
  all: intros Hres Hwin.
  all: try solve [intuition congruence].
  all: split; [reflexivity|].
  all: split; [solve [intuition (try congruence); eexists; simpl; eauto 10]|].
  all: split; [apply stopPreview_disables|].
  all: intros Hstops.
  all: eexists; (split; [first [reflexivity | eassumption]|]).
  all: repeat first [ rewrite connectDevice_keeps_stream
                    | rewrite startDevice_failure by assumption ].
  all: first [ assumption | apply stopDevice_stops; tauto ].
Qed.

(** C7, as the code has it.  A [startPreview] on a bound device
    returns.  A failure that the device reports for connect, start or
    frame delivery is the status the call returns, and so is [EINVAL]
    for a missing or unsupported format tag once the window has
    started and the device is connected.  When the call returns an
    error after the window's [startPreview] had succeeded, disabling
    the window is the last command sent, a device start that succeeded
    on the way has been followed by a device stop, and the window ends
    disabled.  The device stream ends stopped when the device stops
    issued on the way reported success: the method does not read their
    status.  The statements about the final window and device rest on
    the collaborator contracts [WindowContract] and [DeviceContract]. *)
Theorem startPreview_failure_rolls_back s d :
  mCameraDevice s = Some d ->
  exists res s' more,
    doStartPreview s = Some (res, s') /\
    startPreview s = Some (neg32 res, s') /\
    calls s' = calls s ++ more /\
    (forall r, r <> NO_ERROR ->
       In (DevConnectDevice r) more \/
       (exists w h f, In (DevStartDevice w h f r) more) \/
       (exists b, In (DevStartDeliveringFrames b r) more) ->
       res = r) /\
    (window_started more ->
     (forall r, In (DevConnectDevice r) more -> r = NO_ERROR) ->
     match preview_frame_format (mParameters s) with
     | Some tag => preview_fourcc tag
     | None => None
     end = None ->
     res = EINVAL) /\
    (res <> NO_ERROR -> window_started more ->
     last more = Some WinStopPreview /\
     stop_follows_start more /\
     PreviewWindow.isPreviewEnabled (mPreviewWindow s') = false /\
     (stops_succeeded more ->
      exists d', mCameraDevice s' = Some d' /\ V4L2CameraDevice.isStarted d' = false)).
Proof.
  intros Hd.
  destruct (outcome_returns _ _ _ _ (doStartPreview_rollback s d Hd))
    as (res & s' & Hrun & more & Hcalls & Hroll); [tauto|].
  exists res, s', more. split; [done|]. split; [|done].
  unfold startPreview, bind. by rewrite Hrun.
Qed.

End PreviewStart.

(** ** Still capture *)

(** One use of a sub-method specification in a symbolic run: the state
    after the sub-method is only known through [advances]. *)
Ltac exec_sub lemma :=
  eapply outcome_use;
  [ eapply lemma; simpl; first [eassumption | reflexivity]
  | let s' := fresh "s'" in
    let Hp := fresh "Hp" in let Hc := fresh "Hc" in
    let more := fresh "more" in let Hm := fresh "Hm" in
    let d' := fresh "d'" in let Hd := fresh "Hd" in
    intros _ s' (Hp & Hc & [more Hm] & [d' Hd]); simpl in Hp, Hc, Hm ].

Ltac exec_takePicture :=
  repeat first
    [ exec_step
    | lazymatch goal with
      | |- outcome _ doStopPreview _ _ => exec_sub @doStopPreview_advances
      | |- outcome _ doStartPreview _ _ => exec_sub @doStartPreview_advances
      end ].

(** Rewrites the call lists of the intermediate sessions down to the
    initial one. *)
Ltac chain_calls :=
  simpl;
  repeat match goal with
         | H : calls ?x = _ |- context [calls ?x] => rewrite H; simpl
         | H : mParameters ?x = _ |- context [mParameters ?x] => rewrite H; simpl
         end;
  rewrite <- ?app_assoc; simpl.

Section StillCapture.

Context {D W N : Type}.
Context `{!V4L2CameraDevice.Ops D, !PreviewWindow.Ops W D, !CallbackNotifier.Ops N D}.

Implicit Types (s : CameraHardware.t D W N) (d : D).

Lemma getPictureFormat_setPreviewSize (p : gmap string string) w h :
  getPictureFormat (setPreviewSize p w h) = getPictureFormat p.
Proof. unfold getPictureFormat, setPreviewSize. by rewrite get_set_ne. Qed.

Lemma preview_frame_size_setPreviewSize (p : gmap string string) (w h : Z) :
  preview_frame_size (setPreviewSize p w h)
  = match get p KEY_VIDEO_SIZE with
    | Some _ => getVideoSize p
    | None => getPreviewSize (setPreviewSize p w h)
    end.
Proof.
  unfold preview_frame_size, getVideoSize, get_size, setPreviewSize.
  by rewrite !get_set_ne.
Qed.

Lemma getPreviewSize_setPreviewSize (p : gmap string string) (w h : Z) :
  INT_MIN <= w <= INT_MAX -> INT_MIN <= h <= INT_MAX ->
  getPreviewSize (setPreviewSize p w h) = (w, h).
Proof.
  intros Hw Hh. apply get_size_print_size; [done..|apply lookup_setPreviewSize].
Qed.

(** C6, as the code has it.  A [takePicture] on a bound device with a
    stored picture format returns, and whatever it returns: the first
    two commands are the driver's [tryFmtSize] on the stored picture
    size and [setPictureSize] with that same, unadjusted, picture
    size; the size [tryFmtSize] hands back is what the store then
    holds as preview size, and the stored picture size and video size
    are untouched.  The preview that follows starts the device at the
    stored video size when there is one, and at the adjusted size only
    when no video size is stored. *)
Theorem takePicture_negotiates_size s d fmt :
  mCameraDevice s = Some d ->
  getPictureFormat (mParameters s) = Some fmt ->
  let pic := getPictureSize (mParameters s) in
  let tried := V4L2CameraDevice.tryFmtSize pic.1 pic.2 d in
  let frame := tried.1.2 in
  exists res s' more,
    takePicture s = Some (res, s') /\
    calls s' = calls s ++ DevTryFmtSize pic.1 pic.2 tried.1.1 frame
                       :: DevSetPictureSize pic.1 pic.2 :: more /\
    mParameters s' = setPreviewSize (mParameters s) frame.1 frame.2 /\
    mParameters s' !! KEY_PREVIEW_SIZE = Some (print_size frame.1 frame.2) /\
    mParameters s' !! KEY_PICTURE_SIZE = mParameters s !! KEY_PICTURE_SIZE /\
    mParameters s' !! KEY_VIDEO_SIZE = mParameters s !! KEY_VIDEO_SIZE /\
    exists res2 s2 more2,
      doStartPreview s' = Some (res2, s2) /\
      calls s2 = calls s' ++ more2 /\
      (res2 = NO_ERROR -> exists w h f, In (DevStartDevice w h f NO_ERROR) more2) /\
      forall w h f r, In (DevStartDevice w h f r) more2 ->
        match get (mParameters s) KEY_VIDEO_SIZE with
        | Some _ => (w, h) = getVideoSize (mParameters s)
        | None =>
            INT_MIN <= frame.1 <= INT_MAX -> INT_MIN <= frame.2 <= INT_MAX ->
            (w, h) = frame
        end.
Proof.
  intros Hd Hfmt. cbv zeta.
  assert (returns takePicture
            (fun _ s' =>
               (exists more,
                  calls s' = calls s ++
                    DevTryFmtSize (getPictureSize (mParameters s)).1
                      (getPictureSize (mParameters s)).2
                      (V4L2CameraDevice.tryFmtSize (getPictureSize (mParameters s)).1
                         (getPictureSize (mParameters s)).2 d).1.1
                      (V4L2CameraDevice.tryFmtSize (getPictureSize (mParameters s)).1
                         (getPictureSize (mParameters s)).2 d).1.2
                    :: DevSetPictureSize (getPictureSize (mParameters s)).1
                         (getPictureSize (mParameters s)).2 :: more) /\
               mParameters s' =
                 setPreviewSize (mParameters s)
                   (V4L2CameraDevice.tryFmtSize (getPictureSize (mParameters s)).1
                      (getPictureSize (mParameters s)).2 d).1.2.1
                   (V4L2CameraDevice.tryFmtSize (getPictureSize (mParameters s)).1
                      (getPictureSize (mParameters s)).2 d).1.2.2 /\
               is_Some (mCameraDevice s')) s) as Hrun.
  { unfold takePicture.
    apply outcome_bind, outcome_read.
    destruct (getPictureSize (mParameters s)) as [pw ph] eqn:Hpic. simpl.
    apply outcome_bind. eapply outcome_dev_call; [eassumption|].
    destruct (V4L2CameraDevice.tryFmtSize pw ph d) as [[r [fw fh]] d1] eqn:Htry. simpl.
    exec_takePicture.
    all: try (split; [eexists; chain_calls; reflexivity
                     |split; [by chain_calls|simpl; eauto]]).
    simpl in *. rewrite getPictureFormat_setPreviewSize in *. congruence. }
  destruct (outcome_returns _ _ _ _ Hrun)
    as (res & s' & Htake & [more Hcalls] & Hpar & [d' Hd']); [tauto|].
  exists res, s', more. split; [done|]. split; [done|]. split; [done|].
  rewrite Hpar. split; [apply lookup_setPreviewSize|].
  split; [unfold setPreviewSize; by rewrite lookup_set_ne|].
  split; [unfold setPreviewSize; apply lookup_set_ne; intros Heq; vm_compute in Heq;
          discriminate Heq|].
  destruct (outcome_returns _ _ _ _ (doStartPreview_frame_size s' d' Hd'))
    as (res2 & s2 & Hstart & more2 & Hcalls2 & Hsize & Hstarted); [tauto|].
  exists res2, s2, more2. split; [done|]. split; [done|]. split; [done|].
  intros w h f r Hin. specialize (Hsize w h f r Hin).
  rewrite Hpar, preview_frame_size_setPreviewSize in Hsize.
  destruct (get (mParameters s) KEY_VIDEO_SIZE); [done|].
  intros Hw Hh. rewrite getPreviewSize_setPreviewSize in Hsize by done.
  rewrite Hsize. symmetry. apply surjective_pairing.
Qed.

Lemma picture_fourcc_unsupported fmt :
  ~ In fmt [PIXEL_FORMAT_YUV420P; PIXEL_FORMAT_RGBA8888;
            PIXEL_FORMAT_YUV420SP; PIXEL_FORMAT_JPEG] ->
  picture_fourcc fmt = None.
Proof.
  intros Hnot. unfold picture_fourcc.
  destruct (String.eqb_spec fmt PIXEL_FORMAT_YUV420P) as [->|_];
    [exfalso; apply Hnot; simpl; tauto|].
  destruct (String.eqb_spec fmt PIXEL_FORMAT_RGBA8888) as [->|_];
    [exfalso; apply Hnot; simpl; tauto|].
  destruct (String.eqb_spec fmt PIXEL_FORMAT_YUV420SP) as [->|_];
    [exfalso; apply Hnot; simpl; tauto|].
  destruct (String.eqb_spec fmt PIXEL_FORMAT_JPEG) as [->|_];
    [exfalso; apply Hnot; simpl; tauto|].
  reflexivity.
Qed.

(** C5, as the code has it.  A [takePicture] whose stored picture
    format is none of the four supported tags returns [EINVAL], but
    only after the size negotiation: the driver has received
    [tryFmtSize] and [setPictureSize], and the stored preview size has
    been replaced by the adjusted size.  Nothing else happened: no
    stream command, window and notifier untouched.  The tags
    [yuv420sp] and [jpeg] map to the same FOURCC. *)
Theorem takePicture_unsupported_format s d fmt :
  mCameraDevice s = Some d ->
  getPictureFormat (mParameters s) = Some fmt ->
  ~ In fmt [PIXEL_FORMAT_YUV420P; PIXEL_FORMAT_RGBA8888;
            PIXEL_FORMAT_YUV420SP; PIXEL_FORMAT_JPEG] ->
  let pic := getPictureSize (mParameters s) in
  let tried := V4L2CameraDevice.tryFmtSize pic.1 pic.2 d in
  let frame := tried.1.2 in
  (exists s',
     takePicture s = Some (EINVAL, s') /\
     calls s' = calls s ++ [DevTryFmtSize pic.1 pic.2 tried.1.1 frame;
                            DevSetPictureSize pic.1 pic.2] /\
     mCameraDevice s' = Some (V4L2CameraDevice.setPictureSize pic.1 pic.2 tried.2) /\
     mParameters s' = setPreviewSize (mParameters s) frame.1 frame.2 /\
     mParameters s' !! KEY_PREVIEW_SIZE = Some (print_size frame.1 frame.2) /\
     mPreviewWindow s' = mPreviewWindow s /\
     mCallbackNotifier s' = mCallbackNotifier s) /\
  picture_fourcc PIXEL_FORMAT_YUV420SP = Some V4L2_PIX_FMT_NV12 /\
  picture_fourcc PIXEL_FORMAT_JPEG = Some V4L2_PIX_FMT_NV12.
Proof.
  intros Hd Hfmt Hnot. cbv zeta. split; [|done].
  apply picture_fourcc_unsupported in Hnot.
  destruct (getPictureSize (mParameters s)) as [pw ph] eqn:Hpic. simpl.
  destruct (V4L2CameraDevice.tryFmtSize pw ph d) as [[r [fw fh]] d1] eqn:Htry. simpl.
  exists (log (DevSetPictureSize pw ph)
            (with_device (V4L2CameraDevice.setPictureSize pw ph d1)
               (with_parameters (setPreviewSize (mParameters s) fw fh)
                  (log (DevTryFmtSize pw ph r (fw, fh)) (with_device d1 s))))).
  split.
  - apply outcome_eq. unfold takePicture.
    apply outcome_bind, outcome_read. rewrite Hpic.
    apply outcome_bind. eapply outcome_dev_call; [eassumption|].
    rewrite Htry. simpl.
    do 6 exec_step. apply outcome_bind, outcome_deref; [intros a Ha|intros Ha].
    + simpl in *. rewrite getPictureFormat_setPreviewSize in *.
      assert (a = fmt) as -> by congruence. rewrite Hnot.
      apply outcome_pure. split; reflexivity.
    + simpl in *. rewrite getPictureFormat_setPreviewSize in *. congruence.
  - simpl. rewrite <- app_assoc.
    repeat split. apply lookup_setPreviewSize.
Qed.

(** The entry point hands the method's status on as it is. *)
Lemma take_picture_forwards_status s :
  take_picture (Some s)
  = match takePicture s with
    | Some (res, s') => Some (res, Some s')
    | None => None
    end.
Proof. reflexivity. Qed.

(** [getParameters] with no room on the heap: [malloc] yields null and
    the [memset] that follows faults. *)
Lemma getParameters_out_of_memory s (h : Heap.t) :
  (Heap.room h < N.of_nat (String.length (flatten (mParameters s))) + 1)%N ->
  getParameters s h = None.
Proof.
  intros Hroom. unfold getParameters, Heap.malloc.
  destruct (N.leb_spec (N.of_nat (String.length (flatten (mParameters s))) + 1)
              (Heap.room h)) as [Hle|_]; [lia|].
  reflexivity.
Qed.

(** What [getParameters] returns is never null and never the static
    [lNoParam]: it is the block [malloc] handed out. *)
Lemma getParameters_returns_block s (h h' : Heap.t) (ptr : Heap.ptr) :
  getParameters s h = Some (ptr, h') -> ptr = Heap.Block (Heap.next h).
Proof.
  unfold getParameters, Heap.malloc. intros Hrun.
  destruct (_ <=? _)%N; [|discriminate].
  destruct (Heap.memset _ _ _ _); [|discriminate].
  cbn [Heap.ptr_eqb negb] in Hrun.
  destruct (Heap.strncpy _ _ _ _); [|discriminate].
  by injection Hrun as <- _.
Qed.

Lemma putParameters_spares_sentinel (h : Heap.t) :
  putParameters Heap.lNoParam h = Some h /\ putParameters Heap.NULL h = Some h.
Proof. split; reflexivity. Qed.

End StillCapture.

(** ** Methods that never read the notifier *)

Section NotifierBlind.

Context {D W N : Type}.
Context `{!V4L2CameraDevice.Ops D, !PreviewWindow.Ops W D, !CallbackNotifier.Ops N D}.

Implicit Types (s : CameraHardware.t D W N).

Local Abbreviation blind := (blind (D := D) (W := W) (N := N)).

Lemma blind_pure {A} (a : A) : blind (pure (D := D) (W := W) (N := N) a).
Proof. intros s1 s2 Hs. by split. Qed.

Lemma blind_fault {A} : blind (@fault D W N A).
Proof. by intros s1 s2 Hs. Qed.

Lemma blind_bind {A B} (m : M D W N A) (k : A -> M D W N B) :
  blind m -> (forall a, blind (k a)) -> blind (bind m k).
Proof.
  intros Hm Hk s1 s2 Hs. specialize (Hm s1 s2 Hs). unfold bind, agree in *.
  destruct (m s1) as [[a1 t1]|], (m s2) as [[a2 t2]|]; try done.
  destruct Hm as [-> Ht]. by apply Hk.
Qed.

Lemma blind_deref {A} (o : option A) : blind (deref (D := D) (W := W) (N := N) o).
Proof. destruct o; [apply blind_pure|apply blind_fault]. Qed.

Lemma blind_read {A} (f : CameraHardware.t D W N -> A) :
  (forall s1 s2, same_but_notifier s1 s2 -> f s1 = f s2) -> blind (read f).
Proof. intros Hf s1 s2 Hs. split; [by apply Hf|done]. Qed.

Lemma blind_set_parameters_member f : blind (set_parameters_member f).
Proof.
  intros s1 s2 (Hw & Hd & Hc & Hp & Hl). split; [done|].
  repeat split; simpl; congruence.
Qed.

Lemma blind_dev_query {A} (f : D -> A) : blind (dev_query f).
Proof.
  intros s1 s2 Hs. pose proof Hs as (Hw & Hd & Hc & Hp & Hl).
  unfold dev_query, bind, getCameraDevice, agree. rewrite Hd.
  by destruct (mCameraDevice s2).
Qed.

Lemma blind_dev_call {A} (f : D -> A * D) ev : blind (dev_call f ev).
Proof.
  intros s1 s2 (Hw & Hd & Hc & Hp & Hl).
  unfold dev_call, bind, getCameraDevice, agree. rewrite Hd.
  destruct (mCameraDevice s2) as [d|]; [|done].
  destruct (f d) as [a d']. simpl. split; [done|].
  repeat split; simpl; congruence.
Qed.

Lemma blind_win_query {A} (f : W -> A) : blind (win_query f).
Proof. apply blind_read. intros s1 s2 (Hw & _). by rewrite Hw. Qed.

Lemma blind_win_call {A} (f : W -> A * W) ev : blind (win_call f ev).
Proof.
  intros s1 s2 (Hw & Hd & Hc & Hp & Hl). unfold win_call, agree. rewrite Hw.
  destruct (f (mPreviewWindow s2)) as [a w']. split; [done|].
  repeat split; simpl; congruence.
Qed.

(** Commands to the notifier change only the notifier. *)
Lemma blind_cb_command (f : N -> N) ev : blind (cb_command f ev).
Proof.
  intros s1 s2 (Hw & Hd & Hc & Hp & Hl). split; [done|].
  repeat split; simpl; congruence.
Qed.

Ltac blind_step :=
  lazymatch goal with
  | |- blind (bind _ _) => apply blind_bind; [|intros ?]
  | |- blind (pure _) => apply blind_pure
  | |- blind (deref _) => apply blind_deref
  | |- blind (read mParameters) => apply blind_read; by intros ? ? (_ & _ & _ & ? & _)
  | |- blind (set_parameters_member _) => apply blind_set_parameters_member
  | |- blind (dev_query _) => apply blind_dev_query
  | |- blind (dev_call _ _) => apply blind_dev_call
  | |- blind (dev_command _ _) => apply blind_dev_call
  | |- blind (win_query _) => apply blind_win_query
  | |- blind (win_call _ _) => apply blind_win_call
  | |- blind (win_command _ _) => apply blind_win_call
  | |- blind (cb_command _ _) => apply blind_cb_command
  | |- blind (if ?b then _ else _) => destruct b
  | |- blind (match ?o with Some _ => _ | None => _ end) => destruct o
  | |- blind (let '(_, _) := ?x in _) => destruct x
  end.

Lemma blind_doStopPreview : blind doStopPreview.
Proof. unfold doStopPreview. repeat blind_step. Qed.

Lemma blind_doStartPreview : blind doStartPreview.
Proof. unfold doStartPreview. repeat blind_step. Qed.

Lemma blind_takePicture : blind takePicture.
Proof.
  unfold takePicture.
  repeat first [ apply blind_doStopPreview | apply blind_doStartPreview | blind_step ].
Qed.

(** C3, as the code has it.  [takePicture] never reads the notifier,
    where the taking-picture flag lives: started from two sessions
    that differ only there, say one with a capture pending and one
    without, it returns the same status, sends the same commands and
    leaves the same device, window and parameters.  A pending capture
    is therefore not a ground for rejection. *)
Theorem takePicture_ignores_pending_capture s (pending : N) :
  match takePicture (with_notifier pending s), takePicture s with
  | Some (res1, s1), Some (res2, s2) =>
      res1 = res2 /\
      calls s1 = calls s2 /\
      mCameraDevice s1 = mCameraDevice s2 /\
      mPreviewWindow s1 = mPreviewWindow s2 /\
      mParameters s1 = mParameters s2
  | None, None => True
  | _, _ => False
  end.
Proof.
  assert (same_but_notifier (with_notifier pending s) s) as Hs by done.
  pose proof (blind_takePicture _ _ Hs) as Hagree. unfold agree in Hagree.
  destruct (takePicture (with_notifier pending s)) as [[res1 s1]|],
           (takePicture s) as [[res2 s2]|]; try done.
  destruct Hagree as (-> & Hw & Hd & Hc & Hp & Hl). done.
Qed.

End NotifierBlind.

(** ** Parameter negotiation *)

Lemma keeps_or_refl k P p : keeps_or k P p p.
Proof. by left. Qed.

Lemma keeps_or_trans k P p1 p2 p3 :
  keeps_or k P p1 p2 -> keeps_or k P p2 p3 -> keeps_or k P p1 p3.
Proof.
  intros [H12|H12] [H23|H23]; unfold keeps_or; [left; congruence|by right| |by right].
  right. destruct H12 as (v & Hv & HP). exists v. split; [congruence|done].
Qed.

Lemma keeps_or_set_other k P p k' v : k' <> k -> keeps_or k P p (set p k' v).
Proof. intros Hne. left. by apply lookup_set_ne. Qed.

Lemma keeps_or_set k P p v : P v -> keeps_or k P p (set p k v).
Proof.
  intros HP. destruct (lookup_set_eq p k v) as [Hset|Hsame]; [right; eauto|by left].
Qed.

Section Negotiation.

Context {D W N : Type}.
Context `{!V4L2CameraDevice.Ops D, !PreviewWindow.Ops W D, !CallbackNotifier.Ops N D}.

Implicit Types (s : CameraHardware.t D W N).

Local Abbreviation preserves := (preserves (D := D) (W := W) (N := N)).

Section Rules.

Variable R : gmap string string -> gmap string string -> Prop.
Hypothesis R_refl : forall p, R p p.
Hypothesis R_trans : forall p1 p2 p3, R p1 p2 -> R p2 p3 -> R p1 p3.

Lemma preserves_pure {A} (a : A) : preserves R (pure (D := D) (W := W) (N := N) a).
Proof using R_refl. intros s b s' [= <- <-]. auto. Qed.

Lemma preserves_bind {A B} (m : M D W N A) (k : A -> M D W N B) :
  preserves R m -> (forall a, preserves R (k a)) -> preserves R (bind m k).
Proof using R_trans.
  intros Hm Hk s b s'. unfold bind.
  destruct (m s) as [[a s1]|] eqn:Hrun; [|done]. intros Hrun2.
  destruct (Hm _ _ _ Hrun) as [Hc1 Hr1], (Hk _ _ _ _ Hrun2) as [Hc2 Hr2].
  split; [congruence|eauto].
Qed.

Lemma preserves_read {A} (f : CameraHardware.t D W N -> A) : preserves R (read f).
Proof using R_refl. intros s b s' [= <- <-]. auto. Qed.

Lemma preserves_deref {A} (o : option A) :
  preserves R (deref (D := D) (W := W) (N := N) o).
Proof using R_refl. destruct o; [apply preserves_pure|by intros s b s']. Qed.

Lemma preserves_dev_call {A} (f : D -> A * D) ev : preserves R (dev_call f ev).
Proof using R_refl.
  intros s b s'. unfold dev_call, bind, getCameraDevice.
  destruct (mCameraDevice s) as [d|]; [|done]. destruct (f d) as [a d'].
  intros [= <- <-]. simpl. auto.
Qed.

Lemma preserves_set_parameters_member f :
  (forall p, R p (f p)) -> preserves R (set_parameters_member f).
Proof. intros Hf s b s' [= <- <-]. simpl. auto. Qed.

End Rules.

End Negotiation.

(** Syntax-directed proof that a method [preserves] a relation; the
    writes to the store are left to [leaf]. *)
Ltac preserves_with refl trans leaf :=
  repeat lazymatch goal with
    | |- preserves _ (bind _ _) => apply (preserves_bind _ trans); [|intros ?]
    | |- preserves _ (pure _) => apply (preserves_pure _ refl)
    | |- preserves _ (read _) => apply (preserves_read _ refl)
    | |- preserves _ (deref _) => apply (preserves_deref _ refl)
    | |- preserves _ (dev_call _ _) => apply (preserves_dev_call _ refl)
    | |- preserves _ (dev_command _ _) => apply (preserves_dev_call _ refl)
    | |- preserves _ (set_parameters_member _) =>
        apply preserves_set_parameters_member; intros ?; leaf
    | |- preserves _ (let '(_, _) := match ?y with Some _ => _ | None => _ end in _) =>
        destruct y eqn:?; cbv beta iota zeta
    | |- preserves _ (if 0 <=? -1 then _ else _) =>
        change (0 <=? -1) with false; cbv iota
    | |- preserves _ (if ?b then _ else _) => destruct b eqn:?
    | |- preserves _ (match ?o with Some _ => _ | None => _ end) => destruct o eqn:?
    | |- preserves _ (match ?o with inl _ => _ | inr _ => _ end) => destruct o eqn:?
    | |- preserves _ (let '(_, _) := ?x in _) => destruct x eqn:?
    end.

Ltac distinct_keys :=
  let Heq := fresh in intros Heq; vm_compute in Heq; discriminate Heq.

(** Writes under a key other than [k]. *)
Ltac other_key_leaf :=
  unfold setPictureSize, setPreviewSize, setPreviewFormat, set_int;
  repeat first
    [ apply keeps_or_set_other; distinct_keys
    | eapply keeps_or_trans; [|apply keeps_or_set_other; distinct_keys] ].

Section Commits.

Context {D W N : Type}.
Context `{!V4L2CameraDevice.Ops D, !PreviewWindow.Ops W D, !CallbackNotifier.Ops N D}.

Implicit Types (s : CameraHardware.t D W N).

Variable p : string.

(** What [setParameters] may leave under a key, for any property [P]
    of the values it writes there. *)
Lemma setParameters_effect (P : string -> Prop) :
  (forall v, get (unflatten p) KEY_EFFECT = Some v -> is_Some (image_effect_code v) -> P v) ->
  preserves (D := D) (W := W) (N := N) (keeps_or KEY_EFFECT P) (setParameters p).
Proof.
  intros HP.
  unfold setParameters, set_image_effect, set_white_balance,
    set_exposure_compensation, set_flash_mode, set_zoom.
  preserves_with (keeps_or_refl KEY_EFFECT P) (keeps_or_trans KEY_EFFECT P)
                 ltac:(first [ solve [other_key_leaf]
                             | apply keeps_or_set, HP; [first [reflexivity|assumption]|eauto] ]).
Qed.

Lemma setParameters_white_balance (P : string -> Prop) :
  (forall v, get (unflatten p) KEY_WHITE_BALANCE = Some v ->
             is_Some (white_balance_code v) -> P v) ->
  preserves (D := D) (W := W) (N := N) (keeps_or KEY_WHITE_BALANCE P) (setParameters p).
Proof.
  intros HP.
  unfold setParameters, set_image_effect, set_white_balance,
    set_exposure_compensation, set_flash_mode, set_zoom.
  preserves_with (keeps_or_refl KEY_WHITE_BALANCE P) (keeps_or_trans KEY_WHITE_BALANCE P)
                 ltac:(first [ solve [other_key_leaf]
                             | apply keeps_or_set, HP; [first [reflexivity|assumption]|eauto] ]).
Qed.

Lemma setParameters_exposure (P : string -> Prop) :
  (let v := getInt (unflatten p) KEY_EXPOSURE_COMPENSATION in
   getInt (unflatten p) KEY_MIN_EXPOSURE_COMPENSATION <= v
   <= getInt (unflatten p) KEY_MAX_EXPOSURE_COMPENSATION ->
   P (CString.print_int v)) ->
  preserves (D := D) (W := W) (N := N)
    (keeps_or KEY_EXPOSURE_COMPENSATION P) (setParameters p).
Proof.
  intros HP.
  unfold setParameters, set_image_effect, set_white_balance,
    set_exposure_compensation, set_flash_mode, set_zoom.
  preserves_with (keeps_or_refl KEY_EXPOSURE_COMPENSATION P)
                 (keeps_or_trans KEY_EXPOSURE_COMPENSATION P)
                 ltac:(first [ solve [other_key_leaf]
                             | unfold set_int; apply keeps_or_set, HP; lia ]).
Qed.

(** Keys the method never writes. *)
Lemma setParameters_untouched k :
  ~ In k [KEY_PICTURE_SIZE; KEY_PREVIEW_SIZE; KEY_PREVIEW_FORMAT; KEY_JPEG_QUALITY;
          KEY_ROTATION; KEY_EFFECT; KEY_WHITE_BALANCE; KEY_EXPOSURE_COMPENSATION;
          KEY_FLASH_MODE; KEY_ZOOM] ->
  preserves (D := D) (W := W) (N := N) (keeps_or k (fun _ => False)) (setParameters p).
Proof.
  intros Hk.
  unfold setParameters, set_image_effect, set_white_balance,
    set_exposure_compensation, set_flash_mode, set_zoom.
  preserves_with (keeps_or_refl k (fun _ => False)) (keeps_or_trans k (fun _ => False))
                 ltac:(unfold setPictureSize, setPreviewSize, setPreviewFormat, set_int;
                       repeat first
                         [ apply keeps_or_set_other; intros <-; apply Hk; simpl; tauto
                         | eapply keeps_or_trans;
                           [|apply keeps_or_set_other; intros <-; apply Hk; simpl; tauto] ]).
Qed.

Lemma preserves_anything {A} (m : M D W N A) s a s' :
  preserves (fun _ _ => True) m -> m s = Some (a, s') ->
  mCameraConfig s' = mCameraConfig s.
Proof. intros Hm Hrun. by destruct (Hm _ _ _ Hrun). Qed.

(** Stepping over a part of the method of which only the capability
    table, which it leaves alone, matters for what follows. *)
Lemma partial_skip {A B} (m : M D W N A) (k : A -> M D W N B) Q s :
  preserves (fun _ _ => True) m ->
  (forall a s', mCameraConfig s' = mCameraConfig s -> partial (k a) Q s') ->
  partial (bind m k) Q s.
Proof.
  intros Hm Hk. unfold outcome, bind.
  destruct (m s) as [[a s']|] eqn:Hrun; [|done].
  apply Hk. by eapply preserves_anything.
Qed.

(** The last two fields.  When the method runs to its end, a
    supported flash mode is stored as the candidate set gives it and a
    supported zoom as the candidate's integer, whatever they are. *)
Lemma setParameters_flash_zoom s :
  partial (setParameters p)
    (fun res s' =>
       res = NO_ERROR ->
       (CCameraConfig.supportFlashMode (mCameraConfig s) = true ->
        exists v, get (unflatten p) KEY_FLASH_MODE = Some v /\
                  (CString.contains "=" v = false ->
                   mParameters s' !! KEY_FLASH_MODE = Some v)) /\
       (CCameraConfig.supportZoom (mCameraConfig s) = true ->
        mParameters s' !! KEY_ZOOM
        = Some (CString.print_int (getInt (unflatten p) KEY_ZOOM)))) s.
Proof.
  unfold setParameters.
  apply outcome_bind, outcome_read.
  destruct (mCameraDevice s) as [d|] eqn:Hd; [|by apply outcome_pure].
  apply outcome_bind, outcome_deref; [intros preview_format _|done].
  destruct (negb _); [by apply outcome_pure|].
  apply outcome_bind, outcome_deref; [intros picture_format _|done].
  destruct (negb _); [by apply outcome_pure|].
  destruct (getPictureSize _) as [npw nph].
  apply partial_skip;
    [preserves_with (fun _ : gmap string string => I)
       (fun _ _ _ : gmap string string => fun _ _ : True => I) ltac:(exact I)|].
  intros _ s1 Hc1.
  destruct (getPreviewSize _) as [nw nh].
  apply outcome_bind.
  assert (forall (Q : Z + Z -> CameraHardware.t D W N -> Prop),
            (forall r s', mCameraConfig s' = mCameraConfig s -> r < 0 -> Q (inl r) s') ->
            (forall r s', mCameraConfig s' = mCameraConfig s -> Q (inr r) s') ->
            partial
              match getPreviewFormat (unflatten p) with
              | Some format =>
                  if (0 <? nw) && (0 <? nh) then
                    bind (dev_call (V4L2CameraDevice.tryFmtSize nw nh)
                            (fun r => DevTryFmtSize nw nh r.1 r.2))
                      (fun x => match x with
                                | (ret, (new_preview_width, new_preview_height)) =>
                                    if ret <? 0 then pure (inl ret)
                                    else
                                      bind (set_parameters_member
                                              (fun p0 => setPreviewFormat
                                                 (setPreviewSize p0 new_preview_width
                                                    new_preview_height) format))
                                           (fun _ => pure (inr ret))
                                end)
                  else pure (inr UNKNOWN_ERROR)
              | None => pure (inr UNKNOWN_ERROR)
              end Q s1) as Htried.
  { intros Q Hl Hr.
    destruct (getPreviewFormat (unflatten p)); [|by apply outcome_pure, Hr].
    destruct (_ && _); [|by apply outcome_pure, Hr].
    apply outcome_bind, outcome_dev_call_partial. intros d1 Hd1.
    destruct (V4L2CameraDevice.tryFmtSize nw nh d1) as [[r [fw fh]] d2]. simpl.
    destruct (r <? 0) eqn:Hneg.
    - apply outcome_pure, Hl; [done|lia].
    - apply outcome_bind, outcome_set_parameters_member, outcome_pure, Hr. done. }
  apply Htried; clear Htried.
  { intros r s2 _ Hneg. apply outcome_pure. intros ->. vm_compute in Hneg. done. }
  intros r s2 Hc2.
  do 6 (apply partial_skip;
        [ unfold set_image_effect, set_white_balance, set_exposure_compensation;
          preserves_with (fun _ : gmap string string => I)
            (fun _ _ _ : gmap string string => fun _ _ : True => I) ltac:(exact I)
        | let Hc := fresh "Hc" in let t := fresh "t" in intros ? t Hc ]).
  assert (mCameraConfig t4 = mCameraConfig s) as Hcfg by congruence.
  rewrite <- Hcfg. clear. unfold set_flash_mode, set_zoom. exec; try done.
  all: intros _; simpl in *; split; intros Hsup; try congruence.
  all: try (eexists; split; [eassumption|intros Hplain]).
  all: unfold set_int; rewrite ?lookup_set_ne by distinct_keys.
  all: try (rewrite set_stores; [apply lookup_insert_eq|done..]).
  all: try (rewrite set_stores; [apply lookup_insert_eq|done..|apply print_int_no_equals]).
Qed.

(** C9, as the code has it.  After a [setParameters] that returns:
    - the stored effect, if it changed, is the candidate's tag and one
      of the five tags of the method's own table;
    - likewise the stored white balance, with the six tags of its
      table;
    - the stored exposure compensation, if it changed, is the
      candidate's value, and lies between the minimum and maximum
      that the candidate set itself carries;
    - when the call ran to its end, a supported flash mode is stored
      verbatim from the candidate set and a supported zoom is the
      candidate's integer: neither is compared with anything;
    - focus mode and scene mode are as before. *)
Theorem setParameters_commits s res s' :
  setParameters p s = Some (res, s') ->
  let candidate := unflatten p in
  let old := mParameters s in
  let new := mParameters s' in
  keeps_or KEY_EFFECT
    (fun v => get candidate KEY_EFFECT = Some v /\ is_Some (image_effect_code v))
    old new /\
  keeps_or KEY_WHITE_BALANCE
    (fun v => get candidate KEY_WHITE_BALANCE = Some v /\ is_Some (white_balance_code v))
    old new /\
  keeps_or KEY_EXPOSURE_COMPENSATION
    (fun v => v = CString.print_int (getInt candidate KEY_EXPOSURE_COMPENSATION) /\
              getInt candidate KEY_MIN_EXPOSURE_COMPENSATION
              <= getInt candidate KEY_EXPOSURE_COMPENSATION
              <= getInt candidate KEY_MAX_EXPOSURE_COMPENSATION)
    old new /\
  (res = NO_ERROR ->
   (CCameraConfig.supportFlashMode (mCameraConfig s) = true ->
    exists v, get candidate KEY_FLASH_MODE = Some v /\
              (CString.contains "=" v = false -> new !! KEY_FLASH_MODE = Some v)) /\
   (CCameraConfig.supportZoom (mCameraConfig s) = true ->
    new !! KEY_ZOOM = Some (CString.print_int (getInt candidate KEY_ZOOM)))) /\
  new !! KEY_FOCUS_MODE = old !! KEY_FOCUS_MODE /\
  new !! KEY_SCENE_MODE = old !! KEY_SCENE_MODE.
Proof.
  intros Hrun. cbv zeta.
  split; [|split; [|split; [|split; [|split]]]].
  - eapply setParameters_effect; [|exact Hrun]. auto.
  - eapply setParameters_white_balance; [|exact Hrun]. auto.
  - eapply setParameters_exposure; [|exact Hrun]. cbv zeta. auto.
  - exact (outcome_elim _ _ _ _ _ _ (setParameters_flash_zoom s) Hrun).
  - assert (~ In KEY_FOCUS_MODE
                [KEY_PICTURE_SIZE; KEY_PREVIEW_SIZE; KEY_PREVIEW_FORMAT; KEY_JPEG_QUALITY;
                 KEY_ROTATION; KEY_EFFECT; KEY_WHITE_BALANCE; KEY_EXPOSURE_COMPENSATION;
                 KEY_FLASH_MODE; KEY_ZOOM]) as Hk
      by (intros Hin; vm_compute in Hin; intuition discriminate).
    destruct (setParameters_untouched _ Hk _ _ _ Hrun) as [_ [Hsame|(v & _ & [])]].
    exact Hsame.
  - assert (~ In KEY_SCENE_MODE
                [KEY_PICTURE_SIZE; KEY_PREVIEW_SIZE; KEY_PREVIEW_FORMAT; KEY_JPEG_QUALITY;
                 KEY_ROTATION; KEY_EFFECT; KEY_WHITE_BALANCE; KEY_EXPOSURE_COMPENSATION;
                 KEY_FLASH_MODE; KEY_ZOOM]) as Hk
      by (intros Hin; vm_compute in Hin; intuition discriminate).
    destruct (setParameters_untouched _ Hk _ _ _ Hrun) as [_ [Hsame|(v & _ & [])]].
    exact Hsame.
Qed.

End Commits.

(** ** The reference collaborators honour the contracts *)

#[global] Instance reference_device_contract : DeviceContract Reference.Device.
Proof.
  split.
  - intros d. simpl. unfold Reference.answer.
    destruct (Reference.stop_result d =? NO_ERROR) eqn:Hres; simpl; [done|].
    intros Hok. apply Z.eqb_neq in Hres. done.
  - intros d. simpl. unfold Reference.answer.
    by destruct (Reference.connect_result d =? NO_ERROR).
  - intros w h f d. simpl. unfold Reference.answer.
    destruct (Reference.start_result d =? NO_ERROR) eqn:Hres; simpl; [|done].
    intros Hfail. apply Z.eqb_eq in Hres. done.
Qed.

#[global] Instance reference_window_contract :
  WindowContract Reference.Window Reference.Device.
Proof. split. by intros w. Qed.

(** ** Runs on the reference sessions *)

(** Evaluates the right-hand side of an equation [H] on concrete data. *)
Ltac eval_rhs H :=
  match type of H with
  | _ = ?r =>
      let r' := eval vm_compute in r in
      replace r with r' in H by (vm_compute; reflexivity)
  end.

Section ReferenceRuns.

Import Reference.

(** The two running sessions are the ones the methods produce from the
    idle one. *)
Lemma previewing_run :
  observe_run (doStartPreview session0)
  = Some (NO_ERROR, observe previewing,
          [WinStartPreview 0; DevStartDevice 640 480 V4L2_PIX_FMT_NV12 0;
           DevStartDeliveringFrames false 0]).
Proof. vm_compute. reflexivity. Qed.

Lemma capture_pending_run :
  observe_run (takePicture session0)
  = Some (NO_ERROR, observe capture_pending,
          [DevTryFmtSize 1280 720 0 (1280, 720); DevSetPictureSize 1280 720;
           WinShowLayer false; DevStartDevice 1280 720 V4L2_PIX_FMT_NV12 0;
           CbSetJpegQuality 90; CbSetTakingPicture true;
           DevStartDeliveringFrames false 0]).
Proof. vm_compute. reflexivity. Qed.

(** C1, on the reference session: an idle window declines frame 7 and
    the notifier sees nothing; a previewing window accepts it and the
    notifier records frame 7 with timestamp 1000. *)
Lemma onNextFrameAvailable_window_gates_notifier_witness :
  (exists s',
     onNextFrameAvailable 7 1000 false session0 = Some (false, s') /\
     mCallbackNotifier s' = notifier0 /\
     calls s' = [WinOnNextFrameAvailable 7 1000 false false]) /\
  (exists s',
     onNextFrameAvailable 7 1000 false previewing = Some (true, s') /\
     delivered (mCallbackNotifier s') = [(7, 1000)] /\
     calls s' = [WinOnNextFrameAvailable 7 1000 false true;
                 CbOnNextFrameAvailable 7 1000 false]).
Proof.
  split.
  - destruct (onNextFrameAvailable_window_gates_notifier 7 1000 false session0 device0
                eq_refl) as (s' & Hrun & _ & Hn & _ & Hc).
    exists s'. split; [exact Hrun|]. split; [exact Hn|exact Hc].
  - destruct (onNextFrameAvailable_window_gates_notifier 7 1000 false previewing
                device_streaming eq_refl) as (s' & Hrun & _ & Hn & _ & Hc).
    exists s'. split; [exact Hrun|]. split; [rewrite Hn; reflexivity|exact Hc].
Defined.

(** C8, on the reference sessions: stopping an idle session changes
    nothing; stopping a running preview sends the three commands in
    order and a second stop is then a no-op. *)
Lemma stopPreview_idempotent_ordered_witness :
  (doStopPreview session0 = Some (NO_ERROR, session0) /\
   stopPreview session0 = Some (tt, session0)) /\
  (exists s1,
     doStopPreview previewing = Some (NO_ERROR, s1) /\
     calls s1 = [DevStopDeliveringFrames; DevStopDevice NO_ERROR; WinStopPreview] /\
     enabled (mPreviewWindow s1) = false /\
     doStopPreview s1 = Some (NO_ERROR, s1)).
Proof.
  split.
  - exact (proj1 (stopPreview_idempotent_ordered session0) eq_refl).
  - destruct (stopPreview_idempotent_ordered previewing) as (_ & Hsecond & Hactive).
    destruct (Hactive device_streaming eq_refl eq_refl) as (s1 & Hrun & _ & Hcalls & Hwin).
    destruct (Hsecond _ _ Hrun) as (_ & s2 & Hrun2 & Hnoop).
    assert (enabled (mPreviewWindow s1) = false) as Hoff by (rewrite Hwin; reflexivity).
    exists s1. split; [exact Hrun|]. split; [exact Hcalls|]. split; [exact Hoff|].
    rewrite <- (Hnoop Hoff) at 2. exact Hrun2.
Defined.

(** C7, as stated, fails on a reference device that starts but refuses
    both to deliver frames and to stop: the call returns [EINVAL]
    after the window had been started, the window ends disabled, and
    the stream is still running, because the status of the device stop
    is not read. *)
Lemma startPreview_failure_rolls_back_counterexample :
  match doStartPreview stuck with
  | Some (res, s') =>
      res = EINVAL /\
      calls s' = [WinStartPreview NO_ERROR;
                  DevStartDevice 640 480 V4L2_PIX_FMT_NV12 NO_ERROR;
                  DevStartDeliveringFrames false EINVAL; DevStopDevice EINVAL;
                  WinStopPreview] /\
      enabled (mPreviewWindow s') = false /\
      option_map started (mCameraDevice s') = Some true
  | None => False
  end.
Proof. vm_compute. repeat split. Qed.

(** C7, as the code has it, on a reference device whose [startDevice]
    fails: the window had been started, the call returns the device's
    [EINVAL], and the session ends with the window disabled and the
    stream stopped. *)
Lemma startPreview_failure_rolls_back_witness :
  exists s',
    doStartPreview start_fails = Some (EINVAL, s') /\
    startPreview start_fails = Some (- EINVAL, s') /\
    calls s' = [WinStartPreview NO_ERROR;
                DevStartDevice 640 480 V4L2_PIX_FMT_NV12 EINVAL; WinStopPreview] /\
    enabled (mPreviewWindow s') = false /\
    (exists d', mCameraDevice s' = Some d' /\ started d' = false).
Proof.
  destruct (startPreview_failure_rolls_back start_fails device_start_fails eq_refl)
    as (res & s' & more & Hrun & Hpublic & Hcalls & Hreport & _ & Hroll).
  assert (option_map snd (outline (doStartPreview start_fails))
          = Some [WinStartPreview NO_ERROR;
                  DevStartDevice 640 480 V4L2_PIX_FMT_NV12 EINVAL; WinStopPreview]) as Hobs
    by (vm_compute; reflexivity).
  rewrite Hrun in Hobs. simpl in Hobs. rewrite Hcalls in Hobs.
  injection Hobs as Hmore. simpl in Hmore. subst more.
  assert (res = EINVAL) as ->.
  { apply Hreport; [discriminate|]. right. left.
    exists 640, 480, V4L2_PIX_FMT_NV12. simpl. tauto. }
  exists s'. split; [exact Hrun|]. split; [exact Hpublic|]. split; [exact Hcalls|].
  destruct Hroll as (_ & _ & Hoff & Hdev).
  - discriminate.
  - left. reflexivity.
  - split; [exact Hoff|]. apply Hdev. repeat split.
Defined.

(** C6, as stated, fails on the reference store, which holds video
    size 640x480 as every store does after [Initialize] on a camera
    with preview sizes.  The capture of 9999 x 9999 stores the
    adjusted 1280x720 as preview size, and the preview that follows
    starts the device at 640x480: [doStartPreview] prefers
    [video-size]. *)
Lemma takePicture_negotiates_size_counterexample :
  match takePicture big_picture with
  | Some (_, s1) =>
      get (mParameters s1) KEY_PREVIEW_SIZE = Some "1280x720" /\
      get (mParameters s1) KEY_VIDEO_SIZE = Some "640x480" /\
      match doStartPreview s1 with
      | Some (res, s2) =>
          res = NO_ERROR /\
          drop (length (calls s1)) (calls s2)
          = [DevStopDeliveringFrames; DevStopDevice NO_ERROR; WinStartPreview NO_ERROR;
             DevStartDevice 640 480 V4L2_PIX_FMT_NV12 NO_ERROR;
             DevStartDeliveringFrames false NO_ERROR]
      | None => False
      end
  | None => False
  end.
Proof. vm_compute. repeat split. Qed.

(** C6, as the code has it, on a stored picture size of 9999 x 9999
    that the reference device cannot deliver: the driver is asked for
    9999 x 9999 and answers 1280 x 720, which becomes the stored
    preview size, while [setPictureSize] and the stored picture size
    keep 9999 x 9999.  The preview that follows starts the device at
    the stored video size 640x480; on the same store without a video
    size it starts the device at 1280x720. *)
Lemma takePicture_negotiates_size_witness :
  (exists res s' more res2 s2 more2,
     takePicture big_picture = Some (res, s') /\
     calls s' = DevTryFmtSize 9999 9999 0 (1280, 720)
                :: DevSetPictureSize 9999 9999 :: more /\
     mParameters s' !! KEY_PREVIEW_SIZE = Some "1280x720" /\
     mParameters s' !! KEY_PICTURE_SIZE = Some "9999x9999" /\
     doStartPreview s' = Some (res2, s2) /\
     calls s2 = calls s' ++ more2 /\
     forall w h f r, In (DevStartDevice w h f r) more2 -> (w, h) = (640, 480)) /\
  (exists res s' res2 s2 more2,
     takePicture big_picture_plain = Some (res, s') /\
     mParameters s' !! KEY_PREVIEW_SIZE = Some "1280x720" /\
     doStartPreview s' = Some (res2, s2) /\
     calls s2 = calls s' ++ more2 /\
     forall w h f r, In (DevStartDevice w h f r) more2 -> (w, h) = (1280, 720)).
Proof.
  split.
  - assert (getPictureFormat (mParameters big_picture) = Some "jpeg") as Hfmt
      by (vm_compute; reflexivity).
    destruct (takePicture_negotiates_size big_picture device0 "jpeg" eq_refl Hfmt)
      as (res & s' & more & Hrun & Hcalls & _ & Hprev & Hpic & _ &
          res2 & s2 & more2 & Hstart & Hcalls2 & _ & Hsize).
    eval_rhs Hcalls. eval_rhs Hprev.
    assert (mParameters big_picture !! KEY_PICTURE_SIZE = Some "9999x9999") as Hold
      by (vm_compute; reflexivity).
    rewrite Hold in Hpic.
    exists res, s', more, res2, s2, more2.
    split; [exact Hrun|]. split; [exact Hcalls|]. split; [exact Hprev|].
    split; [exact Hpic|]. split; [exact Hstart|]. split; [exact Hcalls2|].
    intros w h f r Hin. specialize (Hsize w h f r Hin).
    assert (get (mParameters big_picture) KEY_VIDEO_SIZE = Some "640x480") as Hvideo
      by (vm_compute; reflexivity).
    rewrite Hvideo in Hsize. rewrite Hsize. vm_compute. reflexivity.
  - assert (getPictureFormat (mParameters big_picture_plain) = Some "jpeg") as Hfmt
      by (vm_compute; reflexivity).
    destruct (takePicture_negotiates_size big_picture_plain device0 "jpeg" eq_refl Hfmt)
      as (res & s' & more & Hrun & _ & _ & Hprev & _ & _ &
          res2 & s2 & more2 & Hstart & Hcalls2 & _ & Hsize).
    eval_rhs Hprev.
    exists res, s', res2, s2, more2.
    split; [exact Hrun|]. split; [exact Hprev|]. split; [exact Hstart|].
    split; [exact Hcalls2|].
    intros w h f r Hin. specialize (Hsize w h f r Hin).
    assert (get (mParameters big_picture_plain) KEY_VIDEO_SIZE = None) as Hvideo
      by (vm_compute; reflexivity).
    rewrite Hvideo in Hsize.
    assert ((V4L2CameraDevice.tryFmtSize (getPictureSize (mParameters big_picture_plain)).1
               (getPictureSize (mParameters big_picture_plain)).2 device0).1.2
            = (1280, 720)) as Hframe by (vm_compute; reflexivity).
    rewrite Hframe in Hsize. apply Hsize; simpl; unfold INT_MIN, INT_MAX; lia.
Defined.

(** C5, as stated, fails on the reference session with picture format
    [rgb565]: the call does return [EINVAL], but two device commands
    were issued and the stored preview size went from 640x480 to
    1280x720. *)
Lemma takePicture_unsupported_format_counterexample :
  get (mParameters odd_picture) KEY_PICTURE_FORMAT = Some "rgb565" /\
  get (mParameters odd_picture) KEY_PREVIEW_SIZE = Some "640x480" /\
  match takePicture odd_picture with
  | Some (res, s') =>
      res = EINVAL /\
      filter is_device_call (calls s')
      = [DevTryFmtSize 9999 9999 0 (1280, 720); DevSetPictureSize 9999 9999] /\
      get (mParameters s') KEY_PREVIEW_SIZE = Some "1280x720"
  | None => False
  end.
Proof. vm_compute. repeat split. Qed.

(** C5, as the code has it, on the same session. *)
Lemma takePicture_unsupported_format_witness :
  exists s',
    takePicture odd_picture = Some (EINVAL, s') /\
    calls s' = [DevTryFmtSize 9999 9999 0 (1280, 720); DevSetPictureSize 9999 9999] /\
    mParameters s' !! KEY_PREVIEW_SIZE = Some "1280x720" /\
    mPreviewWindow s' = window0 /\
    mCallbackNotifier s' = notifier0.
Proof.
  assert (getPictureFormat (mParameters odd_picture) = Some "rgb565") as Hfmt
    by (vm_compute; reflexivity).
  assert (~ In "rgb565" [PIXEL_FORMAT_YUV420P; PIXEL_FORMAT_RGBA8888;
                         PIXEL_FORMAT_YUV420SP; PIXEL_FORMAT_JPEG]) as Hnot
    by (intros Hin; vm_compute in Hin; intuition discriminate).
  destruct (takePicture_unsupported_format odd_picture device0 "rgb565" eq_refl Hfmt Hnot)
    as ((s' & Hrun & Hcalls & _ & _ & Hprev & Hwin & Hcb) & _).
  eval_rhs Hcalls. eval_rhs Hprev.
  exists s'. split; [exact Hrun|]. split; [exact Hcalls|]. split; [exact Hprev|].
  split; [exact Hwin|exact Hcb].
Defined.

(** C3, as stated, fails on the reference session with a capture
    pending: the second [takePicture] returns [NO_ERROR], and on its
    way stops frame delivery and the device and starts them again. *)
Lemma takePicture_while_pending_counterexample :
  taking_picture (mCallbackNotifier capture_pending) = true /\
  delivered (mCallbackNotifier capture_pending) = [] /\
  match takePicture capture_pending with
  | Some (res, s') =>
      res = NO_ERROR /\
      calls s' = [DevTryFmtSize 1280 720 0 (1280, 720); DevSetPictureSize 1280 720;
                  DevStopDeliveringFrames; DevStopDevice NO_ERROR;
                  WinShowLayer false; DevStartDevice 1280 720 V4L2_PIX_FMT_NV12 NO_ERROR;
                  CbSetJpegQuality 90; CbSetTakingPicture true;
                  DevStartDeliveringFrames false NO_ERROR]
  | None => False
  end.
Proof. vm_compute. repeat split. Qed.

(** C9, as stated, fails on the reference session: flash mode [bogus]
    is stored although the table advertises [off,auto]; zoom 9999 is
    stored although the maximum is 100; effect [negative] is stored
    although the table advertises [none,mono,sepia]. *)
Lemma setParameters_unadvertised_values_counterexample :
  match setParameters bogus_request session0 with
  | Some (res, s') =>
      res = NO_ERROR /\
      get (mParameters s') KEY_FLASH_MODE = Some "bogus" /\
      get (mParameters s') KEY_SUPPORTED_FLASH_MODES = Some "off,auto" /\
      advertised "off,auto" "bogus" = false /\
      getInt (mParameters s') KEY_ZOOM = 9999 /\
      getInt (mParameters s') KEY_MAX_ZOOM = 100 /\
      get (mParameters s') KEY_EFFECT = Some "negative" /\
      get (mParameters s') KEY_SUPPORTED_EFFECTS = Some "none,mono,sepia" /\
      advertised "none,mono,sepia" "negative" = false
  | None => False
  end.
Proof. vm_compute. repeat split. Qed.

(** C9, as the code has it, on the same request. *)
Lemma setParameters_commits_witness :
  exists res s',
    setParameters bogus_request session0 = Some (res, s') /\
    res = NO_ERROR /\
    mParameters s' !! KEY_FLASH_MODE = Some "bogus" /\
    mParameters s' !! KEY_ZOOM = Some "9999" /\
    mParameters s' !! KEY_FOCUS_MODE = Some "fixed".
Proof.
  assert (outline (setParameters bogus_request session0)
          = Some (NO_ERROR, [DevGetFrameRate; DevSetImageEffect 3 0; DevSetExposure (-1) 0]))
    as Hout by (vm_compute; reflexivity).
  destruct (setParameters bogus_request session0) as [[res s']|] eqn:Hrun;
    [|discriminate Hout].
  injection Hout as Hres _.
  destruct (setParameters_commits bogus_request session0 res s' Hrun)
    as (_ & _ & _ & Hlast & Hfocus & _).
  destruct (Hlast Hres) as [Hflash Hzoom].
  destruct (Hflash eq_refl) as (v & Hv & Hstored).
  eval_rhs Hfocus. specialize (Hzoom eq_refl). eval_rhs Hzoom.
  assert (get (unflatten bogus_request) KEY_FLASH_MODE = Some "bogus") as Hcand
    by (vm_compute; reflexivity).
  rewrite Hcand in Hv. injection Hv as <-.
  exists res, s'. split; [reflexivity|]. split; [exact Hres|].
  split; [exact (Hstored eq_refl)|]. split; [exact Hzoom|exact Hfocus].
Defined.

(** C2: the code reports success.  With the white-balance tag
    [twilight], which [white_balance_code] does not know, and JPEG
    quality 80, the quality is committed and the white balance is
    left as it was, but the status is [NO_ERROR]: the local [ret],
    set to [UNKNOWN_ERROR] on the way, is not what is returned. *)
Lemma setParameters_invalid_white_balance_reports_success :
  white_balance_code "twilight" = None /\
  get (mParameters session0) KEY_JPEG_QUALITY = Some "90" /\
  match setParameters twilight_request session0 with
  | Some (res, s') =>
      res = NO_ERROR /\
      get (mParameters s') KEY_JPEG_QUALITY = Some "80" /\
      get (mParameters s') KEY_WHITE_BALANCE = Some "auto"
  | None => False
  end.
Proof. vm_compute. repeat split. Qed.

(** C4: the entry point [take_picture] hands a positive internal
    error out unchanged.  On a device whose [startDevice] fails with
    [EINVAL], and on a store with an unsupported picture format, it
    returns +22; [start_preview] on the same failing device returns
    -22. *)
Lemma take_picture_returns_positive_status :
  match take_picture (Some start_fails), take_picture (Some odd_picture),
        start_preview (Some start_fails) with
  | Some (picture_status, _), Some (format_status, _), Some (preview_status, _) =>
      picture_status = EINVAL /\ format_status = EINVAL /\ 0 < EINVAL /\
      preview_status = - EINVAL
  | _, _, _ => False
  end.
Proof. vm_compute. repeat split. Qed.

(** C10: when [malloc] fails, [getParameters] writes through the null
    pointer before it tests it, and faults; the branch that returns
    the static [lNoParam] is never reached.  With room on the heap the
    copy is returned, and [putParameters] releases it; it leaves the
    heap alone for null and for [lNoParam]. *)
Lemma getParameters_allocation_failure_faults :
  getParameters session0 heap_full = None /\
  match getParameters session0 heap0 with
  | Some (ptr, h) =>
      ptr = Heap.Block 1 /\
      Heap.c_str ptr h = Some (flatten (mParameters session0)) /\
      putParameters ptr h = Some (Heap.Build ∅ 4096 2)
  | None => False
  end /\
  putParameters Heap.lNoParam heap0 = Some heap0 /\
  putParameters Heap.NULL heap0 = Some heap0.
Proof. vm_compute. repeat split. Qed.

End ReferenceRuns.

(** * Further properties *)

(** ** Default parameters *)

(** A key outside the list [Hk] speaks of differs from each key of
    the list. *)
Ltac other_key Hk :=
  let Heq := fresh in intros Heq; apply Hk; rewrite <- Heq; simpl; tauto.

Ltac block_untouched Hk :=
  repeat case_match; simplify_option_eq; try done;
  unfold setPreviewFormat, setPictureFormat, set_int;
  rewrite ?lookup_set_ne by other_key Hk; reflexivity.

Section InitFacts.

(** A block leaves every key but its own as it was. *)

Lemma init_preview_size_untouched c p p' k :
  init_preview_size c p = Some p' -> ~ In k preview_size_keys -> p' !! k = p !! k.
Proof. unfold init_preview_size, preview_size_keys. intros Hrun Hk. block_untouched Hk. Qed.

Lemma init_picture_size_untouched c p p' k :
  init_picture_size c p = Some p' -> ~ In k picture_size_keys -> p' !! k = p !! k.
Proof. unfold init_picture_size, picture_size_keys. intros Hrun Hk. block_untouched Hk. Qed.

Lemma init_frame_rate_untouched c p p' k :
  init_frame_rate c p = Some p' -> ~ In k frame_rate_keys -> p' !! k = p !! k.
Proof. unfold init_frame_rate, frame_rate_keys. intros Hrun Hk. block_untouched Hk. Qed.

Lemma init_focus_untouched c p p' k :
  init_focus c p = Some p' -> ~ In k focus_keys -> p' !! k = p !! k.
Proof. unfold init_focus, focus_keys. intros Hrun Hk. block_untouched Hk. Qed.

Lemma init_color_effect_untouched cfg c p p' k :
  init_color_effect cfg c p = Some p' -> ~ In k color_effect_keys -> p' !! k = p !! k.
Proof. unfold init_color_effect, color_effect_keys. intros Hrun Hk. block_untouched Hk. Qed.

Lemma init_flash_mode_untouched cfg c p p' k :
  init_flash_mode cfg c p = Some p' -> ~ In k flash_mode_keys -> p' !! k = p !! k.
Proof. unfold init_flash_mode, flash_mode_keys. intros Hrun Hk. block_untouched Hk. Qed.

Lemma init_scene_mode_untouched c p p' k :
  init_scene_mode c p = Some p' -> ~ In k scene_mode_keys -> p' !! k = p !! k.
Proof. unfold init_scene_mode, scene_mode_keys. intros Hrun Hk. block_untouched Hk. Qed.

Lemma init_white_balance_untouched cfg c p p' k :
  init_white_balance cfg c p = Some p' -> ~ In k white_balance_keys -> p' !! k = p !! k.
Proof. unfold init_white_balance, white_balance_keys. intros Hrun Hk. block_untouched Hk. Qed.

Lemma init_exposure_compensation_untouched cfg c p p' k :
  init_exposure_compensation cfg c p = Some p' -> ~ In k exposure_keys -> p' !! k = p !! k.
Proof.
  unfold init_exposure_compensation, exposure_keys. intros Hrun Hk. block_untouched Hk.
Qed.

Lemma init_zoom_untouched cfg c p p' k :
  init_zoom cfg c p = Some p' -> ~ In k zoom_keys -> p' !! k = p !! k.
Proof. unfold init_zoom, zoom_keys. intros Hrun Hk. block_untouched Hk. Qed.

Lemma init_fixed_untouched p k : ~ In k fixed_keys -> init_fixed p !! k = p !! k.
Proof.
  unfold init_fixed, fixed_keys. intros Hk. cbv zeta. unfold set_int.
  rewrite ?lookup_set_ne by other_key Hk. reflexivity.
Qed.

End InitFacts.

Section InitRun.

Context {D W N : Type}.
Implicit Types (s : CameraHardware.t D W N).

Lemma initDefaultParameters_default_store c s :
  initDefaultParameters c s
  = match default_store (mCameraConfig s) c (mParameters s) with
    | Some p => Some (tt, with_parameters p s)
    | None => None
    end.
Proof.
  unfold initDefaultParameters, default_store, bind, read, deref, set_parameters_member,
    modify, pure, fault. simpl.
  repeat (match goal with |- context [mbind _ ?o] => destruct o as [?|]; simpl end); try done.
Qed.

End InitRun.

(** A concrete key is not in a concrete list of keys. *)
Ltac not_among :=
  let Hin := fresh in intros Hin; vm_compute in Hin; intuition discriminate.

(** Looking a key up through the blocks that do not write it. *)

Ltac skip_block lem side := erewrite lem; [|eassumption|side].

Ltac skip_blocks side :=
  rewrite ?init_fixed_untouched by side;
  try skip_block init_zoom_untouched side;
  try skip_block init_exposure_compensation_untouched side;
  try skip_block init_white_balance_untouched side;
  try skip_block init_scene_mode_untouched side;
  try skip_block init_flash_mode_untouched side;
  try skip_block init_color_effect_untouched side;
  try skip_block init_focus_untouched side;
  try skip_block init_frame_rate_untouched side;
  try skip_block init_picture_size_untouched side;
  try skip_block init_preview_size_untouched side.

Ltac open_blocks Hrun :=
  repeat match type of Hrun with
         | context [mbind _ ?o] => destruct o eqn:?; simpl in Hrun; [|discriminate Hrun]
         end;
  injection Hrun as <-.

Ltac block_returns :=
  unfold present; intros Hp;
  repeat match goal with
         | |- context [if ?b then _ else _] => destruct b; simpl in Hp |- *
         | |- context [mbind _ ?o] => destruct o; simpl in Hp |- *
         end;
  first [discriminate Hp | eauto].

Section DefaultStore.

Implicit Types (p : gmap string string) (k : string).

Lemma default_store_untouched cfg c p p' k :
  default_store cfg c p = Some p' -> ~ In k default_keys -> p' !! k = p !! k.
Proof.
  unfold default_store. intros Hrun Hk. open_blocks Hrun.
  skip_blocks ltac:(intros Hin; apply Hk; unfold default_keys; rewrite !in_app_iff; tauto).
  reflexivity.
Qed.

(** A block returns when the values it needs are there. *)
Lemma init_preview_size_returns c p :
  present (CCameraConfigValues.supportPreviewSize c)
    [CCameraConfigValues.supportPreviewSizeValue c; CCameraConfigValues.defaultPreviewSizeValue c]
  = true -> is_Some (init_preview_size c p).
Proof. unfold init_preview_size. block_returns. Qed.

Lemma init_picture_size_returns c p :
  present (CCameraConfigValues.supportPictureSize c)
    [CCameraConfigValues.supportPictureSizeValue c; CCameraConfigValues.defaultPictureSizeValue c]
  = true -> is_Some (init_picture_size c p).
Proof. unfold init_picture_size. block_returns. Qed.

Lemma init_frame_rate_returns c p :
  present (CCameraConfigValues.supportFrameRate c)
    [CCameraConfigValues.supportFrameRateValue c; CCameraConfigValues.defaultFrameRateValue c]
  = true -> is_Some (init_frame_rate c p).
Proof. unfold init_frame_rate. block_returns. Qed.

Lemma init_focus_returns c p :
  present (CCameraConfigValues.supportFocusMode c)
    [CCameraConfigValues.supportFocusModeValue c; CCameraConfigValues.defaultFocusModeValue c]
  = true -> is_Some (init_focus c p).
Proof. unfold init_focus. block_returns. Qed.

Lemma init_color_effect_returns cfg c p :
  present (CCameraConfig.supportColorEffect cfg)
    [CCameraConfigValues.supportColorEffectValue c; CCameraConfigValues.defaultColorEffectValue c]
  = true -> is_Some (init_color_effect cfg c p).
Proof. unfold init_color_effect. block_returns. Qed.

Lemma init_flash_mode_returns cfg c p :
  present (CCameraConfig.supportFlashMode cfg)
    [CCameraConfigValues.supportFlashModeValue c; CCameraConfigValues.defaultFlashModeValue c]
  = true -> is_Some (init_flash_mode cfg c p).
Proof. unfold init_flash_mode. block_returns. Qed.

Lemma init_scene_mode_returns c p :
  present (CCameraConfigValues.supportSceneMode c)
    [CCameraConfigValues.supportSceneModeValue c; CCameraConfigValues.defaultSceneModeValue c]
  = true -> is_Some (init_scene_mode c p).
Proof. unfold init_scene_mode. block_returns. Qed.

Lemma init_white_balance_returns cfg c p :
  present (CCameraConfig.supportWhiteBalance cfg)
    [CCameraConfigValues.supportWhiteBalanceValue c;
     CCameraConfigValues.defaultWhiteBalanceValue c]
  = true -> is_Some (init_white_balance cfg c p).
Proof. unfold init_white_balance. block_returns. Qed.

Lemma init_exposure_compensation_returns cfg c p :
  present (CCameraConfig.supportExposureCompensation cfg)
    [CCameraConfigValues.minExposureCompensationValue c;
     CCameraConfigValues.maxExposureCompensationValue c;
     CCameraConfigValues.stepExposureCompensationValue c;
     CCameraConfigValues.defaultExposureCompensationValue c]
  = true -> is_Some (init_exposure_compensation cfg c p).
Proof. unfold init_exposure_compensation. block_returns. Qed.

Lemma init_zoom_returns cfg c p :
  present (CCameraConfig.supportZoom cfg)
    [CCameraConfigValues.zoomSupportedValue c; CCameraConfigValues.smoothZoomSupportedValue c;
     CCameraConfigValues.zoomRatiosValue c; CCameraConfigValues.maxZoomValue c;
     CCameraConfigValues.defaultZoomValue c]
  = true -> is_Some (init_zoom cfg c p).
Proof. unfold init_zoom. block_returns. Qed.

Lemma default_store_returns cfg c p :
  values_present cfg c = true -> is_Some (default_store cfg c p).
Proof.
  unfold values_present. rewrite !andb_true_iff.
  intros (((((((((H1 & H2) & H3) & H4) & H5) & H6) & H7) & H8) & H9) & H10).
  unfold default_store.
  destruct (init_preview_size_returns c p H1) as [p1 ->]; simpl.
  destruct (init_picture_size_returns c p1 H2) as [p2 ->]; simpl.
  destruct (init_frame_rate_returns c p2 H3) as [p3 ->]; simpl.
  destruct (init_focus_returns c p3 H4) as [p4 ->]; simpl.
  destruct (init_color_effect_returns cfg c p4 H5) as [p5 ->]; simpl.
  destruct (init_flash_mode_returns cfg c p5 H6) as [p6 ->]; simpl.
  destruct (init_scene_mode_returns c p6 H7) as [p7 ->]; simpl.
  destruct (init_white_balance_returns cfg c p7 H8) as [p8 ->]; simpl.
  destruct (init_exposure_compensation_returns cfg c p8 H9) as [p9 ->]; simpl.
  destruct (init_zoom_returns cfg c p9 H10) as [p10 ->]; simpl.
  eauto.
Qed.

(** The constants of the unconditional tail. *)
Lemma init_fixed_values p :
  init_fixed p !! KEY_SUPPORTED_PREVIEW_FORMATS = Some PIXEL_FORMAT_YUV420SP /\
  init_fixed p !! KEY_SUPPORTED_PICTURE_FORMATS = Some PIXEL_FORMAT_JPEG /\
  init_fixed p !! KEY_VIDEO_FRAME_FORMAT = Some PIXEL_FORMAT_YUV420SP /\
  init_fixed p !! KEY_JPEG_QUALITY = Some "90" /\
  init_fixed p !! KEY_ROTATION = Some "0".
Proof.
  unfold init_fixed, set_int. cbv zeta.
  repeat split; rewrite ?lookup_set_ne by distinct_keys;
    (rewrite set_stores; [apply lookup_insert_eq|done..]).
Qed.

Lemma init_preview_size_format c p p' :
  init_preview_size c p = Some p' -> CCameraConfigValues.supportPreviewSize c = true ->
  p' !! KEY_PREVIEW_FORMAT = Some PIXEL_FORMAT_YUV420SP.
Proof.
  unfold init_preview_size. intros Hrun Hsup. rewrite Hsup in Hrun. open_blocks Hrun.
  unfold setPreviewFormat. rewrite set_stores; [apply lookup_insert_eq|done..].
Qed.

Lemma init_picture_size_format c p p' :
  init_picture_size c p = Some p' -> CCameraConfigValues.supportPictureSize c = true ->
  p' !! KEY_PICTURE_FORMAT = Some PIXEL_FORMAT_JPEG.
Proof.
  unfold init_picture_size. intros Hrun Hsup. rewrite Hsup in Hrun. open_blocks Hrun.
  unfold setPictureFormat. rewrite set_stores; [apply lookup_insert_eq|done..].
Qed.

Lemma init_focus_fixed c p p' :
  init_focus c p = Some p' -> CCameraConfigValues.supportFocusMode c = false ->
  p' !! KEY_FOCUS_MODE = Some FOCUS_MODE_FIXED /\
  p' !! KEY_SUPPORTED_FOCUS_MODES = Some FOCUS_MODE_FIXED /\
  p' !! KEY_FOCAL_LENGTH = Some "3.43".
Proof.
  unfold init_focus. intros Hrun Hsup. rewrite Hsup in Hrun. injection Hrun as <-.
  repeat split; rewrite ?lookup_set_ne by distinct_keys;
    (rewrite set_stores; [apply lookup_insert_eq|done..]).
Qed.

Lemma default_store_facts cfg c p p' :
  default_store cfg c p = Some p' ->
  p' !! KEY_SUPPORTED_PREVIEW_FORMATS = Some PIXEL_FORMAT_YUV420SP /\
  p' !! KEY_SUPPORTED_PICTURE_FORMATS = Some PIXEL_FORMAT_JPEG /\
  p' !! KEY_VIDEO_FRAME_FORMAT = Some PIXEL_FORMAT_YUV420SP /\
  p' !! KEY_JPEG_QUALITY = Some "90" /\
  p' !! KEY_ROTATION = Some "0" /\
  (CCameraConfigValues.supportPreviewSize c = true ->
   p' !! KEY_PREVIEW_FORMAT = Some PIXEL_FORMAT_YUV420SP) /\
  (CCameraConfigValues.supportPictureSize c = true ->
   p' !! KEY_PICTURE_FORMAT = Some PIXEL_FORMAT_JPEG) /\
  (CCameraConfigValues.supportFocusMode c = false ->
   p' !! KEY_FOCUS_MODE = Some FOCUS_MODE_FIXED /\
   p' !! KEY_SUPPORTED_FOCUS_MODES = Some FOCUS_MODE_FIXED /\
   p' !! KEY_FOCAL_LENGTH = Some "3.43").
Proof.
  intros Hstore. unfold default_store in Hstore. open_blocks Hstore.
  match goal with
  | |- context [init_fixed ?q] => destruct (init_fixed_values q) as (F1 & F2 & F3 & F4 & F5)
  end.
  do 5 (split; [assumption|]).
  split; [|split].
  - intros Hsup. skip_blocks not_among. by eapply init_preview_size_format.
  - intros Hsup. skip_blocks not_among. by eapply init_picture_size_format.
  - intros Hsup.
    destruct (init_focus_fixed _ _ _ ltac:(eassumption) Hsup) as (G1 & G2 & G3).
    repeat split; skip_blocks not_among; assumption.
Qed.

End DefaultStore.

Section InitializeFacts.

Context {D W N : Type}.
Implicit Types (s : CameraHardware.t D W N).

(** X1. With every value string of a supported field present,
    [Initialize] returns [NO_ERROR] and changes nothing but the store.
    Whatever the table says, the store then advertises [yuv420sp] as
    the only preview format and [jpeg] as the only picture format,
    holds [yuv420sp] as video frame format, JPEG quality 90 and
    rotation 0; it holds preview format [yuv420sp] when preview sizes
    are supported and picture format [jpeg] when picture sizes are;
    when focus modes are not supported the focus mode is forced to
    [fixed]; and every key outside [default_keys] is as it was. *)
Theorem Initialize_defaults c s :
  values_present (mCameraConfig s) c = true ->
  exists p',
    Initialize c s = Some (NO_ERROR, with_parameters p' s) /\
    p' !! KEY_SUPPORTED_PREVIEW_FORMATS = Some PIXEL_FORMAT_YUV420SP /\
    p' !! KEY_SUPPORTED_PICTURE_FORMATS = Some PIXEL_FORMAT_JPEG /\
    p' !! KEY_VIDEO_FRAME_FORMAT = Some PIXEL_FORMAT_YUV420SP /\
    p' !! KEY_JPEG_QUALITY = Some "90" /\
    p' !! KEY_ROTATION = Some "0" /\
    (CCameraConfigValues.supportPreviewSize c = true ->
     p' !! KEY_PREVIEW_FORMAT = Some PIXEL_FORMAT_YUV420SP) /\
    (CCameraConfigValues.supportPictureSize c = true ->
     p' !! KEY_PICTURE_FORMAT = Some PIXEL_FORMAT_JPEG) /\
    (CCameraConfigValues.supportFocusMode c = false ->
     p' !! KEY_FOCUS_MODE = Some FOCUS_MODE_FIXED /\
     p' !! KEY_SUPPORTED_FOCUS_MODES = Some FOCUS_MODE_FIXED /\
     p' !! KEY_FOCAL_LENGTH = Some "3.43") /\
    (forall k, ~ In k default_keys -> p' !! k = mParameters s !! k).
Proof.
  intros Hpresent.
  destruct (default_store_returns _ _ (mParameters s) Hpresent) as [p' Hstore].
  exists p'. split.
  { unfold Initialize, bind. rewrite initDefaultParameters_default_store, Hstore. done. }
  destruct (default_store_facts _ _ _ _ Hstore) as (F1 & F2 & F3 & F4 & F5 & F6 & F7 & F8).
  do 8 (split; [assumption|]).
  intros k. by eapply default_store_untouched.
Qed.

Lemma initDefaultParameters_blocks c s u s' :
  initDefaultParameters c s = Some (u, s') ->
  exists p', default_store (mCameraConfig s) c (mParameters s) = Some p' /\
             s' = with_parameters p' s.
Proof.
  rewrite initDefaultParameters_default_store.
  destruct (default_store _ _ _) as [p'|]; [|done]. intros [= _ <-]. eauto.
Qed.

(** X2. [Initialize] advertises nothing for an axis the capability
    table does not support: after a run that returns, the keys of an
    unsupported colour effect, flash mode, scene mode, white balance,
    exposure compensation or zoom are as they were before (absent, on
    a freshly constructed session). *)
Theorem Initialize_unsupported_axes c s res s' :
  Initialize c s = Some (res, s') ->
  let cfg := mCameraConfig s in
  let same k := mParameters s' !! k = mParameters s !! k in
  (CCameraConfig.supportColorEffect cfg = false -> Forall same color_effect_keys) /\
  (CCameraConfig.supportFlashMode cfg = false -> Forall same flash_mode_keys) /\
  (CCameraConfigValues.supportSceneMode c = false -> Forall same scene_mode_keys) /\
  (CCameraConfig.supportWhiteBalance cfg = false -> Forall same white_balance_keys) /\
  (CCameraConfig.supportExposureCompensation cfg = false -> Forall same exposure_keys) /\
  (CCameraConfig.supportZoom cfg = false -> Forall same zoom_keys).
Proof.
  unfold Initialize, bind. intros Hrun.
  destruct (initDefaultParameters c s) as [[u s1]|] eqn:Hinit; [|done].
  injection Hrun as _ <-.
  destruct (initDefaultParameters_blocks _ _ _ _ Hinit) as (p' & Hstore & ->).
  cbv zeta. simpl. unfold default_store in Hstore. open_blocks Hstore.
  repeat split; intros Hsup.
  all: match goal with
       | H : init_color_effect _ _ _ = Some _ |- Forall _ color_effect_keys =>
           unfold init_color_effect in H
       | H : init_flash_mode _ _ _ = Some _ |- Forall _ flash_mode_keys =>
           unfold init_flash_mode in H
       | H : init_scene_mode _ _ = Some _ |- Forall _ scene_mode_keys =>
           unfold init_scene_mode in H
       | H : init_white_balance _ _ _ = Some _ |- Forall _ white_balance_keys =>
           unfold init_white_balance in H
       | H : init_exposure_compensation _ _ _ = Some _ |- Forall _ exposure_keys =>
           unfold init_exposure_compensation in H
       | H : init_zoom _ _ _ = Some _ |- Forall _ zoom_keys =>
           unfold init_zoom in H
       end.
  all: match goal with
       | H : (if ?b then _ else _) = Some _ |- _ => rewrite Hsup in H; injection H as <-
       end.
  all: repeat constructor; skip_blocks not_among; reflexivity.
Qed.

End InitializeFacts.

(** ** Request sequences *)

Section SessionRules.

Context {D W N : Type}.
Context `{!V4L2CameraDevice.Ops D, !PreviewWindow.Ops W D, !CallbackNotifier.Ops N D}.

Implicit Types (s : CameraHardware.t D W N).

Local Abbreviation preserves := (preserves (D := D) (W := W) (N := N)).

Variable R : gmap string string -> gmap string string -> Prop.
Hypothesis R_refl : forall p, R p p.

Lemma preserves_win_call {A} (f : W -> A * W) ev : preserves R (win_call f ev).
Proof using R_refl.
  intros s b s'. unfold win_call. destruct (f (mPreviewWindow s)) as [a w'].
  intros [= <- <-]. simpl. auto.
Qed.

Lemma preserves_cb_call {A} (f : N -> A * N) ev : preserves R (cb_call f ev).
Proof using R_refl.
  intros s b s'. unfold cb_call. destruct (f (mCallbackNotifier s)) as [a n'].
  intros [= <- <-]. simpl. auto.
Qed.

Lemma preserves_dev_query {A} (f : D -> A) : preserves R (dev_query f).
Proof using R_refl.
  intros s b s'. unfold dev_query, bind, getCameraDevice.
  destruct (mCameraDevice s) as [d|]; [|done]. intros [= <- <-]. auto.
Qed.

Lemma preserves_onNextFramePreview frame timestamp meta :
  preserves R (onNextFramePreview frame timestamp meta).
Proof using R_refl.
  intros s b s'. unfold onNextFramePreview.
  destruct (mCameraDevice s) as [d|]; [|done].
  destruct (PreviewWindow.onNextFrameAvailable _ _ _ _ _) as [[r w'] d'].
  intros [= <- <-]. simpl. auto.
Qed.

Lemma preserves_onNextFrameCB frame timestamp meta :
  preserves R (onNextFrameCB frame timestamp meta).
Proof using R_refl.
  intros s b s'. unfold onNextFrameCB.
  destruct (mCameraDevice s) as [d|]; [|done].
  destruct (CallbackNotifier.onNextFrameAvailable _ _ _ _ _) as [n' d'].
  intros [= <- <-]. simpl. auto.
Qed.

End SessionRules.

(** [preserves_with], extended to the calls into the window and the
    notifier. *)
Ltac preserves_session refl trans leaf :=
  repeat lazymatch goal with
    | |- preserves _ (bind _ _) => apply (preserves_bind _ trans); [|intros ?]
    | |- preserves _ (pure _) => apply (preserves_pure _ refl)
    | |- preserves _ (read _) => apply (preserves_read _ refl)
    | |- preserves _ (deref _) => apply (preserves_deref _ refl)
    | |- preserves _ (dev_query _) => apply (preserves_dev_query _ refl)
    | |- preserves _ (dev_call _ _) => apply (preserves_dev_call _ refl)
    | |- preserves _ (dev_command _ _) => apply (preserves_dev_call _ refl)
    | |- preserves _ (win_query _) => apply (preserves_read _ refl)
    | |- preserves _ (win_call _ _) => apply (preserves_win_call _ refl)
    | |- preserves _ (win_command _ _) => apply (preserves_win_call _ refl)
    | |- preserves _ (cb_call _ _) => apply (preserves_cb_call _ refl)
    | |- preserves _ (cb_command _ _) => apply (preserves_cb_call _ refl)
    | |- preserves _ (onNextFramePreview _ _ _) => apply (preserves_onNextFramePreview _ refl)
    | |- preserves _ (onNextFrameCB _ _ _) => apply (preserves_onNextFrameCB _ refl)
    | |- preserves _ (set_parameters_member _) =>
        apply preserves_set_parameters_member; intros ?; leaf
    | |- preserves _ (if ?b then _ else _) => destruct b eqn:?
    | |- preserves _ (match ?o with Some _ => _ | None => _ end) => destruct o eqn:?
    | |- preserves _ (let '(_, _) := ?x in _) => destruct x eqn:?
    | |- preserves _ _ => progress cbv zeta
    end.

Section Invariants.

Context {D W N : Type}.
Context `{!V4L2CameraDevice.Ops D, !PreviewWindow.Ops W D, !CallbackNotifier.Ops N D}.

Implicit Types (s : CameraHardware.t D W N).

Local Abbreviation preserves := (preserves (D := D) (W := W) (N := N)).

Section AnyRelation.

Variable R : gmap string string -> gmap string string -> Prop.
Hypothesis R_refl : forall p, R p p.
Hypothesis R_trans : forall p1 p2 p3, R p1 p2 -> R p2 p3 -> R p1 p3.

Lemma preserves_doStopPreview : preserves R doStopPreview.
Proof using R_refl R_trans.
  unfold doStopPreview. preserves_session R_refl R_trans idtac.
Qed.

Lemma preserves_doStartPreview : preserves R doStartPreview.
Proof using R_refl R_trans.
  unfold doStartPreview. preserves_session R_refl R_trans idtac.
Qed.

Lemma preserves_cleanupCamera : preserves R cleanupCamera.
Proof using R_refl R_trans.
  unfold cleanupCamera.
  apply (preserves_bind _ R_trans); [apply preserves_doStopPreview|intros ?].
  preserves_session R_refl R_trans idtac.
Qed.

Lemma preserves_onNextFrameAvailable frame timestamp meta :
  preserves R (onNextFrameAvailable frame timestamp meta).
Proof using R_refl R_trans.
  change (onNextFrameAvailable frame timestamp meta)
    with (bind (onNextFramePreview frame timestamp meta)
            (fun ret => if negb ret then pure ret
                        else bind (onNextFrameCB frame timestamp meta) (fun _ => pure true))).
  preserves_session R_refl R_trans idtac.
Qed.

Lemma preserves_getCameraInfo info : preserves R (getCameraInfo info).
Proof using R_refl R_trans.
  unfold getCameraInfo. preserves_session R_refl R_trans idtac.
Qed.

(** The requests that never write the store. *)
Lemma preserves_serve_readers r :
  match r with SetParameters _ | TakePicture => False | _ => True end ->
  preserves R (serve r).
Proof using R_refl R_trans.
  destruct r; intros []; unfold serve, discard, startPreview, stopPreview, startRecording,
    storeMetaDataInBuffers, connectCamera, closeCamera.
  all: repeat lazymatch goal with
         | |- preserves _ doStartPreview => apply preserves_doStartPreview
         | |- preserves _ doStopPreview => apply preserves_doStopPreview
         | |- preserves _ cleanupCamera => apply preserves_cleanupCamera
         | |- preserves _ (onNextFrameAvailable _ _ _) => apply preserves_onNextFrameAvailable
         | |- preserves _ (getCameraInfo _) => apply preserves_getCameraInfo
         | |- preserves _ (bind _ _) => apply (preserves_bind _ R_trans); [|intros ?]
         | |- preserves _ _ => progress preserves_session R_refl R_trans idtac
         end.
Qed.

End AnyRelation.

Lemma preserves_takePicture k (P : string -> Prop) :
  k <> KEY_PREVIEW_SIZE -> preserves (keeps_or k P) takePicture.
Proof.
  intros Hk. unfold takePicture, doStopPreview, doStartPreview.
  preserves_session (keeps_or_refl k P) (keeps_or_trans k P)
    ltac:(unfold setPreviewSize; apply keeps_or_set_other; congruence).
Qed.

Lemma preserves_bind_deref R {A B} (o : option A) (k : A -> M D W N B) :
  (forall a, o = Some a -> preserves R (k a)) -> preserves R (bind (deref o) k).
Proof.
  intros Hk. destruct o as [a|]; [|by intros s b s'].
  intros s b s'. exact (Hk a eq_refl s b s').
Qed.

(** The only preview format [setParameters] ever stores is [yuv420sp]. *)
Lemma setParameters_preview_format p :
  preserves (keeps_or KEY_PREVIEW_FORMAT (fun v => v = PIXEL_FORMAT_YUV420SP))
    (setParameters p).
Proof.
  unfold setParameters, set_image_effect, set_white_balance,
    set_exposure_compensation, set_flash_mode, set_zoom.
  apply (preserves_bind _ (keeps_or_trans _ _)); [apply (preserves_read _ (keeps_or_refl _ _))|].
  intros [d|]; [|apply (preserves_pure _ (keeps_or_refl _ _))].
  apply preserves_bind_deref. intros fmt Hfmt. rewrite Hfmt.
  destruct (String.eqb_spec fmt PIXEL_FORMAT_YUV420SP) as [->|_]; simpl;
    [|apply (preserves_pure _ (keeps_or_refl _ _))].
  preserves_with (keeps_or_refl KEY_PREVIEW_FORMAT (fun v => v = PIXEL_FORMAT_YUV420SP))
                 (keeps_or_trans KEY_PREVIEW_FORMAT (fun v => v = PIXEL_FORMAT_YUV420SP))
                 ltac:(first [ solve [other_key_leaf]
                             | unfold setPreviewFormat, setPreviewSize;
                               eapply keeps_or_trans;
                               [|apply keeps_or_set; reflexivity];
                               apply keeps_or_set_other; distinct_keys ]).
Qed.

(** What a request may do to the store, key by key. *)
Lemma serve_untouched k r :
  ~ In k mutable_keys -> preserves (keeps_or k (fun _ => False)) (serve r).
Proof.
  intros Hk. destruct r;
    try (apply preserves_serve_readers; [apply keeps_or_refl|apply keeps_or_trans|exact I]).
  - unfold serve, discard. apply (preserves_bind _ (keeps_or_trans _ _));
      [by apply setParameters_untouched|intros ?; apply (preserves_pure _ (keeps_or_refl _ _))].
  - unfold serve, discard. apply (preserves_bind _ (keeps_or_trans _ _));
      [|intros ?; apply (preserves_pure _ (keeps_or_refl _ _))].
    apply preserves_takePicture. intros ->. apply Hk. simpl. tauto.
Qed.

Lemma serve_preview_format r :
  preserves (keeps_or KEY_PREVIEW_FORMAT (fun v => v = PIXEL_FORMAT_YUV420SP)) (serve r).
Proof.
  destruct r;
    try (apply preserves_serve_readers; [apply keeps_or_refl|apply keeps_or_trans|exact I]).
  - unfold serve, discard. apply (preserves_bind _ (keeps_or_trans _ _));
      [apply setParameters_preview_format
      |intros ?; apply (preserves_pure _ (keeps_or_refl _ _))].
  - unfold serve, discard. apply (preserves_bind _ (keeps_or_trans _ _));
      [|intros ?; apply (preserves_pure _ (keeps_or_refl _ _))].
    apply preserves_takePicture. distinct_keys.
Qed.

Lemma preserves_serve_all R rs :
  (forall p, R p p) -> (forall p1 p2 p3, R p1 p2 -> R p2 p3 -> R p1 p3) ->
  (forall r, preserves R (serve r)) -> preserves R (serve_all rs).
Proof.
  intros R_refl R_trans Hserve. induction rs as [|r rs IH]; simpl.
  - apply (preserves_pure _ R_refl).
  - apply (preserves_bind _ R_trans); [apply Hserve|intros _; exact IH].
Qed.

End Invariants.

Section Reachable.

Context {D W N : Type}.
Context `{!V4L2CameraDevice.Ops D, !PreviewWindow.Ops W D, !CallbackNotifier.Ops N D}.

Implicit Types (s : CameraHardware.t D W N).

Lemma serve_all_untouched k rs s u s' :
  ~ In k mutable_keys ->
  serve_all rs s = Some (u, s') ->
  mParameters s' !! k = mParameters s !! k /\ mCameraConfig s' = mCameraConfig s.
Proof.
  intros Hk Hrun.
  destruct (preserves_serve_all (keeps_or k (fun _ => False)) rs
              (keeps_or_refl _ _) (keeps_or_trans _ _)
              (fun r => serve_untouched k r Hk) _ _ _ Hrun) as [Hcfg [Hsame|(v & _ & [])]].
  done.
Qed.

Lemma Initialize_store c s res s1 :
  Initialize c s = Some (res, s1) ->
  res = NO_ERROR /\
  exists p1, default_store (mCameraConfig s) c (mParameters s) = Some p1 /\
             s1 = with_parameters p1 s.
Proof.
  unfold Initialize, bind. intros Hrun.
  destruct (initDefaultParameters c s) as [[u s']|] eqn:Hinit; [|done].
  injection Hrun as <- <-. split; [done|].
  by eapply initDefaultParameters_blocks.
Qed.

(** X3. On a session initialized from a table that supports preview
    and picture sizes, the formats are fixed for good: after any
    sequence of requests the preview format is [yuv420sp], the picture
    format [jpeg] and the video frame format [yuv420sp], so both
    format conversions yield NV12 and the unsupported-format exits of
    [takePicture] and [doStartPreview] are not taken. *)
Theorem session_formats_fixed c rs s0 res s1 u s2 :
  CCameraConfigValues.supportPreviewSize c = true ->
  CCameraConfigValues.supportPictureSize c = true ->
  Initialize c s0 = Some (res, s1) ->
  serve_all rs s1 = Some (u, s2) ->
  getPreviewFormat (mParameters s2) = Some PIXEL_FORMAT_YUV420SP /\
  getPictureFormat (mParameters s2) = Some PIXEL_FORMAT_JPEG /\
  get (mParameters s2) KEY_VIDEO_FRAME_FORMAT = Some PIXEL_FORMAT_YUV420SP /\
  (forall fmt, getPictureFormat (mParameters s2) = Some fmt ->
     picture_fourcc fmt = Some V4L2_PIX_FMT_NV12) /\
  (forall fmt, getPreviewFormat (mParameters s2) = Some fmt ->
     preview_fourcc fmt = Some V4L2_PIX_FMT_NV12).
Proof.
  intros Hpreview Hpicture Hinit Hrun.
  destruct (Initialize_store _ _ _ _ Hinit) as (_ & p1 & Hstore & ->).
  destruct (default_store_facts _ _ _ _ Hstore) as (_ & _ & Hvideo & _ & _ & Hpv & Hpic & _).
  specialize (Hpv Hpreview). specialize (Hpic Hpicture).
  assert (mParameters s2 !! KEY_PREVIEW_FORMAT = Some PIXEL_FORMAT_YUV420SP) as Hpf.
  { destruct (preserves_serve_all _ rs (keeps_or_refl _ _) (keeps_or_trans _ _)
                serve_preview_format _ _ _ Hrun) as [_ [Hsame|(v & Hv & ->)]]; [|done].
    rewrite Hsame. exact Hpv. }
  assert (mParameters s2 !! KEY_PICTURE_FORMAT = Some PIXEL_FORMAT_JPEG) as Hcf.
  { destruct (serve_all_untouched KEY_PICTURE_FORMAT rs _ _ _
                ltac:(not_among) Hrun) as [-> _]. exact Hpic. }
  assert (mParameters s2 !! KEY_VIDEO_FRAME_FORMAT = Some PIXEL_FORMAT_YUV420SP) as Hvf.
  { destruct (serve_all_untouched KEY_VIDEO_FRAME_FORMAT rs _ _ _
                ltac:(not_among) Hrun) as [-> _]. exact Hvideo. }
  unfold getPreviewFormat, getPictureFormat, get. rewrite Hpf, Hcf, Hvf. simpl.
  repeat split; by intros fmt [= <-].
Qed.

(** X4. Whatever requests a client makes and whatever frame events
    arrive, a run that returns leaves the capability table alone and
    changes the store under [mutable_keys] only: the advertised value
    sets, the exposure and zoom limits, the picture format, the video
    size and the focus and scene modes stay as they were. *)
Theorem requests_change_only_mutable_keys rs s u s' :
  serve_all rs s = Some (u, s') ->
  mCameraConfig s' = mCameraConfig s /\
  forall k, In k mutable_keys \/ mParameters s' !! k = mParameters s !! k.
Proof.
  intros Hrun. split.
  - assert (~ In FACING_KEY mutable_keys) as Hk by not_among.
    exact (proj2 (serve_all_untouched _ _ _ _ _ Hk Hrun)).
  - intros k. destruct (in_dec string_dec k mutable_keys) as [Hin|Hout]; [by left|right].
    exact (proj1 (serve_all_untouched _ _ _ _ _ Hout Hrun)).
Qed.

(** X5. No method writes [prop-facing] or [prop-orientation]: on a
    session whose store did not hold them at construction,
    [getCameraInfo] reports the back camera and orientation 0 after
    [Initialize] and any sequence of requests, whatever [info] held,
    and leaves the session as it is. *)
Theorem getCameraInfo_reports_back c rs s0 res s1 u s2 info :
  mParameters s0 !! FACING_KEY = None ->
  mParameters s0 !! ORIENTATION_KEY = None ->
  Initialize c s0 = Some (res, s1) ->
  serve_all rs s1 = Some (u, s2) ->
  getCameraInfo info s2
  = Some ((NO_ERROR, CameraInfo.Build CameraInfo.CAMERA_FACING_BACK 0), s2).
Proof.
  intros Hfacing Horientation Hinit Hrun.
  destruct (Initialize_store _ _ _ _ Hinit) as (_ & p1 & Hstore & ->).
  assert (mParameters s2 !! FACING_KEY = None) as Hf.
  { destruct (serve_all_untouched FACING_KEY rs _ _ _ ltac:(not_among) Hrun) as [-> _].
    simpl. erewrite default_store_untouched; [exact Hfacing|exact Hstore|not_among]. }
  assert (mParameters s2 !! ORIENTATION_KEY = None) as Ho.
  { destruct (serve_all_untouched ORIENTATION_KEY rs _ _ _ ltac:(not_among) Hrun) as [-> _].
    simpl. erewrite default_store_untouched; [exact Horientation|exact Hstore|not_among]. }
  unfold getCameraInfo, bind, read, pure, get. by rewrite Hf, Ho.
Qed.

End Reachable.

(** ** Teardown, preview start and still capture *)

Section Teardown.

Context {D W N : Type}.
Context `{!V4L2CameraDevice.Ops D, !PreviewWindow.Ops W D, !CallbackNotifier.Ops N D}.

Implicit Types (s : CameraHardware.t D W N) (d : D).


End Teardown.

Section TeardownTheorem.

Context {D W N : Type}.
Context `{!V4L2CameraDevice.Ops D, !PreviewWindow.Ops W D, !CallbackNotifier.Ops N D}.

Implicit Types (s : CameraHardware.t D W N) (d : D).


End TeardownTheorem.

Section PreviewSuccess.

Context {D W N : Type}.
Context `{!V4L2CameraDevice.Ops D, !PreviewWindow.Ops W D, !CallbackNotifier.Ops N D}.
Context `{!StreamContract D W}.

Implicit Types (s : CameraHardware.t D W N) (d : D).

Lemma doStartPreview_ok_outcome s d :
  mCameraDevice s = Some d ->
  returns doStartPreview
    (fun res s' =>
       exists more, calls s' = calls s ++ more /\
         (res = NO_ERROR ->
          exists tag fmt,
            let size := preview_frame_size (mParameters s) in
            [DevStartDevice size.1 size.2 fmt NO_ERROR;
             DevStartDeliveringFrames false NO_ERROR] `suffix_of` more /\
            In (WinStartPreview NO_ERROR) more /\
            ~ In WinStopPreview more /\
            preview_frame_format (mParameters s) = Some tag /\
            preview_fourcc tag = Some fmt /\
            PreviewWindow.isPreviewEnabled (mPreviewWindow s') = true /\
            exists d', mCameraDevice s' = Some d' /\ V4L2CameraDevice.isStarted d' = true)) s.
Proof.
  intros Hd. unfold doStartPreview. exec.
  all: eexists; (split; [simpl; rewrite <- ?app_assoc; reflexivity|]).
  all: simpl in *;
    rewrite ?negb_true_iff, ?negb_false_iff, ?Z.eqb_eq, ?Z.eqb_neq in *.
  all: intros Hres; try congruence; try discriminate Hres.
  all: rewrite preview_frame_format_eq in *.
  all: unfold preview_frame_size; cbv zeta.
  all: repeat match goal with
              | H : ?x = NO_ERROR |- context [?x] => rewrite H
              | H : _ = (_, _) |- _ => rewrite H
              end; simpl.
  all: eexists _, _.
  all: split; [repeat first [reflexivity | apply suffix_cons_r]|].
  all: split; [simpl; tauto|].
  all: split; [intros Hin; simpl in Hin; intuition discriminate|].
  all: split; [eassumption|].
  all: split; [eassumption|].
  all: split; [by apply startPreview_enables|].
  all: eexists; (split; [reflexivity|]).
  all: rewrite startDeliveringFrames_keeps_stream.
  all: by apply startDevice_starts.
Qed.

End PreviewSuccess.

Section PreviewTheorems.

Context {D W N : Type}.
Context `{!V4L2CameraDevice.Ops D, !PreviewWindow.Ops W D, !CallbackNotifier.Ops N D}.
Context `{!DeviceContract D, !WindowContract W D, !StreamContract D W}.

Implicit Types (s : CameraHardware.t D W N) (d : D).

(** X7. A [startPreview] on a bound device that succeeds has started
    the window, has not stopped it again, and ends with the device
    start and the start of frame delivery, both successful; the device
    was started with [preview_frame_size] and the FOURCC of
    [preview_frame_format].  Under [StreamContract] the window then
    reports itself enabled and the device started. *)
Theorem startPreview_success s d :
  mCameraDevice s = Some d ->
  exists res s' more,
    doStartPreview s = Some (res, s') /\
    startPreview s = Some (neg32 res, s') /\
    calls s' = calls s ++ more /\
    (res = NO_ERROR ->
     exists tag fmt,
       let size := preview_frame_size (mParameters s) in
       [DevStartDevice size.1 size.2 fmt NO_ERROR;
        DevStartDeliveringFrames false NO_ERROR] `suffix_of` more /\
       In (WinStartPreview NO_ERROR) more /\
       ~ In WinStopPreview more /\
       preview_frame_format (mParameters s) = Some tag /\
       preview_fourcc tag = Some fmt /\
       PreviewWindow.isPreviewEnabled (mPreviewWindow s') = true /\
       exists d', mCameraDevice s' = Some d' /\ V4L2CameraDevice.isStarted d' = true).
Proof.
  intros Hd.
  destruct (outcome_returns _ _ _ _ (doStartPreview_ok_outcome s d Hd))
    as (res & s' & Hrun & more & Hcalls & Hok); [tauto|].
  exists res, s', more. split; [done|]. split; [|done].
  unfold startPreview, bind. by rewrite Hrun.
Qed.

(** X8. A successful [doStartPreview] followed by [doStopPreview]:
    the stop issues stop-delivery and a device stop, and, when that stop
    succeeds, disables the window; under the collaborator contracts
    window and device are then back to idle, and the store is what it
    was before the start.  When the device stop fails the window is
    left as the start made it. *)
Theorem preview_start_stop_round_trip s d s1 :
  mCameraDevice s = Some d ->
  doStartPreview s = Some (NO_ERROR, s1) ->
  exists r s2,
    doStopPreview s1 = Some (NO_ERROR, s2) /\
    calls s2 = calls s1 ++ [DevStopDeliveringFrames; DevStopDevice r] ++
               (if r =? NO_ERROR then [WinStopPreview] else []) /\
    mParameters s2 = mParameters s /\
    if r =? NO_ERROR then
      PreviewWindow.isPreviewEnabled (mPreviewWindow s2) = false /\
      exists d2, mCameraDevice s2 = Some d2 /\ V4L2CameraDevice.isStarted d2 = false
    else
      mPreviewWindow s2 = mPreviewWindow s1.
Proof.
  intros Hd Hstart.
  destruct (outcome_elim _ _ _ _ _ _ (doStartPreview_ok_outcome s d Hd) Hstart)
    as (more & _ & Hok).
  destruct (Hok eq_refl) as (_ & _ & _ & _ & _ & _ & _ & Hon & d1 & Hd1 & Hstarted).
  destruct (outcome_elim _ _ _ _ _ _ (doStartPreview_advances s d Hd) Hstart)
    as (Hpar & _).
  pose proof (doStopPreview_cases s1) as Hstop.
  rewrite Hon, Hd1, Hstarted in Hstop. cbv zeta in Hstop.
  pose proof (stopDevice_stops (V4L2CameraDevice.stopDeliveringFrames d1)) as Hstops.
  destruct (V4L2CameraDevice.stopDevice (V4L2CameraDevice.stopDeliveringFrames d1))
    as [r d2] eqn:Hr. simpl in Hstop, Hstops.
  eexists r, _. split; [exact Hstop|].
  destruct (Z.eqb_spec r NO_ERROR) as [Hzero|Hfail]; simpl; rewrite <- ?app_assoc.
  - split; [reflexivity|]. split; [exact Hpar|]. split; [apply stopPreview_disables|].
    exists d2. split; [reflexivity|]. by apply Hstops.
  - split; [reflexivity|]. split; [exact Hpar|]. reflexivity.
Qed.

End PreviewTheorems.

Section PictureFlag.

Context {D W N : Type}.
Context `{!V4L2CameraDevice.Ops D, !PreviewWindow.Ops W D, !CallbackNotifier.Ops N D}.

Implicit Types (s : CameraHardware.t D W N) (d : D).

Lemma doStopPreview_quiet s d :
  mCameraDevice s = Some d -> returns doStopPreview (fun _ s' => quiet s s') s.
Proof.
  intros Hd. unfold doStopPreview. exec.
  all: split; [reflexivity|]; split; [reflexivity|]; split; [|simpl; eauto].
  all: eexists; split; [simpl; rewrite <- ?app_assoc; try reflexivity|].
  all: try (symmetry; apply app_nil_r).
  all: reflexivity.
Qed.

Lemma doStartPreview_quiet s d :
  mCameraDevice s = Some d -> returns doStartPreview (fun _ s' => quiet s s') s.
Proof.
  intros Hd. unfold doStartPreview. exec.
  all: split; [reflexivity|]; split; [reflexivity|]; split; [|simpl; eauto].
  all: eexists; split; [simpl; rewrite <- ?app_assoc; reflexivity|].
  all: reflexivity.
Qed.

Lemma getInt_setPreviewSize (p : gmap string string) w h k :
  k <> KEY_PREVIEW_SIZE -> getInt (setPreviewSize p w h) k = getInt p k.
Proof. intros Hk. unfold getInt, setPreviewSize. by rewrite get_set_ne. Qed.

Lemma takePicture_notifier_outcome s d fmt :
  mCameraDevice s = Some d ->
  getPictureFormat (mParameters s) = Some fmt ->
  returns takePicture
    (fun res s' =>
       exists more, calls s' = calls s ++ more /\
         let stored := getInt (mParameters s) KEY_JPEG_QUALITY in
         let quality := if stored <=? 0 then 90 else stored in
         let n := mCallbackNotifier s in
         let armed :=
           CallbackNotifier.setTakingPicture true (CallbackNotifier.setJpegQuality quality n) in
         if res =? NO_ERROR then
           List.filter is_notifier_call more
           = [CbSetJpegQuality quality; CbSetTakingPicture true] /\
           mCallbackNotifier s' = armed
         else
           (List.filter is_notifier_call more = [] /\ mCallbackNotifier s' = n) \/
           (List.filter is_notifier_call more
            = [CbSetJpegQuality quality; CbSetTakingPicture true; CbSetTakingPicture false] /\
            mCallbackNotifier s' = CallbackNotifier.setTakingPicture false armed)) s.
Proof.
  intros Hd Hfmt. unfold takePicture.
  apply outcome_bind, outcome_read.
  destruct (getPictureSize (mParameters s)) as [pw ph] eqn:Hpic. simpl.
  apply outcome_bind. eapply outcome_dev_call; [eassumption|].
  destruct (V4L2CameraDevice.tryFmtSize pw ph d) as [[r [fw fh]] d1] eqn:Htry. simpl.
  repeat first
    [ exec_step
    | lazymatch goal with
      | |- outcome _ doStopPreview _ _ =>
          eapply outcome_use;
          [ eapply doStopPreview_quiet; simpl; first [eassumption | reflexivity]
          | let s' := fresh "s'" in
            let Hp := fresh "Hp" in let Hn := fresh "Hn" in
            let more := fresh "more" in let Hm := fresh "Hm" in let Hf := fresh "Hf" in
            let d' := fresh "d'" in let Hd := fresh "Hd" in
            intros _ s' (Hp & Hn & (more & Hm & Hf) & [d' Hd]); simpl in Hp, Hn, Hm ]
      | |- outcome _ doStartPreview _ _ =>
          eapply outcome_use;
          [ eapply doStartPreview_quiet; simpl; first [eassumption | reflexivity]
          | let s' := fresh "s'" in
            let Hp := fresh "Hp" in let Hn := fresh "Hn" in
            let more := fresh "more" in let Hm := fresh "Hm" in let Hf := fresh "Hf" in
            let d' := fresh "d'" in let Hd := fresh "Hd" in
            intros _ s' (Hp & Hn & (more & Hm & Hf) & [d' Hd]); simpl in Hp, Hn, Hm ]
      end ].
  all: try (simpl in *; rewrite getPictureFormat_setPreviewSize in *; congruence).
  all: eexists; (split; [chain_calls; reflexivity|]).
  all: cbv zeta; simpl in *.
  all: rewrite ?getInt_setPreviewSize in * by distinct_keys.
  all: rewrite ?negb_true_iff, ?negb_false_iff in *.
  all: rewrite ?List.filter_app; simpl.
  all: repeat match goal with
              | H : List.filter _ ?m = [] |- context [List.filter _ ?m] => rewrite H
              end; simpl; rewrite ?app_nil_r.
  all: repeat match goal with
              | H : (?x =? NO_ERROR) = _ |- context [?x =? NO_ERROR] => rewrite H
              end.
  all: repeat match goal with
              | H : mCallbackNotifier ?x = _ |- context [mCallbackNotifier ?x] =>
                  rewrite H; simpl
              end.
  all: first [ split; reflexivity | left; split; reflexivity | right; split; reflexivity ].
Qed.

End PictureFlag.

Section PictureTheorem.

Context {D W N : Type}.
Context `{!V4L2CameraDevice.Ops D, !PreviewWindow.Ops W D, !CallbackNotifier.Ops N D}.

Implicit Types (s : CameraHardware.t D W N) (d : D).

(** X9. What [takePicture] tells the notifier.  The JPEG quality it
    uses is positive: the stored one, or 90 when that is absent or not
    positive.  On success the notifier has been sent exactly that
    quality and taking-picture [true].  On failure it has been sent
    either nothing, or the quality, [true] and then [false]: the flag
    is never left set by a failed call. *)
Theorem takePicture_arms_notifier s d fmt :
  mCameraDevice s = Some d ->
  getPictureFormat (mParameters s) = Some fmt ->
  let stored := getInt (mParameters s) KEY_JPEG_QUALITY in
  let quality := if stored <=? 0 then 90 else stored in
  let n := mCallbackNotifier s in
  let armed :=
    CallbackNotifier.setTakingPicture true (CallbackNotifier.setJpegQuality quality n) in
  0 < quality /\
  exists res s' more,
    takePicture s = Some (res, s') /\
    calls s' = calls s ++ more /\
    if res =? NO_ERROR then
      List.filter is_notifier_call more
      = [CbSetJpegQuality quality; CbSetTakingPicture true] /\
      mCallbackNotifier s' = armed
    else
      (List.filter is_notifier_call more = [] /\ mCallbackNotifier s' = n) \/
      (List.filter is_notifier_call more
       = [CbSetJpegQuality quality; CbSetTakingPicture true; CbSetTakingPicture false] /\
       mCallbackNotifier s' = CallbackNotifier.setTakingPicture false armed).
Proof.
  intros Hd Hfmt. cbv zeta. split.
  { destruct (Z.leb_spec (getInt (mParameters s) KEY_JPEG_QUALITY) 0); lia. }
  destruct (outcome_returns _ _ _ _ (takePicture_notifier_outcome s d fmt Hd Hfmt))
    as (res & s' & Hrun & more & Hcalls & Hflags); [tauto|].
  exists res, s', more. done.
Qed.

Lemma partial_any {A} (m : M D W N A) (Q : A -> CameraHardware.t D W N -> Prop) s :
  (forall a s', Q a s') -> partial m Q s.
Proof. intros HQ. unfold outcome. by destruct (m s) as [[a s']|]. Qed.

Lemma setParameters_outcome_cases p s :
  partial (setParameters p)
    (fun res s' =>
       let candidate := unflatten p in
       (res = NO_ERROR /\ is_Some (mCameraDevice s) /\
        getPreviewFormat candidate = Some PIXEL_FORMAT_YUV420SP /\
        getPictureFormat candidate = Some PIXEL_FORMAT_JPEG) \/
       (res = UNKNOWN_ERROR /\ mCameraDevice s = None /\ s' = s) \/
       (res = BAD_TYPE /\ s' = s /\
        (getPreviewFormat candidate <> Some PIXEL_FORMAT_YUV420SP \/
         getPictureFormat candidate <> Some PIXEL_FORMAT_JPEG)) \/
       (res < 0 /\
        exists adjusted,
          calls s' = calls s ++ [DevTryFmtSize (getPreviewSize candidate).1
                                   (getPreviewSize candidate).2 res adjusted] /\
          forall k, k <> KEY_PICTURE_SIZE -> mParameters s' !! k = mParameters s !! k)) s.
Proof.
  unfold setParameters. cbv zeta.
  apply outcome_bind, outcome_read.
  destruct (mCameraDevice s) as [d|] eqn:Hd; [|by apply outcome_pure; right; left].
  apply outcome_bind, outcome_deref; [intros preview_format Hpv|done].
  destruct (String.eqb_spec preview_format PIXEL_FORMAT_YUV420SP) as [->|Hne]; simpl.
  2: { apply outcome_pure. right. right. left. split; [done|]. split; [done|].
       left. congruence. }
  apply outcome_bind, outcome_deref; [intros picture_format Hpic|done].
  destruct (String.eqb_spec picture_format PIXEL_FORMAT_JPEG) as [->|Hne]; simpl.
  2: { apply outcome_pure. right. right. left. split; [done|]. split; [done|].
       right. congruence. }
  destruct (getPictureSize _) as [npw nph].
  destruct (getPreviewSize _) as [nw nh]. simpl.
  rewrite Hpv.
  apply outcome_bind.
  assert (forall (Q : unit -> CameraHardware.t D W N -> Prop),
            (forall s1, mCameraDevice s1 = Some d -> calls s1 = calls s ->
               (forall k, k <> KEY_PICTURE_SIZE -> mParameters s1 !! k = mParameters s !! k) ->
               Q tt s1) ->
            partial
              (if (0 <? npw) && (0 <? nph)
               then set_parameters_member (fun p0 => setPictureSize p0 npw nph)
               else pure tt) Q s) as Hsize.
  { intros Q HQ. destruct (_ && _).
    - apply outcome_set_parameters_member, HQ; [done..|].
      intros k Hk. simpl. unfold setPictureSize. by rewrite lookup_set_ne.
    - by apply outcome_pure, HQ. }
  apply Hsize; clear Hsize. intros s1 Hd1 Hcalls1 Hsame1.
  apply outcome_bind.
  destruct (_ && _).
  - apply outcome_bind. eapply outcome_dev_call; [eassumption|].
    destruct (V4L2CameraDevice.tryFmtSize nw nh d) as [[r [fw fh]] d2]. simpl.
    destruct (r <? 0) eqn:Hneg.
    + do 2 apply outcome_pure. right. right. right.
      split; [lia|]. eexists. simpl. rewrite Hcalls1. split; [reflexivity|exact Hsame1].
    + apply outcome_bind, outcome_set_parameters_member, outcome_pure.
      repeat (apply outcome_bind, partial_any; intros ? ?).
      apply outcome_pure. left. eauto.
  - apply outcome_pure.
    repeat (apply outcome_bind, partial_any; intros ? ?).
    apply outcome_pure. left. eauto.
Qed.

(** X10. The statuses of [setParameters].  A call that returns gives
    [NO_ERROR], and then a device is bound and the candidate's formats
    are [yuv420sp] and [jpeg]; or [UNKNOWN_ERROR] for a null device, the
    session untouched; or [BAD_TYPE] for a candidate with another
    preview or picture format, the session untouched; or the negative
    status of the driver's [tryFmtSize], which is then the only command
    issued, with nothing but the picture size changed in the store.
    No other failure is reported: once the size is negotiated the call
    returns [NO_ERROR]. *)
Theorem setParameters_status p s res s' :
  setParameters p s = Some (res, s') ->
  let candidate := unflatten p in
  (res = NO_ERROR /\ is_Some (mCameraDevice s) /\
   getPreviewFormat candidate = Some PIXEL_FORMAT_YUV420SP /\
   getPictureFormat candidate = Some PIXEL_FORMAT_JPEG) \/
  (res = UNKNOWN_ERROR /\ mCameraDevice s = None /\ s' = s) \/
  (res = BAD_TYPE /\ s' = s /\
   (getPreviewFormat candidate <> Some PIXEL_FORMAT_YUV420SP \/
    getPictureFormat candidate <> Some PIXEL_FORMAT_JPEG)) \/
  (res < 0 /\
   exists adjusted,
     calls s' = calls s ++ [DevTryFmtSize (getPreviewSize candidate).1
                              (getPreviewSize candidate).2 res adjusted] /\
     forall k, k <> KEY_PICTURE_SIZE -> mParameters s' !! k = mParameters s !! k).
Proof.
  intros Hrun. exact (outcome_elim _ _ _ _ _ _ (setParameters_outcome_cases p s) Hrun).
Qed.

End PictureTheorem.

(** ** What [setParameters] commits for quality, rotation and sizes *)

Section Bounds.

Context {D W N : Type}.
Context `{!V4L2CameraDevice.Ops D, !PreviewWindow.Ops W D, !CallbackNotifier.Ops N D}.

Implicit Types (s : CameraHardware.t D W N).

Variable p : string.

Lemma setParameters_jpeg_quality (P : string -> Prop) :
  (let q := getInt (unflatten p) KEY_JPEG_QUALITY in
   1 <= q <= 100 -> P (CString.print_int q)) ->
  preserves (D := D) (W := W) (N := N) (keeps_or KEY_JPEG_QUALITY P) (setParameters p).
Proof.
  intros HP.
  unfold setParameters, set_image_effect, set_white_balance,
    set_exposure_compensation, set_flash_mode, set_zoom.
  preserves_with (keeps_or_refl KEY_JPEG_QUALITY P) (keeps_or_trans KEY_JPEG_QUALITY P)
                 ltac:(first [ solve [other_key_leaf]
                             | unfold set_int; apply keeps_or_set, HP; lia ]).
Qed.

Lemma setParameters_rotation (P : string -> Prop) :
  (let r := getInt (unflatten p) KEY_ROTATION in 0 <= r -> P (CString.print_int r)) ->
  preserves (D := D) (W := W) (N := N) (keeps_or KEY_ROTATION P) (setParameters p).
Proof.
  intros HP.
  unfold setParameters, set_image_effect, set_white_balance,
    set_exposure_compensation, set_flash_mode, set_zoom.
  preserves_with (keeps_or_refl KEY_ROTATION P) (keeps_or_trans KEY_ROTATION P)
                 ltac:(first [ solve [other_key_leaf]
                             | unfold set_int; apply keeps_or_set, HP; lia ]).
Qed.

Lemma setParameters_picture_size (P : string -> Prop) :
  (forall w h, getPictureSize (unflatten p) = (w, h) -> 0 < w -> 0 < h ->
               P (print_size w h)) ->
  preserves (D := D) (W := W) (N := N) (keeps_or KEY_PICTURE_SIZE P) (setParameters p).
Proof.
  intros HP.
  unfold setParameters, set_image_effect, set_white_balance,
    set_exposure_compensation, set_flash_mode, set_zoom.
  preserves_with (keeps_or_refl KEY_PICTURE_SIZE P) (keeps_or_trans KEY_PICTURE_SIZE P)
                 ltac:(first [ solve [other_key_leaf]
                             | unfold setPictureSize; apply keeps_or_set, HP;
                               [first [reflexivity|assumption]|lia|lia] ]).
Qed.

(** X11. What [setParameters] may commit for JPEG quality, rotation,
    picture size and preview format: a stored JPEG quality that
    changed is the candidate's and lies in 1..100, a changed rotation
    is the candidate's and is not negative, a changed picture size is
    the candidate's with both dimensions positive, and a changed
    preview format is [yuv420sp]. *)
Theorem setParameters_bounds s res s' :
  setParameters p s = Some (res, s') ->
  let candidate := unflatten p in
  let old := mParameters s in
  let new := mParameters s' in
  keeps_or KEY_JPEG_QUALITY
    (fun v => v = CString.print_int (getInt candidate KEY_JPEG_QUALITY) /\
              1 <= getInt candidate KEY_JPEG_QUALITY <= 100) old new /\
  keeps_or KEY_ROTATION
    (fun v => v = CString.print_int (getInt candidate KEY_ROTATION) /\
              0 <= getInt candidate KEY_ROTATION) old new /\
  keeps_or KEY_PICTURE_SIZE
    (fun v => v = print_size (getPictureSize candidate).1 (getPictureSize candidate).2 /\
              0 < (getPictureSize candidate).1 /\ 0 < (getPictureSize candidate).2)
    old new /\
  keeps_or KEY_PREVIEW_FORMAT (fun v => v = PIXEL_FORMAT_YUV420SP) old new.
Proof.
  intros Hrun. cbv zeta. split; [|split; [|split]].
  - eapply setParameters_jpeg_quality; [|exact Hrun]. cbv zeta. auto.
  - eapply setParameters_rotation; [|exact Hrun]. cbv zeta. auto.
  - eapply setParameters_picture_size; [|exact Hrun]. by intros w h ->.
  - eapply setParameters_preview_format. exact Hrun.
Qed.

End Bounds.

(** ** The helpers and the heap *)

Section HeapFacts.

Lemma overwrite_all (src dst : list ascii) :
  length src = length dst -> Heap.overwrite src dst = src.
Proof.
  revert dst. induction src as [|c src IH]; intros [|x dst]; simpl; try done.
  intros [= Hlen]. by rewrite IH.
Qed.

Lemma overwrite_prefix (src dst rest : list ascii) :
  length src = length dst -> Heap.overwrite src (dst ++ rest) = src ++ rest.
Proof.
  revert dst. induction src as [|c src IH]; intros [|x dst]; simpl; try done.
  intros [= Hlen]. by rewrite IH.
Qed.

Lemma length_list_ascii (s : string) : length (list_ascii_of_string s) = String.length s.
Proof. induction s as [|c s IH]; simpl; [done|by rewrite IH]. Qed.

Lemma until_nul_terminated (s : string) (rest : list ascii) :
  CString.contains Heap.nul s = false ->
  Heap.until_nul (list_ascii_of_string s ++ Heap.nul :: rest) = s.
Proof.
  induction s as [|c s IH]; [done|].
  cbn [CString.contains list_ascii_of_string app Heap.until_nul].
  destruct (Ascii.eqb c Heap.nul); [done|].
  cbn [orb]. intros Hs. by rewrite IH.
Qed.

Lemma take_padded (s : string) (n : nat) :
  take (String.length s + S n) (list_ascii_of_string s ++ replicate (String.length s + S n) Heap.nul)
  = list_ascii_of_string s ++ Heap.nul :: replicate n Heap.nul.
Proof.
  rewrite <- (length_list_ascii s) at 1.
  rewrite take_app_add'; [|done].
  f_equal. replace (String.length s + S n)%nat with (S n + String.length s)%nat by lia.
  rewrite replicate_add, take_app_length'; [done|by rewrite length_replicate].
Qed.

Section RoundTrip.

Context {D W N : Type}.
Implicit Types (s : CameraHardware.t D W N).

(** X12. With room on the heap for the flattened store and its
    terminator, [getParameters] returns a fresh block that reads back
    as the flattened store, charges the heap with its size and leaves
    the other blocks alone; [putParameters] on that block gives the
    room back and restores the blocks. *)
Theorem getParameters_putParameters_round_trip s (h : Heap.t) :
  let params := flatten (mParameters s) in
  let size := (N.of_nat (String.length params) + 1)%N in
  (size <= Heap.room h)%N ->
  Heap.blocks h !! Heap.next h = None ->
  CString.contains Heap.nul params = false ->
  exists h1,
    getParameters s h = Some (Heap.Block (Heap.next h), h1) /\
    Heap.c_str (Heap.Block (Heap.next h)) h1 = Some params /\
    Heap.room h1 = (Heap.room h - size)%N /\
    (forall a, a <> Heap.next h -> Heap.blocks h1 !! a = Heap.blocks h !! a) /\
    putParameters (Heap.Block (Heap.next h)) h1
    = Some (Heap.Build (Heap.blocks h) (Heap.room h) (Heap.next h + 1)).
Proof.
  cbv zeta. intros Hroom Hfresh Hnul.
  unfold getParameters, Heap.malloc.
  destruct (N.leb_spec (N.of_nat (String.length (flatten (mParameters s))) + 1)
              (Heap.room h)) as [_|Hlt]; [|lia].
  set (params := flatten (mParameters s)) in *.
  replace (N.to_nat (N.of_nat (String.length params) + 1))
    with (String.length params + 1)%nat by lia.
  unfold Heap.memset, Heap.strncpy, Heap.store. simpl.
  replace (N.to_nat (N.of_nat (String.length params) + 1))
    with (String.length params + 1)%nat by lia.
  rewrite lookup_insert_eq. rewrite !length_replicate, Nat.leb_refl. simpl.
  rewrite lookup_insert_eq.
  rewrite overwrite_all by (by rewrite !length_replicate).
  rewrite take_padded. simpl.
  rewrite length_replicate, length_app, length_list_ascii. simpl.
  replace (String.length params + 1 <=? String.length params + 1)%nat with true
    by (symmetry; apply Nat.leb_refl).
  eexists. split; [reflexivity|]. simpl.
  rewrite lookup_insert_eq. simpl.
  rewrite overwrite_all
    by (rewrite length_app, length_replicate, length_list_ascii; simpl; lia).
  split; [by rewrite until_nul_terminated|].
  split; [reflexivity|].
  split; [intros a Ha; by rewrite !lookup_insert_ne|].
  unfold putParameters, Heap.free. simpl. rewrite lookup_insert_eq.
  f_equal. f_equal.
  - rewrite !insert_insert_eq, delete_insert_eq. by apply delete_id.
  - rewrite length_app, length_list_ascii. simpl. lia.
Qed.

End RoundTrip.

End HeapFacts.

Section AddValueFacts.

Lemma overwrite_at_middle (off : nat) (pre mid post bytes : list ascii) :
  off = length pre -> length bytes = length mid ->
  overwrite_at off bytes (pre ++ mid ++ post) = pre ++ bytes ++ post.
Proof.
  intros -> Hlen. induction pre as [|c pre IH].
  - change (overwrite_at (length []) bytes ([] ++ mid ++ post))
      with (Heap.overwrite bytes (mid ++ post)).
    rewrite app_nil_l. by apply overwrite_prefix.
  - simpl. by rewrite IH.
Qed.

Lemma take_until_nul (l : list ascii) :
  take (String.length (Heap.until_nul l)) l = list_ascii_of_string (Heap.until_nul l).
Proof.
  induction l as [|c l IH]; simpl; [done|].
  destruct (Ascii.eqb c Heap.nul); simpl; [done|]. by rewrite IH.
Qed.

Lemma until_nul_no_nul (l : list ascii) :
  CString.contains Heap.nul (Heap.until_nul l) = false.
Proof.
  induction l as [|c l IH]; simpl; [done|].
  destruct (Ascii.eqb c Heap.nul) eqn:Hc; simpl; [done|]. by rewrite Hc.
Qed.

Lemma list_ascii_app (a b : string) :
  list_ascii_of_string (a +:+ b) = list_ascii_of_string a ++ list_ascii_of_string b.
Proof. induction a as [|c a IH]; simpl; [done|by rewrite IH]. Qed.

Lemma store_at_block a off bytes blocks room next old :
  blocks !! a = Some old ->
  (off + length bytes <= length old)%nat ->
  store_at (Heap.Block a) off bytes (Heap.Build blocks room next)
  = Some (Heap.Build (<[a := overwrite_at off bytes old]> blocks) room next).
Proof.
  intros Hold Hfit. unfold store_at. simpl. rewrite Hold.
  by destruct (Nat.leb_spec (off + length bytes) (length old)); [|lia].
Qed.

Lemma store_at_middle a off bytes blocks room next pre mid post :
  blocks !! a = Some (pre ++ mid ++ post) ->
  off = length pre -> length bytes = length mid ->
  store_at (Heap.Block a) off bytes (Heap.Build blocks room next)
  = Some (Heap.Build (<[a := pre ++ bytes ++ post]> blocks) room next).
Proof.
  intros Hold Hoff Hlen. erewrite store_at_block; [|exact Hold|].
  - by rewrite overwrite_at_middle.
  - rewrite !length_app. lia.
Qed.

Lemma memcpy_strlen p off src h :
  memcpy p off src (strlen src) h = store_at p off (list_ascii_of_string (c_string src)) h.
Proof. unfold memcpy, strlen, c_string. by rewrite take_until_nul. Qed.

Lemma unwritten_block (n m : nat) :
  replicate (n + m + 2) "?"%char
  = [] ++ replicate n "?"%char ++ (["?"%char] ++ replicate m "?"%char ++ ["?"%char]).
Proof.
  replace (n + m + 2)%nat with (n + (1 + (m + 1)))%nat by lia.
  by rewrite !replicate_add.
Qed.

(** X13. [AddValue(param, val)]: with room for both strings, the
    comma and the terminator it returns a fresh block that reads
    [param,val] and leaves the other blocks alone; without room it
    returns null and leaves the heap as it is - it tests the pointer
    before writing through it. *)
Theorem AddValue_builds_pair param val (h : Heap.t) :
  let size := N.of_nat (strlen param + strlen val + 2) in
  if (size <=? Heap.room h)%N then
    exists h',
      AddValue param val h = Some (Heap.Block (Heap.next h), h') /\
      Heap.c_str (Heap.Block (Heap.next h)) h'
      = Some (c_string param +:+ "," +:+ c_string val) /\
      Heap.room h' = (Heap.room h - size)%N /\
      Heap.next h' = (Heap.next h + 1)%N /\
      forall a, a <> Heap.next h -> Heap.blocks h' !! a = Heap.blocks h !! a
  else AddValue param val h = Some (Heap.NULL, h).
Proof.
  cbv zeta. unfold AddValue, Heap.malloc. cbv zeta.
  destruct (N.leb_spec (N.of_nat (strlen param + strlen val + 2)) (Heap.room h))
    as [Hfits|_]; [|reflexivity].
  cbn [negb Heap.ptr_eqb]. rewrite Nat2N.id, memcpy_strlen.
  set (c1 := list_ascii_of_string (c_string param)).
  set (c2 := list_ascii_of_string (c_string val)).
  assert (length c1 = strlen param) as Hl1 by apply length_list_ascii.
  assert (length c2 = strlen val) as Hl2 by apply length_list_ascii.
  rewrite unwritten_block.
  erewrite store_at_middle;
    [|apply lookup_insert_eq|done|by rewrite length_replicate].
  cbn [mbind option_bind].
  erewrite (store_at_middle _ _ _ _ _ _ c1 ["?"%char]);
    [|apply lookup_insert_eq|done|done].
  cbn [mbind option_bind]. rewrite memcpy_strlen. fold c2.
  erewrite (store_at_middle _ _ _ _ _ _ (c1 ++ [","%char]) (replicate (strlen val) "?"%char));
    [|rewrite lookup_insert_eq; by rewrite <- app_assoc
     |rewrite length_app; simpl; lia
     |by rewrite length_replicate].
  cbn [mbind option_bind].
  erewrite (store_at_middle _ _ _ _ _ _ ((c1 ++ [","%char]) ++ c2) ["?"%char] []);
    [|rewrite lookup_insert_eq; by rewrite <- !app_assoc
     |rewrite !length_app; simpl; lia
     |done].
  cbn [mbind option_bind].
  eexists. split; [reflexivity|]. simpl.
  rewrite lookup_insert_eq. simpl.
  split.
  - f_equal.
    replace (((c1 ++ [","%char]) ++ c2) ++ [Heap.nul])
      with (list_ascii_of_string (c_string param +:+ "," +:+ c_string val) ++ [Heap.nul])
      by (rewrite !list_ascii_app; simpl; by rewrite <- !app_assoc).
    apply until_nul_terminated.
    rewrite !contains_app. unfold c_string. by rewrite !until_nul_no_nul.
  - split; [done|]. split; [done|].
    intros a Ha. by rewrite !lookup_insert_ne.
Qed.

End AddValueFacts.

(** ** The parameter diff *)

Section ParamDiff.

Implicit Types (current : gmap string string) (item body tail : string).

(** Up to the first separator, the loop only extends the item. *)
Lemma PrintParamDiff_loop_item current body rest item :
  CString.contains ";" body = false ->
  PrintParamDiff_loop current (body +:+ String ";" rest) item
  = diff_item current (item +:+ body) ++ PrintParamDiff_loop current rest EmptyString.
Proof.
  revert item. induction body as [|c body IH]; intros item;
    rewrite ?append_cons, ?append_nil; simpl.
  - by rewrite string_app_nil_r.
  - destruct (Ascii.eqb c ";") eqn:Hc; simpl; [done|].
    intros Hbody. rewrite IH by done. by rewrite string_app_assoc.
Qed.

Lemma PrintParamDiff_loop_tail current tail item :
  CString.contains ";" tail = false -> PrintParamDiff_loop current tail item = [].
Proof.
  revert item. induction tail as [|c tail IH]; intros item; simpl; [done|].
  destruct (Ascii.eqb c ";"); simpl; [done|]. apply IH.
Qed.

Lemma PrintParamDiff_loop_app current body rest item :
  PrintParamDiff_loop current (body +:+ String ";" rest) item
  = PrintParamDiff_loop current (body +:+ ";") item
    ++ PrintParamDiff_loop current rest EmptyString.
Proof.
  revert item. induction body as [|c body IH]; intros item;
    rewrite ?append_cons, ?append_nil; simpl.
  - by rewrite app_nil_r.
  - destruct (Ascii.eqb c ";"); simpl.
    + rewrite IH. by rewrite app_assoc.
    + apply IH.
Qed.

Lemma substring_all (s : string) (n : nat) :
  (String.length s <= n)%nat -> substring 0 n s = s.
Proof.
  revert n. induction s as [|c s IH]; intros [|n]; simpl; try done; try lia.
  intros Hn. rewrite IH by lia. done.
Qed.

Lemma split_at_pair (key val : string) :
  CString.contains "=" key = false ->
  split_at "=" (key +:+ String "=" val) = Some (key, val).
Proof.
  induction key as [|c key IH]; rewrite ?append_cons, ?append_nil; simpl; [done|].
  destruct (Ascii.eqb c "="); simpl; [done|]. intros Hkey. by rewrite IH.
Qed.

(** X14. [PrintParamDiff] only looks at items that end in [;]: a
    string without [;] logs nothing, and what follows the last [;] of
    a string is never compared.  An item [key=val;] of at most 2047
    characters logs a change when the store holds another value under
    [key], a new parameter when it holds none, and nothing when it
    holds [val]. *)
Theorem PrintParamDiff_skips_last_item current body tail :
  CString.contains ";" tail = false ->
  PrintParamDiff current tail = [] /\
  PrintParamDiff current (body +:+ String ";" tail) = PrintParamDiff current (body +:+ ";") /\
  forall key val,
    CString.contains "=" key = false ->
    CString.contains ";" (key +:+ String "=" val) = false ->
    (String.length (key +:+ String "=" val) <= 2047)%nat ->
    PrintParamDiff current (key +:+ String "=" val +:+ String ";" tail)
    = match get current key with
      | Some in_current =>
          if String.eqb in_current val then [] else [ValueChanged key in_current val]
      | None => [NewParameter key val]
      end.
Proof.
  intros Htail. unfold PrintParamDiff. split; [|split].
  - by apply PrintParamDiff_loop_tail.
  - rewrite PrintParamDiff_loop_app, (PrintParamDiff_loop_tail _ tail) by done.
    apply app_nil_r.
  - intros key val Hkey Hitem Hlen.
    rewrite <- string_app_assoc.
    rewrite PrintParamDiff_loop_item by done.
    rewrite (PrintParamDiff_loop_tail _ tail) by done. rewrite app_nil_r. simpl.
    unfold diff_item. rewrite append_nil, substring_all by done.
    rewrite split_at_pair by done.
    destruct (get current key) as [in_current|]; [|done].
    by destruct (String.eqb in_current val).
Qed.

End ParamDiff.

(** ** What a successful [setParameters] commits *)

Lemma same_commits_refl p : same_commits p p.
Proof. done. Qed.

Lemma same_commits_trans p1 p2 p3 :
  same_commits p1 p2 -> same_commits p2 p3 -> same_commits p1 p3.
Proof. intros (A1 & A2 & A3) (B1 & B2 & B3). repeat split; congruence. Qed.

Lemma same_commits_set p k v :
  ~ In k [KEY_PICTURE_SIZE; KEY_JPEG_QUALITY; KEY_ROTATION] -> same_commits p (set p k v).
Proof.
  intros Hk. repeat split; apply lookup_set_ne; intros ->; apply Hk; simpl; tauto.
Qed.

Section Committed.

Context {D W N : Type}.
Context `{!V4L2CameraDevice.Ops D, !PreviewWindow.Ops W D, !CallbackNotifier.Ops N D}.

Implicit Types (s : CameraHardware.t D W N).

(** The fields after rotation leave the three keys alone. *)
Lemma setParameters_tail_same_commits (params : gmap string string) (ret : Z) :
  preserves (D := D) (W := W) (N := N) same_commits
    (bind (set_image_effect params ret) (fun ret =>
     bind (set_white_balance params ret) (fun ret =>
     bind (set_exposure_compensation params ret) (fun ret =>
     bind (set_flash_mode params) (fun _ =>
     bind (set_zoom params) (fun _ => pure NO_ERROR)))))).
Proof.
  unfold set_image_effect, set_white_balance, set_exposure_compensation,
    set_flash_mode, set_zoom.
  preserves_with same_commits_refl same_commits_trans
    ltac:(unfold set_int; apply same_commits_set; not_among).
Qed.

Lemma setParameters_commit_outcome p s :
  partial (setParameters p)
    (fun res s' =>
       res = NO_ERROR ->
       let candidate := unflatten p in
       let new := mParameters s' in
       (0 < (getPictureSize candidate).1 -> 0 < (getPictureSize candidate).2 ->
        new !! KEY_PICTURE_SIZE
        = Some (print_size (getPictureSize candidate).1 (getPictureSize candidate).2)) /\
       (1 <= getInt candidate KEY_JPEG_QUALITY <= 100 ->
        new !! KEY_JPEG_QUALITY = Some (CString.print_int (getInt candidate KEY_JPEG_QUALITY)))
       /\
       (0 <= getInt candidate KEY_ROTATION ->
        new !! KEY_ROTATION = Some (CString.print_int (getInt candidate KEY_ROTATION)))) s.
Proof.
  unfold setParameters. cbv zeta.
  apply outcome_bind, outcome_read.
  destruct (mCameraDevice s) as [d|] eqn:Hd; [|by apply outcome_pure].
  apply outcome_bind, outcome_deref; [intros preview_format Hpv|done].
  destruct (negb _); [by apply outcome_pure|].
  apply outcome_bind, outcome_deref; [intros picture_format Hpic|done].
  destruct (negb _); [by apply outcome_pure|].
  destruct (getPictureSize _) as [npw nph].
  destruct (getPreviewSize _) as [nw nh]. simpl.
  set (size_fact := fun s1 : CameraHardware.t D W N =>
         0 < npw -> 0 < nph -> mParameters s1 !! KEY_PICTURE_SIZE = Some (print_size npw nph)).
  set (quality_fact := fun s1 : CameraHardware.t D W N =>
         1 <= getInt (unflatten p) KEY_JPEG_QUALITY <= 100 ->
         mParameters s1 !! KEY_JPEG_QUALITY
         = Some (CString.print_int (getInt (unflatten p) KEY_JPEG_QUALITY))).
  set (rotation_fact := fun s1 : CameraHardware.t D W N =>
         0 <= getInt (unflatten p) KEY_ROTATION ->
         mParameters s1 !! KEY_ROTATION
         = Some (CString.print_int (getInt (unflatten p) KEY_ROTATION))).
  (* picture size *)
  apply outcome_bind.
  assert (outcome True
            (if (0 <? npw) && (0 <? nph)
             then set_parameters_member (fun p0 => setPictureSize p0 npw nph)
             else pure tt)
            (fun _ s1 => size_fact s1) s) as Hsize.
  { destruct (_ && _) eqn:Hpos.
    - apply outcome_set_parameters_member. intros _ _. simpl. unfold setPictureSize.
      rewrite set_stores; [apply lookup_insert_eq|done..|apply print_size_no_equals].
    - apply outcome_pure. intros Hw Hh. lia. }
  eapply outcome_mono; [exact Hsize|]. clear Hsize. intros ? s1 Hsize. simpl in Hsize.
  (* preview size *)
  apply outcome_bind.
  assert (outcome True
            match getPreviewFormat (unflatten p) with
            | Some format =>
                if (0 <? nw) && (0 <? nh) then
                  bind (dev_call (V4L2CameraDevice.tryFmtSize nw nh)
                          (fun r => DevTryFmtSize nw nh r.1 r.2))
                    (fun x => match x with
                              | (ret, (new_preview_width, new_preview_height)) =>
                                  if ret <? 0 then pure (inl ret)
                                  else
                                    bind (set_parameters_member
                                            (fun p0 => setPreviewFormat
                                               (setPreviewSize p0 new_preview_width
                                                  new_preview_height) format))
                                         (fun _ => pure (inr ret))
                              end)
                else pure (inr UNKNOWN_ERROR)
            | None => pure (inr UNKNOWN_ERROR)
            end
            (fun tried s2 =>
               match tried with
               | inl r => r < 0
               | inr _ => size_fact s2
               end) s1) as Htried.
  { destruct (getPreviewFormat (unflatten p)); [|by apply outcome_pure].
    destruct (_ && _); [|by apply outcome_pure].
    apply outcome_bind, outcome_dev_call_partial. intros d1 Hd1.
    destruct (V4L2CameraDevice.tryFmtSize nw nh d1) as [[r [fw fh]] d2]. simpl.
    destruct (r <? 0) eqn:Hneg.
    - apply outcome_pure. lia.
    - apply outcome_bind, outcome_set_parameters_member, outcome_pure.
      intros Hw Hh. simpl. unfold setPreviewFormat, setPreviewSize.
      rewrite !lookup_set_ne by distinct_keys. by apply Hsize. }
  eapply outcome_mono; [exact Htried|]. clear Htried. intros [r|r] s2 Htried.
  { apply outcome_pure. intros ->. unfold NO_ERROR in Htried. lia. }
  (* frame rate *)
  apply outcome_bind. unfold dev_command. apply outcome_dev_call_partial. intros d2 Hd2.
  (* JPEG quality *)
  apply outcome_bind.
  match goal with
  | |- outcome _ _ _ ?s3 =>
      assert (outcome True
                (if (getInt (unflatten p) KEY_JPEG_QUALITY >=? 1)
                    && (getInt (unflatten p) KEY_JPEG_QUALITY <=? 100)
                 then set_parameters_member
                        (fun p0 => set_int p0 KEY_JPEG_QUALITY
                                     (getInt (unflatten p) KEY_JPEG_QUALITY))
                 else pure tt)
                (fun _ s4 => size_fact s4 /\ quality_fact s4) s3) as Hquality
  end.
  { destruct (_ && _) eqn:Hin.
    - apply outcome_set_parameters_member. split.
      + intros Hw Hh. simpl. unfold set_int. rewrite lookup_set_ne by distinct_keys.
        by apply Htried.
      + intros _. simpl. by apply lookup_set_int.
    - apply outcome_pure. split; [exact Htried|]. intros Hrange. lia. }
  eapply outcome_mono; [exact Hquality|]. clear Hquality. intros ? s4 [Hsize4 Hquality4].
  (* rotation *)
  apply outcome_bind.
  assert (outcome True
            (if 0 <=? getInt (unflatten p) KEY_ROTATION
             then set_parameters_member
                    (fun p0 => set_int p0 KEY_ROTATION (getInt (unflatten p) KEY_ROTATION))
             else pure tt)
            (fun _ s5 => size_fact s5 /\ quality_fact s5 /\ rotation_fact s5) s4)
    as Hrotation.
  { destruct (0 <=? _) eqn:Hin.
    - apply outcome_set_parameters_member. repeat split.
      + intros Hw Hh. simpl. unfold set_int. rewrite lookup_set_ne by distinct_keys.
        by apply Hsize4.
      + intros Hrange. simpl. unfold set_int. rewrite lookup_set_ne by distinct_keys.
        by apply Hquality4.
      + intros _. simpl. by apply lookup_set_int.
    - apply outcome_pure. split; [exact Hsize4|]. split; [exact Hquality4|].
      intros Hrange. lia. }
  eapply outcome_mono; [exact Hrotation|]. clear Hrotation.
  intros ? s5 (Hsize5 & Hquality5 & Hrotation5).
  (* the remaining fields *)
  unfold outcome.
  match goal with
  | |- match ?tail s5 with _ => _ end =>
      destruct (tail s5) as [[res s6]|] eqn:Htail; [|done]
  end.
  destruct (setParameters_tail_same_commits _ _ _ _ _ Htail) as [_ (S1 & S2 & S3)].
  intros _. cbv zeta. rewrite S1, S2, S3. split; [exact Hsize5|]. split; assumption.
Qed.



(** X15. A successful [setParameters] can be read back.  With the
    candidate's JPEG quality in 1..100, [getInt] on the stored set gives that
    quality; with a candidate rotation that is not negative it gives
    that rotation; and with both candidate picture dimensions positive
    [getPictureSize] gives the candidate's picture size: the text the
    method stores parses back to the integers it was printed from. *)
Theorem setParameters_reads_back p s s' :
  setParameters p s = Some (NO_ERROR, s') ->
  let candidate := unflatten p in
  let new := mParameters s' in
  (0 < (getPictureSize candidate).1 -> 0 < (getPictureSize candidate).2 ->
   getPictureSize new = getPictureSize candidate) /\
  (1 <= getInt candidate KEY_JPEG_QUALITY <= 100 ->
   getInt new KEY_JPEG_QUALITY = getInt candidate KEY_JPEG_QUALITY) /\
  (0 <= getInt candidate KEY_ROTATION ->
   getInt new KEY_ROTATION = getInt candidate KEY_ROTATION).
Proof.
  intros Hrun. cbv zeta.
  pose proof (setParameters_commit_outcome p s) as Hout.
  unfold outcome in Hout. rewrite Hrun in Hout.
  destruct (Hout eq_refl) as (Hsize & Hquality & Hrotation).
  split; [|split].
  - intros Hw Hh. unfold getPictureSize at 1.
    destruct (get_size_range (unflatten p) KEY_PICTURE_SIZE) as [Rw Rh].
    rewrite (get_size_print_size _ _ _ _ Rw Rh (Hsize Hw Hh)).
    unfold getPictureSize. by destruct (get_size _ _).
  - intros Hq. apply getInt_print_int; [apply getInt_range|by apply Hquality].
  - intros Hr. apply getInt_print_int; [apply getInt_range|by apply Hrotation].
Qed.

End Committed.

(** ** From the candidate set to the capture *)

Section DeviceBound.

Context {D W N : Type}.
Context `{!V4L2CameraDevice.Ops D, !PreviewWindow.Ops W D, !CallbackNotifier.Ops N D}.

Implicit Types (s : CameraHardware.t D W N) (d : D).

Lemma keeps_device_pure {A} (a : A) :
  keeps_device (pure (D := D) (W := W) (N := N) a).
Proof. by intros s b s' [= <- <-]. Qed.

Lemma keeps_device_bind {A B} (m : M D W N A) (k : A -> M D W N B) :
  keeps_device m -> (forall a, keeps_device (k a)) -> keeps_device (bind m k).
Proof.
  intros Hm Hk s b s'. unfold bind.
  destruct (m s) as [[a s1]|] eqn:Hrun; [|done]. intros Hrun2 Hs.
  eapply Hk; [exact Hrun2|]. by eapply Hm.
Qed.

Lemma keeps_device_read {A} (f : CameraHardware.t D W N -> A) : keeps_device (read f).
Proof. by intros s b s' [= <- <-]. Qed.

Lemma keeps_device_deref {A} (o : option A) :
  keeps_device (deref (D := D) (W := W) (N := N) o).
Proof. destruct o; [apply keeps_device_pure|by intros s b s']. Qed.

Lemma keeps_device_dev_call {A} (f : D -> A * D) ev :
  keeps_device (dev_call (W := W) (N := N) f ev).
Proof.
  intros s b s'. unfold dev_call, bind, getCameraDevice.
  destruct (mCameraDevice s) as [d|]; [|done]. destruct (f d) as [a d'].
  intros [= <- <-] _. simpl. eauto.
Qed.

Lemma keeps_device_set_parameters_member f :
  keeps_device (set_parameters_member (D := D) (W := W) (N := N) f).
Proof. by intros s b s' [= <- <-]. Qed.

Lemma setParameters_keeps_device p :
  keeps_device (setParameters (D := D) (W := W) (N := N) p).
Proof.
  unfold setParameters, set_image_effect, set_white_balance,
    set_exposure_compensation, set_flash_mode, set_zoom.
  repeat lazymatch goal with
    | |- keeps_device (bind _ _) => apply keeps_device_bind; [|intros ?]
    | |- keeps_device (pure _) => apply keeps_device_pure
    | |- keeps_device (read _) => apply keeps_device_read
    | |- keeps_device (deref _) => apply keeps_device_deref
    | |- keeps_device (dev_call _ _) => apply keeps_device_dev_call
    | |- keeps_device (dev_command _ _) => apply keeps_device_dev_call
    | |- keeps_device (set_parameters_member _) => apply keeps_device_set_parameters_member
    | |- keeps_device (let '(_, _) := match ?y with Some _ => _ | None => _ end in _) =>
        destruct y eqn:?; cbv beta iota zeta
    | |- keeps_device (if 0 <=? -1 then _ else _) =>
        change (0 <=? -1) with false; cbv iota
    | |- keeps_device (if ?b then _ else _) => destruct b eqn:?
    | |- keeps_device (match ?o with Some _ => _ | None => _ end) => destruct o eqn:?
    | |- keeps_device (match ?o with inl _ => _ | inr _ => _ end) => destruct o eqn:?
    | |- keeps_device (let '(_, _) := ?x in _) => destruct x eqn:?
    end.
Qed.

(** A [setParameters] that reports success ran on a bound device and
    leaves one bound. *)
Lemma setParameters_success_device p s s' :
  setParameters p s = Some (NO_ERROR, s') -> is_Some (mCameraDevice s').
Proof.
  intros Hrun. eapply setParameters_keeps_device; [exact Hrun|].
  destruct (mCameraDevice s) as [d|] eqn:Hd; [eauto|].
  unfold setParameters, bind, read in Hrun. rewrite Hd in Hrun. discriminate Hrun.
Qed.

(** The capture as the driver and the notifier see it. *)
Lemma takePicture_capture_outcome s d fmt :
  mCameraDevice s = Some d ->
  getPictureFormat (mParameters s) = Some fmt ->
  returns takePicture
    (fun res s' =>
       let pic := getPictureSize (mParameters s) in
       let stored := getInt (mParameters s) KEY_JPEG_QUALITY in
       let quality := if stored <=? 0 then 90 else stored in
       exists r frame more,
         calls s' = calls s ++ DevTryFmtSize pic.1 pic.2 r frame
                            :: DevSetPictureSize pic.1 pic.2 :: more /\
         (res = NO_ERROR ->
          List.filter is_notifier_call more
          = [CbSetJpegQuality quality; CbSetTakingPicture true])) s.
Proof.
  intros Hd Hfmt. unfold takePicture.
  apply outcome_bind, outcome_read.
  destruct (getPictureSize (mParameters s)) as [pw ph] eqn:Hpic. simpl.
  apply outcome_bind. eapply outcome_dev_call; [eassumption|].
  destruct (V4L2CameraDevice.tryFmtSize pw ph d) as [[r [fw fh]] d1] eqn:Htry. simpl.
  repeat first
    [ exec_step
    | lazymatch goal with
      | |- outcome _ doStopPreview _ _ =>
          eapply outcome_use;
          [ eapply doStopPreview_quiet; simpl; first [eassumption | reflexivity]
          | let s' := fresh "s'" in
            let Hp := fresh "Hp" in let Hn := fresh "Hn" in
            let more := fresh "more" in let Hm := fresh "Hm" in let Hf := fresh "Hf" in
            let d' := fresh "d'" in let Hd := fresh "Hd" in
            intros _ s' (Hp & Hn & (more & Hm & Hf) & [d' Hd]); simpl in Hp, Hn, Hm ]
      | |- outcome _ doStartPreview _ _ =>
          eapply outcome_use;
          [ eapply doStartPreview_quiet; simpl; first [eassumption | reflexivity]
          | let s' := fresh "s'" in
            let Hp := fresh "Hp" in let Hn := fresh "Hn" in
            let more := fresh "more" in let Hm := fresh "Hm" in let Hf := fresh "Hf" in
            let d' := fresh "d'" in let Hd := fresh "Hd" in
            intros _ s' (Hp & Hn & (more & Hm & Hf) & [d' Hd]); simpl in Hp, Hn, Hm ]
      end ].
  all: try (simpl in *; rewrite getPictureFormat_setPreviewSize in *; congruence).
  all: do 3 eexists; (split; [chain_calls; reflexivity|]).
  all: cbv zeta; simpl in *.
  all: rewrite ?getInt_setPreviewSize in * by distinct_keys.
  all: rewrite ?negb_true_iff, ?negb_false_iff in *.
  all: intros Hres.
  all: try (subst; discriminate).
  all: try (match goal with
            | H : (?x =? NO_ERROR) = false |- _ =>
                rewrite Hres in H; discriminate H
            end).
  all: rewrite ?List.filter_app; simpl.
  all: repeat match goal with
              | H : List.filter _ ?m = [] |- context [List.filter _ ?m] => rewrite H
              end; simpl; rewrite ?app_nil_r.
  all: reflexivity.
Qed.

(** X16. From the candidate set to the capture.  After a
    [setParameters] that reported success on a candidate with a
    positive picture size and a JPEG quality in 1..100, a
    [takePicture] on a session with a stored picture format returns;
    its first two commands are the driver's [tryFmtSize] and
    [setPictureSize] on the candidate's picture size, and when it
    reports success the notifier has been sent exactly the candidate's
    quality and taking-picture [true]. *)
Theorem setParameters_then_takePicture p s s1 fmt :
  setParameters p s = Some (NO_ERROR, s1) ->
  getPictureFormat (mParameters s) = Some fmt ->
  let candidate := unflatten p in
  let pic := getPictureSize candidate in
  let quality := getInt candidate KEY_JPEG_QUALITY in
  0 < pic.1 -> 0 < pic.2 -> 1 <= quality <= 100 ->
  exists res s2 r frame more,
    takePicture s1 = Some (res, s2) /\
    calls s2 = calls s1 ++ DevTryFmtSize pic.1 pic.2 r frame
                        :: DevSetPictureSize pic.1 pic.2 :: more /\
    (res = NO_ERROR ->
     List.filter is_notifier_call more = [CbSetJpegQuality quality; CbSetTakingPicture true]).
Proof.
  intros Hset Hfmt. cbv zeta. intros Hw Hh Hq.
  destruct (setParameters_success_device _ _ _ Hset) as [d1 Hd1].
  pose proof (setParameters_commit_outcome p s) as Hout.
  unfold outcome in Hout. rewrite Hset in Hout.
  destruct (Hout eq_refl) as (Hsize & Hquality & _).
  destruct (get_size_range (unflatten p) KEY_PICTURE_SIZE) as [Rw Rh].
  pose proof (get_size_print_size _ _ _ _ Rw Rh (Hsize Hw Hh)) as Hpic.
  pose proof (getInt_print_int _ _ _ (getInt_range _ _) (Hquality Hq)) as Hstored.
  assert (getPictureFormat (mParameters s1) = Some fmt) as Hfmt1.
  { destruct (setParameters_untouched p KEY_PICTURE_FORMAT ltac:(not_among) _ _ _ Hset)
      as [_ [Hsame|(v & _ & [])]].
    unfold getPictureFormat, get in *. by rewrite Hsame. }
  destruct (outcome_returns _ _ _ _ (takePicture_capture_outcome s1 d1 fmt Hd1 Hfmt1))
    as (res & s2 & Htake & Hpost); [tauto|].
  cbv zeta in Hpost. unfold getPictureSize in Hpost at 1 2 3 4.
  rewrite Hpic, Hstored in Hpost. simpl in Hpost.
  destruct Hpost as (r & frame & more & Hcalls & Hnot).
  exists res, s2, r, frame, more. split; [exact Htake|]. split; [exact Hcalls|].
  intros Hres. rewrite (Hnot Hres).
  destruct (Z.leb_spec (getInt (unflatten p) KEY_JPEG_QUALITY) 0); [lia|done].
Qed.

End DeviceBound.

(** ** The reference collaborators honour the stream contract *)

#[global] Instance reference_stream_contract :
  StreamContract Reference.Device Reference.Window.
Proof.
  split.
  - intros w. simpl.
    destruct (Reference.window_start_result w =? NO_ERROR) eqn:Hres; simpl; [done|].
    intros Hok. apply Z.eqb_neq in Hres. done.
  - intros w h f d. simpl. unfold Reference.answer.
    destruct (Reference.start_result d =? NO_ERROR) eqn:Hres; simpl; [done|].
    intros Hok. apply Z.eqb_neq in Hres. done.
  - intros b d. simpl. unfold Reference.answer.
    by destruct (Reference.deliver_result d =? NO_ERROR).
Qed.

(** ** Further runs on the reference sessions *)

Section FurtherRuns.

Import Reference Scenario.

(** X1, on the reference table and a freshly constructed session. *)
Lemma Initialize_defaults_witness :
  exists p',
    Initialize values0 constructed = Some (NO_ERROR, with_parameters p' constructed) /\
    p' !! KEY_JPEG_QUALITY = Some "90" /\
    p' !! KEY_PREVIEW_FORMAT = Some "yuv420sp" /\
    p' !! KEY_PICTURE_FORMAT = Some "jpeg" /\
    p' !! KEY_FOCUS_MODE = Some "fixed" /\
    p' !! FACING_KEY = None.
Proof.
  destruct (Initialize_defaults values0 constructed eq_refl)
    as (p' & Hrun & _ & _ & _ & Hquality & _ & Hpreview & Hpicture & Hfocus & Hrest).
  exists p'. split; [exact Hrun|]. split; [exact Hquality|].
  split; [exact (Hpreview eq_refl)|]. split; [exact (Hpicture eq_refl)|].
  split; [exact (proj1 (Hfocus eq_refl))|].
  rewrite Hrest; [reflexivity|not_among].
Defined.

(** X2, on a table that supports the sizes only: effect, flash mode and
    zoom stay absent. *)
Lemma Initialize_unsupported_axes_witness :
  match Initialize values_plain constructed_plain with
  | Some (_, s') =>
      mParameters s' !! KEY_EFFECT = None /\
      mParameters s' !! KEY_SUPPORTED_FLASH_MODES = None /\
      mParameters s' !! KEY_ZOOM = None
  | None => False
  end.
Proof.
  assert (returned (Initialize values_plain constructed_plain) = true) as Hout
    by (vm_compute; reflexivity).
  destruct (Initialize values_plain constructed_plain) as [[res s']|] eqn:Hrun;
    [|discriminate Hout].
  destruct (Initialize_unsupported_axes _ _ _ _ Hrun) as (Heffect & Hflash & _ & _ & _ & Hzoom).
  specialize (Heffect eq_refl). specialize (Hflash eq_refl). specialize (Hzoom eq_refl).
  rewrite List.Forall_forall in Heffect, Hflash, Hzoom.
  rewrite (Heffect KEY_EFFECT), (Hflash KEY_SUPPORTED_FLASH_MODES), (Hzoom KEY_ZOOM)
    by (simpl; tauto).
  repeat split.
Defined.

(** X3, on the reference client session. *)
Lemma session_formats_fixed_witness :
  match bind (Initialize values0) (fun _ => serve_all requests0) constructed with
  | Some (_, s2) =>
      getPreviewFormat (mParameters s2) = Some "yuv420sp" /\
      getPictureFormat (mParameters s2) = Some "jpeg" /\
      get (mParameters s2) KEY_VIDEO_FRAME_FORMAT = Some "yuv420sp"
  | None => False
  end.
Proof.
  assert (returned (bind (Initialize values0) (fun _ => serve_all requests0) constructed)
          = true) as Hout by (vm_compute; reflexivity).
  unfold bind in *.
  destruct (Initialize values0 constructed) as [[res s1]|] eqn:Hinit; [|discriminate Hout].
  destruct (serve_all requests0 s1) as [[u s2]|] eqn:Hrun; [|discriminate Hout].
  destruct (session_formats_fixed values0 requests0 constructed res s1 u s2
              eq_refl eq_refl Hinit Hrun) as (Hpreview & Hpicture & Hvideo & _).
  split; [exact Hpreview|]. split; [exact Hpicture|exact Hvideo].
Defined.

(** X4, on the reference client session: the advertised effects and
    the zoom limit are what they were. *)
Lemma requests_change_only_mutable_keys_witness :
  match serve_all requests0 session0 with
  | Some (_, s') =>
      mCameraConfig s' = config0 /\
      mParameters s' !! KEY_SUPPORTED_EFFECTS = Some "none,mono,sepia" /\
      mParameters s' !! KEY_MAX_ZOOM = Some "100"
  | None => False
  end.
Proof.
  assert (returned (serve_all requests0 session0) = true) as Hout
    by (vm_compute; reflexivity).
  destruct (serve_all requests0 session0) as [[u s']|] eqn:Hrun; [|discriminate Hout].
  destruct (requests_change_only_mutable_keys requests0 session0 u s' Hrun)
    as [Hconfig Hkeys].
  split; [exact Hconfig|]. split.
  - destruct (Hkeys KEY_SUPPORTED_EFFECTS) as [Hin|Hsame].
    + vm_compute in Hin. intuition discriminate.
    + rewrite Hsame. vm_compute. reflexivity.
  - destruct (Hkeys KEY_MAX_ZOOM) as [Hin|Hsame].
    + vm_compute in Hin. intuition discriminate.
    + rewrite Hsame. vm_compute. reflexivity.
Defined.

(** X5, on the reference client session, with [info] coming in as a
    front camera at 270 degrees. *)
Lemma getCameraInfo_reports_back_witness :
  match bind (Initialize values0) (fun _ => serve_all requests0) constructed with
  | Some (_, s2) =>
      getCameraInfo (CameraInfo.Build CameraInfo.CAMERA_FACING_FRONT 270) s2
      = Some ((NO_ERROR, CameraInfo.Build CameraInfo.CAMERA_FACING_BACK 0), s2)
  | None => False
  end.
Proof.
  assert (returned (bind (Initialize values0) (fun _ => serve_all requests0) constructed)
          = true) as Hout by (vm_compute; reflexivity).
  unfold bind in *.
  destruct (Initialize values0 constructed) as [[res s1]|] eqn:Hinit; [|discriminate Hout].
  destruct (serve_all requests0 s1) as [[u s2]|] eqn:Hrun; [|discriminate Hout].
  exact (getCameraInfo_reports_back values0 requests0 constructed res s1 u s2 _
           eq_refl eq_refl Hinit Hrun).
Defined.


(** X7, on the idle reference session. *)
Lemma startPreview_success_witness :
  exists s',
    doStartPreview session0 = Some (NO_ERROR, s') /\
    startPreview session0 = Some (NO_ERROR, s') /\
    calls s' = [WinStartPreview NO_ERROR; DevStartDevice 640 480 V4L2_PIX_FMT_NV12 NO_ERROR;
                DevStartDeliveringFrames false NO_ERROR] /\
    enabled (mPreviewWindow s') = true /\
    (exists d', mCameraDevice s' = Some d' /\ started d' = true).
Proof.
  destruct (startPreview_success session0 device0 eq_refl)
    as (res & s' & more & Hrun & Hpublic & Hcalls & Hok).
  assert (outline (doStartPreview session0) = Some (res, calls s')) as Hobs
    by (rewrite Hrun; reflexivity).
  rewrite Hcalls in Hobs. vm_compute in Hobs. injection Hobs as Hres Hmore. subst res more.
  destruct (Hok eq_refl) as (tag & fmt & _ & _ & _ & _ & _ & Hon & Hdev).
  exists s'. split; [exact Hrun|]. split; [exact Hpublic|]. split; [exact Hcalls|].
  split; [exact Hon|exact Hdev].
Defined.

(** X8, on the idle reference session. *)
Lemma preview_start_stop_round_trip_witness :
  match doStartPreview session0 with
  | Some (_, s1) =>
      exists s2,
        doStopPreview s1 = Some (NO_ERROR, s2) /\
        calls s2 = calls s1 ++ [DevStopDeliveringFrames; DevStopDevice NO_ERROR;
                                WinStopPreview] /\
        mParameters s2 = parameters0 /\
        enabled (mPreviewWindow s2) = false /\
        (exists d2, mCameraDevice s2 = Some d2 /\ started d2 = false)
  | None => False
  end.
Proof.
  assert (outline (bind doStartPreview (fun _ => doStopPreview) session0)
          = Some (NO_ERROR,
                  [WinStartPreview NO_ERROR;
                   DevStartDevice 640 480 V4L2_PIX_FMT_NV12 NO_ERROR;
                   DevStartDeliveringFrames false NO_ERROR;
                   DevStopDeliveringFrames; DevStopDevice NO_ERROR; WinStopPreview]))
    as Hboth by (vm_compute; reflexivity).
  assert (outline (doStartPreview session0)
          = Some (NO_ERROR,
                  [WinStartPreview NO_ERROR;
                   DevStartDevice 640 480 V4L2_PIX_FMT_NV12 NO_ERROR;
                   DevStartDeliveringFrames false NO_ERROR]))
    as Hfirst by (vm_compute; reflexivity).
  unfold bind in Hboth.
  destruct (doStartPreview session0) as [[res s1]|] eqn:Hstart; [|discriminate Hfirst].
  injection Hfirst as Hres Hcalls1. subst res.
  destruct (preview_start_stop_round_trip session0 device0 s1 eq_refl Hstart)
    as (r & s2 & Hstop & Hcalls2 & Hpar & Hfinal).
  rewrite Hstop in Hboth. simpl in Hboth. rewrite Hcalls2, Hcalls1 in Hboth.
  assert (r = NO_ERROR) as -> by (simpl in Hboth; congruence).
  exists s2. split; [exact Hstop|]. split; [exact Hcalls2|]. split; [exact Hpar|].
  exact Hfinal.
Defined.

(** X9, on a device that starts but refuses to deliver frames: the
    taking-picture flag is set and cleared again. *)
Lemma takePicture_arms_notifier_witness :
  exists s',
    takePicture deliver_fails = Some (EINVAL, s') /\
    List.filter is_notifier_call (calls s')
    = [CbSetJpegQuality 90; CbSetTakingPicture true; CbSetTakingPicture false] /\
    taking_picture (mCallbackNotifier s') = false.
Proof.
  assert (getPictureFormat (mParameters deliver_fails) = Some "jpeg") as Hfmt
    by (vm_compute; reflexivity).
  destruct (takePicture_arms_notifier deliver_fails device_deliver_fails "jpeg" eq_refl Hfmt)
    as (_ & res & s' & more & Hrun & Hcalls & Hflags).
  assert (outline (takePicture deliver_fails) = Some (res, calls s')) as Hobs
    by (rewrite Hrun; reflexivity).
  rewrite Hcalls in Hobs. vm_compute in Hobs. injection Hobs as Hres Hmore. subst res more.
  exists s'. split; [exact Hrun|].
  rewrite Hcalls.
  destruct Hflags as [[Hnone _]|[Hcommands Hnotifier]]; [discriminate Hnone|].
  split; [exact Hcommands|]. rewrite Hnotifier. reflexivity.
Defined.

(** X10, on a candidate with preview format [rgb565]. *)
Lemma setParameters_status_witness :
  setParameters format_request session0 = Some (BAD_TYPE, session0).
Proof.
  assert (outline (setParameters format_request session0) = Some (BAD_TYPE, [])) as Hobs
    by (vm_compute; reflexivity).
  destruct (setParameters format_request session0) as [[res s']|] eqn:Hrun;
    [|discriminate Hobs].
  injection Hobs as Hres Hcalls.
  destruct (setParameters_status format_request session0 res s' Hrun)
    as [(Hok & _)|[(Hnull & _)|[(_ & Hsame & _)|(_ & adjusted & Htry & _)]]].
  - rewrite Hok in Hres. discriminate Hres.
  - rewrite Hnull in Hres. discriminate Hres.
  - rewrite Hres, Hsame. reflexivity.
  - rewrite Hcalls in Htry. discriminate Htry.
Defined.

(** X11, on a candidate with JPEG quality 0 and picture size 0x480:
    both are left as stored. *)
Lemma setParameters_bounds_witness :
  match setParameters bounds_request session0 with
  | Some (_, s') =>
      mParameters s' !! KEY_JPEG_QUALITY = Some "90" /\
      mParameters s' !! KEY_PICTURE_SIZE = Some "1280x720" /\
      mParameters s' !! KEY_PREVIEW_FORMAT = Some "yuv420sp"
  | None => False
  end.
Proof.
  assert (returned (setParameters bounds_request session0) = true) as Hout
    by (vm_compute; reflexivity).
  destruct (setParameters bounds_request session0) as [[res s']|] eqn:Hrun;
    [|discriminate Hout].
  destruct (setParameters_bounds bounds_request session0 res s' Hrun)
    as (Hquality & _ & Hsize & Hformat).
  assert (getInt (unflatten bounds_request) KEY_JPEG_QUALITY = 0) as Hq
    by (vm_compute; reflexivity).
  assert (getPictureSize (unflatten bounds_request) = (0, 480)) as Hp
    by (vm_compute; reflexivity).
  split; [|split].
  - destruct Hquality as [Hsame|(v & _ & _ & Hrange)]; [|rewrite Hq in Hrange; lia].
    rewrite Hsame. vm_compute. reflexivity.
  - destruct Hsize as [Hsame|(v & _ & _ & Hwidth & _)]; [|rewrite Hp in Hwidth; simpl in Hwidth; lia].
    rewrite Hsame. vm_compute. reflexivity.
  - destruct Hformat as [Hsame|(v & Hv & ->)]; [|exact Hv].
    rewrite Hsame. vm_compute. reflexivity.
Defined.

(** X12, on the reference session and a heap of 4096 bytes. *)
Lemma getParameters_putParameters_round_trip_witness :
  exists h1,
    getParameters session0 heap0 = Some (Heap.Block 1, h1) /\
    Heap.c_str (Heap.Block 1) h1 = Some (flatten (mParameters session0)) /\
    putParameters (Heap.Block 1) h1 = Some (Heap.Build ∅ 4096 2).
Proof.
  assert (N.of_nat (String.length (flatten (mParameters session0))) + 1
          <= Heap.room heap0)%N as Hroom
    by (apply N.leb_le; vm_compute; reflexivity).
  assert (CString.contains Heap.nul (flatten (mParameters session0)) = false) as Hnul
    by (vm_compute; reflexivity).
  destruct (getParameters_putParameters_round_trip session0 heap0 Hroom eq_refl Hnul)
    as (h1 & Hget & Hstr & _ & _ & Hput).
  exists h1. split; [exact Hget|]. split; [exact Hstr|exact Hput].
Defined.

(** X14: the changed effect is logged, the changed rotation after the
    last separator is not. *)
Lemma PrintParamDiff_skips_last_item_witness :
  PrintParamDiff parameters0 "effect=mono;rotation=90" = [ValueChanged "effect" "none" "mono"] /\
  get parameters0 KEY_ROTATION = Some "0".
Proof.
  destruct (PrintParamDiff_skips_last_item parameters0 "effect=mono" "rotation=90" eq_refl)
    as (_ & Hlast & _).
  split; [|vm_compute; reflexivity].
  transitivity (PrintParamDiff parameters0 ("effect=mono" +:+ ";")); [exact Hlast|].
  vm_compute. reflexivity.
Defined.

(** X15, on a candidate with picture size 640x480, JPEG quality 75 and
    rotation 180. *)
Lemma setParameters_reads_back_witness :
  exists s',
    setParameters capture_request session0 = Some (NO_ERROR, s') /\
    getPictureSize (mParameters s') = (640, 480) /\
    getInt (mParameters s') KEY_JPEG_QUALITY = 75 /\
    getInt (mParameters s') KEY_ROTATION = 180.
Proof.
  assert (option_map fst (setParameters capture_request session0) = Some NO_ERROR) as Hobs
    by (vm_compute; reflexivity).
  destruct (setParameters capture_request session0) as [[res s']|] eqn:Hrun;
    [|discriminate Hobs].
  injection Hobs as ->.
  destruct (setParameters_reads_back capture_request session0 s' Hrun)
    as (Hsize & Hquality & Hrotation).
  assert (getPictureSize (unflatten capture_request) = (640, 480)) as Hp
    by (vm_compute; reflexivity).
  assert (getInt (unflatten capture_request) KEY_JPEG_QUALITY = 75) as Hq
    by (vm_compute; reflexivity).
  assert (getInt (unflatten capture_request) KEY_ROTATION = 180) as Hr
    by (vm_compute; reflexivity).
  rewrite Hp in Hsize. rewrite Hq in Hquality. rewrite Hr in Hrotation.
  exists s'. split; [reflexivity|]. split; [apply Hsize; simpl; lia|].
  split; [apply Hquality; lia|apply Hrotation; lia].
Defined.

(** X16, on the same candidate: the capture works on 640x480 and, when
    it succeeds, with quality 75. *)
Lemma setParameters_then_takePicture_witness :
  exists s1 res s2 r frame more,
    setParameters capture_request session0 = Some (NO_ERROR, s1) /\
    takePicture s1 = Some (res, s2) /\
    calls s2 = calls s1 ++ DevTryFmtSize 640 480 r frame
                        :: DevSetPictureSize 640 480 :: more /\
    (res = NO_ERROR ->
     List.filter is_notifier_call more = [CbSetJpegQuality 75; CbSetTakingPicture true]).
Proof.
  assert (option_map fst (setParameters capture_request session0) = Some NO_ERROR) as Hobs
    by (vm_compute; reflexivity).
  destruct (setParameters capture_request session0) as [[res1 s1]|] eqn:Hrun;
    [|discriminate Hobs].
  injection Hobs as ->.
  assert (getPictureFormat (mParameters session0) = Some "jpeg") as Hfmt
    by (vm_compute; reflexivity).
  pose proof (setParameters_then_takePicture capture_request session0 s1 "jpeg" Hrun Hfmt)
    as Hboth.
  assert (getPictureSize (unflatten capture_request) = (640, 480)) as Hp
    by (vm_compute; reflexivity).
  assert (getInt (unflatten capture_request) KEY_JPEG_QUALITY = 75) as Hq
    by (vm_compute; reflexivity).
  cbv zeta in Hboth. rewrite Hp, Hq in Hboth. simpl in Hboth.
  destruct (Hboth ltac:(lia) ltac:(lia) ltac:(lia))
    as (res & s2 & r & frame & more & Htake & Hcalls & Hnotifier).
  exists s1, res, s2, r, frame, more. split; [reflexivity|]. split; [exact Htake|].
  split; [exact Hcalls|exact Hnotifier].
Defined.

End FurtherRuns.
